(** * go-http-commons: response interception, interceptor and logging middlewares

    A shallow embedding of package [middlewares]
    (the response interceptor and the interceptor builder of the first file,
    the logging builder of [middlewares/logging.go]) and the properties of
    the specification that concern them.

    Conventions of the embedding.
    - Go [int] is a 64-bit two's complement integer: a [Z] kept in range by
      [wrap_int] wherever the source does arithmetic on it.
    - An interface is a type class; a method with a pointer receiver takes
      the receiver's state and returns the new one.
    - The interceptor holds its delegate: the state of the real sink after a
      handler ran on an interceptor is the [delegate] of the interceptor it
      returns.
    - Builders are heap objects reached through pointers ([loc]); the closures
      that [Build] returns keep the pointer they captured and read the heap
      when a request is served.  Slices are headers (array, len, cap) over
      backing arrays in the heap.
    - A panic (nil function value, nil pointer) is the result [None].

    Left out, since no property below depends on them: [Hijack], the
    extractors that read a header by name, and the packages [output],
    [openapi] and [config]. *)

From stdpp Require Import base option list gmap strings numbers fin_maps.
From Stdlib Require Import ZArith Lia.
From Stdlib.Strings Require Import Byte.

Local Open Scope Z_scope.

(** ** Go base types *)

Definition MinInt : Z := - 2 ^ 63.
Definition MaxInt : Z := 2 ^ 63 - 1.

(** Two's complement wrap-around of Go's [int]. *)
Definition wrap_int (z : Z) : Z := (z + 2 ^ 63) mod 2 ^ 64 - 2 ^ 63.

Definition in_int (z : Z) : Prop := MinInt <= z <= MaxInt.

(** [error]: [None] is [nil]. *)
Definition error := option string.

(** [interface{}] values that the extractors of this package produce, with
    their dynamic type. *)
Inductive any :=
| any_string (s : string)
| any_int (n : Z)
| any_int64 (n : Z).

Definition bytes := list byte.

Definition len_bytes (b : bytes) : Z := Z.of_nat (length b).

(** ** net/http *)

Definition http_Header := gmap string (list string).

Definition http_StatusOK : Z := 200.

Definition context_Context := nat.

(** The fields of [*http.Request] that this package reads. *)
Record http_Request := {
  Method : string;
  URL_Path : string;
  ContentLength : Z;
  Context : context_Context
}.

(** [http.ResponseWriter]. *)
Module ResponseWriter.
Class t (W : Type) := {
  Header : W -> http_Header;
  Write : bytes -> W -> (Z * error) * W;
  WriteHeader : Z -> W -> W
}.
End ResponseWriter.

(** ** The response interceptor *)

(** [InterceptedResponse]: [Status] has a pointer receiver and stores the
    default, so it returns the receiver too. *)
Module InterceptedResponse.
Class t (I : Type) := {
  Status : I -> Z * I;
  Written : I -> Z;
  Header : I -> http_Header;
  Request : I -> http_Request
}.
End InterceptedResponse.

(** [sync.Once]: whether the function has run. *)
Definition sync_Once := bool.

Record respInterceptor (D : Type) := mk_respInterceptor {
  wroteHeader : bool;
  delegate : D;
  written : Z;
  status : Z;
  req : http_Request;
  sendStatus : sync_Once
}.
Arguments mk_respInterceptor {D}.
Arguments wroteHeader {D}.
Arguments delegate {D}.
Arguments written {D}.
Arguments status {D}.
Arguments req {D}.
Arguments sendStatus {D}.

(** [&respInterceptor{delegate: w, req: r}]: the other fields are zero. *)
Definition new_respInterceptor {D} (w : D) (r : http_Request) : respInterceptor D :=
  mk_respInterceptor false w 0 0 r false.

Section RespInterceptor.
Context {D : Type} `{!ResponseWriter.t D}.

Definition respInterceptor_Header (i : respInterceptor D) : http_Header :=
  ResponseWriter.Header (delegate i).

Definition respInterceptor_Write (b : bytes) (i : respInterceptor D)
  : (Z * error) * respInterceptor D :=
  let '((size, err), d) := ResponseWriter.Write b (delegate i) in
  ((size, err),
   mk_respInterceptor true d (wrap_int (written i + size)) (status i) (req i)
     (sendStatus i)).

Definition respInterceptor_WriteHeader (statusCode : Z) (i : respInterceptor D)
  : respInterceptor D :=
  if negb (wroteHeader i) then
    mk_respInterceptor (wroteHeader i)
      (ResponseWriter.WriteHeader statusCode (delegate i))
      (written i) statusCode (req i) (sendStatus i)
  else i.

Definition respInterceptor_Written (i : respInterceptor D) : Z := written i.

Definition respInterceptor_Status (i : respInterceptor D) : Z * respInterceptor D :=
  if status i =? 0 then
    (http_StatusOK,
     mk_respInterceptor (wroteHeader i) (delegate i) (written i) http_StatusOK
       (req i) (sendStatus i))
  else (status i, i).

Definition respInterceptor_Request (i : respInterceptor D) : http_Request := req i.

#[global] Instance respInterceptor_ResponseWriter : ResponseWriter.t (respInterceptor D) := {
  ResponseWriter.Header := respInterceptor_Header;
  ResponseWriter.Write := respInterceptor_Write;
  ResponseWriter.WriteHeader := respInterceptor_WriteHeader
}.

#[global] Instance respInterceptor_InterceptedResponse : InterceptedResponse.t (respInterceptor D) := {
  InterceptedResponse.Status := respInterceptor_Status;
  InterceptedResponse.Written := respInterceptor_Written;
  InterceptedResponse.Header := respInterceptor_Header;
  InterceptedResponse.Request := respInterceptor_Request
}.
End RespInterceptor.

(** A handler's calls on a response sink, run in order; the results of the
    [Write] calls are collected. *)
Inductive call :=
| call_Write (b : bytes)
| call_WriteHeader (statusCode : Z).

Fixpoint run_calls {W : Type} `{!ResponseWriter.t W} (cs : list call) (w : W)
  : list (Z * error) * W :=
  match cs with
  | [] => ([], w)
  | call_Write b :: cs' =>
      let '(res, w1) := ResponseWriter.Write b w in
      let '(rs, w2) := run_calls cs' w1 in
      (res :: rs, w2)
  | call_WriteHeader statusCode :: cs' =>
      run_calls cs' (ResponseWriter.WriteHeader statusCode w)
  end.

(** The byte slices of the [Write] calls. *)
Fixpoint written_slices (cs : list call) : list bytes :=
  match cs with
  | [] => []
  | call_Write b :: cs' => b :: written_slices cs'
  | call_WriteHeader _ :: cs' => written_slices cs'
  end.

Definition sum_Z (zs : list Z) : Z := foldr Z.add 0 zs.

(** A sink that takes every byte it is given. *)
Definition accepts_all (W : Type) `{!ResponseWriter.t W} : Prop :=
  forall b w, fst (ResponseWriter.Write b w) = (len_bytes b, None).

(** ** Real sinks used in the examples *)

(** A sink that records what reaches it: every status code passed to
    [WriteHeader], and the body. *)
Record recorder := mk_recorder {
  rec_header : http_Header;
  rec_codes : list Z;
  rec_body : bytes
}.

Definition new_recorder : recorder := mk_recorder ∅ [] [].

#[global] Instance recorder_ResponseWriter : ResponseWriter.t recorder := {
  ResponseWriter.Header w := rec_header w;
  ResponseWriter.Write b w :=
    ((len_bytes b, None), mk_recorder (rec_header w) (rec_codes w) (rec_body w ++ b));
  ResponseWriter.WriteHeader statusCode w :=
    mk_recorder (rec_header w) (rec_codes w ++ [statusCode]) (rec_body w)
}.

(** A sink over a connection that breaks after [room] more bytes: a write
    that does not fit is cut short and reports an error. *)
Record broken_pipe := mk_broken_pipe {
  room : nat;
  sent : bytes
}.

#[global] Instance broken_pipe_ResponseWriter : ResponseWriter.t broken_pipe := {
  ResponseWriter.Header _ := ∅;
  ResponseWriter.Write b w :=
    if (length b <=? room w)%nat then
      ((len_bytes b, None), mk_broken_pipe (room w - length b) (sent w ++ b))
    else
      ((Z.of_nat (room w), Some "broken pipe"%string),
       mk_broken_pipe 0 (sent w ++ take (room w) b));
  ResponseWriter.WriteHeader _ w := w
}.

(** ** log/slog *)

Inductive slog_Logger :=
| slog_Default
| slog_Custom (id : nat).

Definition slog_Level := Z.
Definition slog_LevelInfo : slog_Level := 0.

(** One call of the method [Log] of a [slog.Logger]. *)
Record slog_Log := mk_slog_Log {
  log_logger : slog_Logger;
  log_ctx : context_Context;
  log_level : slog_Level;
  log_msg : string;
  log_args : list any
}.

(** ** Effects of request handling *)

Section Effects.
(** State owned by the caller's handlers, callbacks and extractors. *)
Variable U : Type.

(** What request handling can change: the log calls made so far, oldest
    first, and the caller's state. *)
Record Obs := mk_Obs {
  logs : list slog_Log;
  user : U
}.

(** Computations that may change [Obs] or panic. *)
Definition M (A : Type) : Type := Obs -> option (A * Obs).

Definition ret {A} (a : A) : M A := fun o => Some (a, o).

Definition bind {A B} (m : M A) (k : A -> M B) : M B :=
  fun o => match m o with
           | Some (a, o') => k a o'
           | None => None
           end.

Definition panic {A} : M A := fun _ => None.

Definition Logger_Log (lg : slog_Logger) (ctx : context_Context)
    (level : slog_Level) (msg : string) (args : list any) : M unit :=
  fun o => Some (tt, mk_Obs (logs o ++ [mk_slog_Log lg ctx level msg args]) (user o)).
End Effects.

Arguments mk_Obs {U}.
Arguments logs {U}.
Arguments user {U}.
Arguments ret {U A}.
Arguments bind {U A B}.
Arguments panic {U A}.
Arguments Logger_Log {U}.

Declare Scope go_scope.
Delimit Scope go_scope with go.
Notation "'let*' x ':=' m 'in' k" := (bind m (fun x => k))
  (at level 10, x pattern, m at level 100, k at level 200) : go_scope.
Notation "m ';;' k" := (bind m (fun _ => k))
  (at level 100, k at level 200, right associativity) : go_scope.

(** ** The heap: slices and their backing arrays *)

Definition loc := positive.

(** A slice header.  [array = None] is the nil slice. *)
Record slice := mk_slice {
  array : option loc;
  len : nat;
  cap : nat
}.

Definition nil_slice : slice := mk_slice None 0 0.

Section Slices.
Context {T : Type}.
(** The zero value of the element type. *)
Variable zero : T.
(** The capacity the runtime picks when [append] has to grow a slice of
    capacity [old] to hold [needed] elements. *)
Variable growslice : nat -> nat -> nat.

Local Abbreviation store := (gmap loc (list T)).

(** [s[0], ..., s[len(s)-1]]. *)
Definition slice_elems (s : slice) (m : store) : option (list T) :=
  match array s with
  | None => Some []
  | Some p =>
      match m !! p with
      | Some a => Some (take (len s) a)
      | None => None
      end
  end.

(** [make([]T, n)]. *)
Definition make (n : nat) (m : store) : slice * store :=
  let p := fresh (dom m) in
  (mk_slice (Some p) n n, <[p := replicate n zero]> m).

(** [copy(dst, src)]: the number of elements copied and the new store. *)
Definition copy (dst src : slice) (m : store) : option (nat * store) :=
  match slice_elems src m with
  | None => None
  | Some xs =>
      let n := (len dst `min` len src)%nat in
      match array dst with
      | None => Some (n, m)
      | Some p =>
          match m !! p with
          | Some a => Some (n, <[p := take n xs ++ drop n a]> m)
          | None => None
          end
      end
  end.

(** [append(s, xs...)]: in place when the capacity suffices, into a new
    array otherwise. *)
Definition append (s : slice) (xs : list T) (m : store) : option (slice * store) :=
  let n := length xs in
  if (len s + n <=? cap s)%nat then
    match array s with
    | None => match xs with [] => Some (s, m) | _ => None end
    | Some p =>
        match m !! p with
        | Some a =>
            Some (mk_slice (Some p) (len s + n) (cap s),
                  <[p := take (len s) a ++ xs ++ drop (len s + n) a]> m)
        | None => None
        end
    end
  else
    match slice_elems s m with
    | None => None
    | Some old =>
        let p := fresh (dom m) in
        let newcap := growslice (cap s) (len s + n) in
        Some (mk_slice (Some p) (len s + n) newcap,
              <[p := old ++ xs ++ replicate (newcap - (len s + n)) zero]> m)
    end.
End Slices.

(** ** Callbacks, extractors and the builders' structs *)

Section Middlewares.
(** State owned by the caller's code. *)
Variable U : Type.
(** The runtime's growth policy for [append]. *)
Variable growslice : nat -> nat -> nat.

Local Abbreviation M := (M U).
Local Open Scope go_scope.

Definition ReqInfoExtractorFn : Type := http_Request -> M (string * any).

(** An extractor is given the interceptor through [InterceptedResponse]
    and hands it back, since [Status] may have stored the default. *)
Definition RespInfoExtractorFn : Type :=
  forall (I : Type), InterceptedResponse.t I -> I -> M ((string * any) * I).

(** The zero value of a function type is nil; calling it panics. *)
Definition nil_ReqInfoExtractorFn : ReqInfoExtractorFn := fun _ => panic.
Definition nil_RespInfoExtractorFn : RespInfoExtractorFn := fun _ _ _ => panic.

Definition PathReqInfoExtractor : ReqInfoExtractorFn :=
  fun r => ret ("path"%string, any_string (URL_Path r)).

Definition MethodReqInfoExtractor : ReqInfoExtractorFn :=
  fun r => ret ("method"%string, any_string (Method r)).

Definition SizeReqInfoExtractor : ReqInfoExtractorFn :=
  fun r => ret ("size"%string, any_int64 (ContentLength r)).

Definition DeferredReqInfoExtractor (delegate : ReqInfoExtractorFn) : ReqInfoExtractorFn :=
  fun r => delegate r.

Definition StatusRespInfoExtractor : RespInfoExtractorFn :=
  fun I _ resp =>
    let '(s, resp') := InterceptedResponse.Status resp in
    ret ("status"%string, any_int s, resp').

Definition SizeRespInfoExtractor : RespInfoExtractorFn :=
  fun I _ resp =>
    ret ("body_size"%string, any_int (InterceptedResponse.Written resp), resp).

Record interceptorBuilderImpl := mk_interceptorBuilderImpl {
  filterFn : http_Request -> M bool;
  bcb : http_Request -> M unit;
  cb : forall (I : Type), InterceptedResponse.t I -> I -> M unit
}.

Record loggingBuilderImpl := mk_loggingBuilderImpl {
  l : slog_Logger;
  lvl : slog_Level;
  reqLog : bool;
  respLog : bool;
  reqMsg : string;
  respMsg : string;
  reqInfoFns : slice;
  respInfoFns : slice
}.

(** The heap of the package: backing arrays of the two kinds of slices,
    the builders, and the package-level slice variables. *)
Record Heap := mk_Heap {
  reqArrays : gmap loc (list ReqInfoExtractorFn);
  respArrays : gmap loc (list RespInfoExtractorFn);
  loggingBuilders : gmap loc loggingBuilderImpl;
  interceptorBuilders : gmap loc interceptorBuilderImpl;
  DefaultReqInfoExtractors : slice;
  DefaultRespInfoExtractors : slice
}.

Definition set_reqArrays (m : gmap loc (list ReqInfoExtractorFn)) (h : Heap) : Heap :=
  mk_Heap m (respArrays h) (loggingBuilders h) (interceptorBuilders h)
    (DefaultReqInfoExtractors h) (DefaultRespInfoExtractors h).

Definition set_respArrays (m : gmap loc (list RespInfoExtractorFn)) (h : Heap) : Heap :=
  mk_Heap (reqArrays h) m (loggingBuilders h) (interceptorBuilders h)
    (DefaultReqInfoExtractors h) (DefaultRespInfoExtractors h).

(** [*p = b] for a logging builder. *)
Definition store_loggingBuilder (p : loc) (b : loggingBuilderImpl) (h : Heap) : Heap :=
  mk_Heap (reqArrays h) (respArrays h) (<[p := b]> (loggingBuilders h))
    (interceptorBuilders h) (DefaultReqInfoExtractors h) (DefaultRespInfoExtractors h).

(** [*p = b] for an interceptor builder. *)
Definition store_interceptorBuilder (p : loc) (b : interceptorBuilderImpl) (h : Heap) : Heap :=
  mk_Heap (reqArrays h) (respArrays h) (loggingBuilders h)
    (<[p := b]> (interceptorBuilders h)) (DefaultReqInfoExtractors h)
    (DefaultRespInfoExtractors h).

(** [http.Handler]: [ServeHTTP(w, r)] for any implementation of the sink.
    Serving a request reads the heap and does not write it: builders are
    configured before requests are served. *)
Definition http_Handler : Type :=
  forall (W : Type), ResponseWriter.t W -> W -> http_Request -> Heap -> M W.

Definition Middleware : Type := http_Handler -> http_Handler.

(** ** The interceptor builder *)

Definition interceptorBuilderImpl_WithRequestFilter (f : http_Request -> M bool)
    (i : loc) (h : Heap) : option (loc * Heap) :=
  match interceptorBuilders h !! i with
  | Some b => Some (i, store_interceptorBuilder i (mk_interceptorBuilderImpl f (bcb b) (cb b)) h)
  | None => None
  end.

Definition interceptorBuilderImpl_WithBeforeCallback (f : http_Request -> M unit)
    (i : loc) (h : Heap) : option (loc * Heap) :=
  match interceptorBuilders h !! i with
  | Some b => Some (i, store_interceptorBuilder i (mk_interceptorBuilderImpl (filterFn b) f (cb b)) h)
  | None => None
  end.

Definition interceptorBuilderImpl_WithCallback
    (f : forall (I : Type), InterceptedResponse.t I -> I -> M unit)
    (i : loc) (h : Heap) : option (loc * Heap) :=
  match interceptorBuilders h !! i with
  | Some b => Some (i, store_interceptorBuilder i (mk_interceptorBuilderImpl (filterFn b) (bcb b) f) h)
  | None => None
  end.

(** The handler that [Build] returns for [next]: it holds the pointer [i]
    and reads the builder's fields when the request arrives. *)
Definition interceptorBuilderImpl_ServeHTTP (i : loc) (next : http_Handler) : http_Handler :=
  fun W RW w r h =>
    match interceptorBuilders h !! i with
    | None => panic
    | Some b =>
        let* ok := filterFn b r in
        if ok : bool then
          bcb b r ;;
          let ir := new_respInterceptor w r in
          let* ir' := next (respInterceptor W) _ ir r h in
          cb b _ _ ir' ;;
          ret (delegate ir')
        else
          next W RW w r h
    end.

Definition interceptorBuilderImpl_Build (i : loc) : Middleware :=
  fun next => interceptorBuilderImpl_ServeHTTP i next.

Definition NewInterceptorBuilder (h : Heap) : loc * Heap :=
  let i := fresh (dom (interceptorBuilders h)) in
  (i, store_interceptorBuilder i
        (mk_interceptorBuilderImpl (fun _ => ret true) (fun _ => ret tt)
           (fun _ _ _ => ret tt)) h).

(** ** The logging builder *)

Definition DefHttpReqMessage : string := "http request".
Definition DefHttpRespMessage : string := "http response".

Definition loggingBuilderImpl_clone (lb : loc) (h : Heap) : option (loc * Heap) :=
  match loggingBuilders h !! lb with
  | None => None
  | Some b =>
      let '(rq, reqA) := make nil_ReqInfoExtractorFn (len (reqInfoFns b)) (reqArrays h) in
      let '(rs, respA) := make nil_RespInfoExtractorFn (len (respInfoFns b)) (respArrays h) in
      let out := fresh (dom (loggingBuilders h)) in
      let outv :=
        mk_loggingBuilderImpl (l b) (lvl b) (reqLog b) (respLog b) (reqMsg b)
          (respMsg b) rq rs in
      match copy rq (reqInfoFns b) reqA with
      | None => None
      | Some (_, reqA') =>
          match copy rs (respInfoFns b) respA with
          | None => None
          | Some (_, respA') =>
              Some (out,
                    mk_Heap reqA' respA' (<[out := outv]> (loggingBuilders h))
                      (interceptorBuilders h) (DefaultReqInfoExtractors h)
                      (DefaultRespInfoExtractors h))
          end
      end
  end.

(** Assignment to one field of the builder at [lb]. *)
Definition update_loggingBuilder (f : loggingBuilderImpl -> loggingBuilderImpl)
    (lb : loc) (h : Heap) : option (loc * Heap) :=
  match loggingBuilders h !! lb with
  | Some b => Some (lb, store_loggingBuilder lb (f b) h)
  | None => None
  end.

Definition loggingBuilderImpl_ClearRequestInfoExtractors (lb : loc) (h : Heap)
  : option (loc * Heap) :=
  match loggingBuilders h !! lb with
  | None => None
  | Some b =>
      let '(s, reqA) := make nil_ReqInfoExtractorFn 0 (reqArrays h) in
      Some (lb,
            store_loggingBuilder lb
              (mk_loggingBuilderImpl (l b) (lvl b) (reqLog b) (respLog b) (reqMsg b)
                 (respMsg b) s (respInfoFns b))
              (set_reqArrays reqA h))
  end.

Definition loggingBuilderImpl_AddRequestInfoExtractors (extFns : list ReqInfoExtractorFn)
    (lb : loc) (h : Heap) : option (loc * Heap) :=
  match loggingBuilders h !! lb with
  | None => None
  | Some b =>
      match append nil_ReqInfoExtractorFn growslice (reqInfoFns b) extFns (reqArrays h) with
      | None => None
      | Some (s, reqA) =>
          Some (lb,
                store_loggingBuilder lb
                  (mk_loggingBuilderImpl (l b) (lvl b) (reqLog b) (respLog b) (reqMsg b)
                     (respMsg b) s (respInfoFns b))
                  (set_reqArrays reqA h))
      end
  end.

Definition loggingBuilderImpl_ClearResponseInfoExtractors (lb : loc) (h : Heap)
  : option (loc * Heap) :=
  match loggingBuilders h !! lb with
  | None => None
  | Some b =>
      let '(s, respA) := make nil_RespInfoExtractorFn 0 (respArrays h) in
      Some (lb,
            store_loggingBuilder lb
              (mk_loggingBuilderImpl (l b) (lvl b) (reqLog b) (respLog b) (reqMsg b)
                 (respMsg b) (reqInfoFns b) s)
              (set_respArrays respA h))
  end.

Definition loggingBuilderImpl_AddResponseInfoExtractors (extFns : list RespInfoExtractorFn)
    (lb : loc) (h : Heap) : option (loc * Heap) :=
  match loggingBuilders h !! lb with
  | None => None
  | Some b =>
      match append nil_RespInfoExtractorFn growslice (respInfoFns b) extFns (respArrays h) with
      | None => None
      | Some (s, respA) =>
          Some (lb,
                store_loggingBuilder lb
                  (mk_loggingBuilderImpl (l b) (lvl b) (reqLog b) (respLog b) (reqMsg b)
                     (respMsg b) (reqInfoFns b) s)
                  (set_respArrays respA h))
      end
  end.

Definition loggingBuilderImpl_WithRequestMessage (msg : string) : loc -> Heap -> option (loc * Heap) :=
  update_loggingBuilder (fun b =>
    mk_loggingBuilderImpl (l b) (lvl b) (reqLog b) (respLog b) msg (respMsg b)
      (reqInfoFns b) (respInfoFns b)).

Definition loggingBuilderImpl_WithResponseMessage (msg : string) : loc -> Heap -> option (loc * Heap) :=
  update_loggingBuilder (fun b =>
    mk_loggingBuilderImpl (l b) (lvl b) (reqLog b) (respLog b) (reqMsg b) msg
      (reqInfoFns b) (respInfoFns b)).

Definition loggingBuilderImpl_DisableResponseLog : loc -> Heap -> option (loc * Heap) :=
  update_loggingBuilder (fun b =>
    mk_loggingBuilderImpl (l b) (lvl b) (reqLog b) false (reqMsg b) (respMsg b)
      (reqInfoFns b) (respInfoFns b)).

Definition loggingBuilderImpl_DisableRequestLog : loc -> Heap -> option (loc * Heap) :=
  update_loggingBuilder (fun b =>
    mk_loggingBuilderImpl (l b) (lvl b) false (respLog b) (reqMsg b) (respMsg b)
      (reqInfoFns b) (respInfoFns b)).

Definition loggingBuilderImpl_WithLevel (level : slog_Level) : loc -> Heap -> option (loc * Heap) :=
  update_loggingBuilder (fun b =>
    mk_loggingBuilderImpl (l b) level (reqLog b) (respLog b) (reqMsg b) (respMsg b)
      (reqInfoFns b) (respInfoFns b)).

Definition loggingBuilderImpl_WithLogger (logger : slog_Logger) : loc -> Heap -> option (loc * Heap) :=
  update_loggingBuilder (fun b =>
    mk_loggingBuilderImpl logger (lvl b) (reqLog b) (respLog b) (reqMsg b) (respMsg b)
      (reqInfoFns b) (respInfoFns b)).

(** [for _, fn := range c.reqInfoFns { k, v := fn(r); args = append(args, k);
    args = append(args, v) }], from the accumulated [args]. *)
Fixpoint range_reqInfoFns (fns : list ReqInfoExtractorFn) (r : http_Request)
    (args : list any) : M (list any) :=
  match fns with
  | [] => ret args
  | fn :: fns' =>
      let* (k, v) := fn r in
      range_reqInfoFns fns' r ((args ++ [any_string k]) ++ [v])
  end.

(** The same loop over the response extractors, on the interceptor. *)
Fixpoint range_respInfoFns {I : Type} `{!InterceptedResponse.t I}
    (fns : list RespInfoExtractorFn) (ir : I) (args : list any) : M (list any * I) :=
  match fns with
  | [] => ret (args, ir)
  | fn :: fns' =>
      let* (k, v, ir') := fn I _ ir in
      range_respInfoFns fns' ir' ((args ++ [any_string k]) ++ [v])
  end.

(** The first [if] of the handler: the request log. *)
Definition loggingBuilderImpl_logRequest (c : loggingBuilderImpl) (r : http_Request)
    (h : Heap) : M unit :=
  if reqLog c then
    match slice_elems (reqInfoFns c) (reqArrays h) with
    | None => panic
    | Some fns =>
        let* args := range_reqInfoFns fns r [] in
        Logger_Log (l c) (Context r) (lvl c) (reqMsg c) args
    end
  else ret tt.

(** The second [if] of the handler: interception and the response log, or
    the plain call of [next]. *)
Definition loggingBuilderImpl_dispatch (c : loggingBuilderImpl) (next : http_Handler)
  : http_Handler :=
  fun W RW w r h =>
    if respLog c then
      let ir := new_respInterceptor w r in
      let* ir1 := next (respInterceptor W) _ ir r h in
      match slice_elems (respInfoFns c) (respArrays h) with
      | None => panic
      | Some fns =>
          let* (args, ir2) := range_respInfoFns fns ir1 [] in
          Logger_Log (l c) (Context r) (lvl c) (respMsg c) args ;;
          ret (delegate ir2)
      end
    else
      next W RW w r h.

(** The handler that [Build] returns for [next]; [c] points to the clone. *)
Definition loggingBuilderImpl_ServeHTTP (c : loc) (next : http_Handler) : http_Handler :=
  fun W RW w r h =>
    match loggingBuilders h !! c with
    | None => panic
    | Some cv =>
        loggingBuilderImpl_logRequest cv r h ;;
        loggingBuilderImpl_dispatch cv next W RW w r h
    end.

Definition loggingBuilderImpl_Build (lb : loc) (h : Heap) : option (Middleware * Heap) :=
  match loggingBuilderImpl_clone lb h with
  | None => None
  | Some (c, h') => Some (fun next => loggingBuilderImpl_ServeHTTP c next, h')
  end.

Definition NewLoggingBuilder (h : Heap) : loc * Heap :=
  let lb := fresh (dom (loggingBuilders h)) in
  (lb, store_loggingBuilder lb
         (mk_loggingBuilderImpl slog_Default slog_LevelInfo true true
            DefHttpReqMessage DefHttpRespMessage
            (DefaultReqInfoExtractors h) (DefaultRespInfoExtractors h)) h).

(** Package initialisation: the two default extractor slices, then
    [DefaultLoggingMiddleware = NewLoggingBuilder().Build()]. *)
Definition init_slices : Heap :=
  let reqA : gmap loc (list ReqInfoExtractorFn) := ∅ in
  let respA : gmap loc (list RespInfoExtractorFn) := ∅ in
  let p := fresh (dom reqA) in
  let q := fresh (dom respA) in
  mk_Heap
    (<[p := [MethodReqInfoExtractor; PathReqInfoExtractor; SizeReqInfoExtractor]]> reqA)
    (<[q := [StatusRespInfoExtractor; SizeRespInfoExtractor]]> respA)
    ∅ ∅ (mk_slice (Some p) 3 3) (mk_slice (Some q) 2 2).

Definition package_init : option (Middleware * Heap) :=
  let '(lb, h) := NewLoggingBuilder init_slices in
  loggingBuilderImpl_Build lb h.

(** ** Configuration after [Build] *)

(** The calls a caller can make on a logging builder it holds. *)
Inductive loggingBuilder_call :=
| call_WithLogger (logger : slog_Logger)
| call_WithLevel (level : slog_Level)
| call_WithRequestMessage (msg : string)
| call_WithResponseMessage (msg : string)
| call_DisableResponseLog
| call_DisableRequestLog
| call_ClearRequestInfoExtractors
| call_AddRequestInfoExtractors (extFns : list ReqInfoExtractorFn)
| call_ClearResponseInfoExtractors
| call_AddResponseInfoExtractors (extFns : list RespInfoExtractorFn)
| call_Build.

Definition run_loggingBuilder_call (k : loggingBuilder_call) (lb : loc) (h : Heap)
  : option Heap :=
  match k with
  | call_WithLogger logger => snd <$> loggingBuilderImpl_WithLogger logger lb h
  | call_WithLevel level => snd <$> loggingBuilderImpl_WithLevel level lb h
  | call_WithRequestMessage msg => snd <$> loggingBuilderImpl_WithRequestMessage msg lb h
  | call_WithResponseMessage msg => snd <$> loggingBuilderImpl_WithResponseMessage msg lb h
  | call_DisableResponseLog => snd <$> loggingBuilderImpl_DisableResponseLog lb h
  | call_DisableRequestLog => snd <$> loggingBuilderImpl_DisableRequestLog lb h
  | call_ClearRequestInfoExtractors =>
      snd <$> loggingBuilderImpl_ClearRequestInfoExtractors lb h
  | call_AddRequestInfoExtractors extFns =>
      snd <$> loggingBuilderImpl_AddRequestInfoExtractors extFns lb h
  | call_ClearResponseInfoExtractors =>
      snd <$> loggingBuilderImpl_ClearResponseInfoExtractors lb h
  | call_AddResponseInfoExtractors extFns =>
      snd <$> loggingBuilderImpl_AddResponseInfoExtractors extFns lb h
  | call_Build => snd <$> loggingBuilderImpl_Build lb h
  end.

Fixpoint run_loggingBuilder_calls (ks : list loggingBuilder_call) (lb : loc) (h : Heap)
  : option Heap :=
  match ks with
  | [] => Some h
  | k :: ks' =>
      match run_loggingBuilder_call k lb h with
      | Some h' => run_loggingBuilder_calls ks' lb h'
      | None => None
      end
  end.

(** A slice that is nil, with no elements and no capacity, or points to an
    allocated array that holds its [len] elements: what every slice of a Go
    program is. *)
Definition slice_ok {T : Type} (m : gmap loc (list T)) (s : slice) : Prop :=
  match array s with
  | None => len s = 0%nat /\ cap s = 0%nat
  | Some p => exists a, m !! p = Some a /\ (len s <= length a)%nat
  end.

Definition loggingBuilder_ok (lb : loc) (h : Heap) : Prop :=
  exists b, loggingBuilders h !! lb = Some b /\
            slice_ok (reqArrays h) (reqInfoFns b) /\
            slice_ok (respArrays h) (respInfoFns b).

(** The package-level slices are well formed. *)
Definition globals_ok (h : Heap) : Prop :=
  slice_ok (reqArrays h) (DefaultReqInfoExtractors h) /\
  slice_ok (respArrays h) (DefaultRespInfoExtractors h).

(** A handler whose behaviour is the same in two heaps. *)
Definition same_handler (next : http_Handler) (h h' : Heap) : Prop :=
  forall W RW w r o, next W RW w r h' o = next W RW w r h o.

(** ** The request log as the specification words it *)

(** "Evaluate each request extractor in list order". *)
Fixpoint eval_in_order (fns : list ReqInfoExtractorFn) (r : http_Request)
  : M (list (string * any)) :=
  match fns with
  | [] => ret []
  | fn :: fns' =>
      let* kv := fn r in
      let* kvs := eval_in_order fns' r in
      ret (kv :: kvs)
  end.

(** "Flatten the resulting label/value pairs". *)
Definition flatten_fields (kvs : list (string * any)) : list any :=
  flat_map (fun kv => [any_string (fst kv); snd kv]) kvs.

(** "... into one structured log call at the configured level, using the
    configured request message label", when the step is enabled. *)
Definition request_log_step (enabled : bool) (logger : slog_Logger) (level : slog_Level)
    (msg : string) (fns : list ReqInfoExtractorFn) (r : http_Request) : M unit :=
  if enabled then
    let* kvs := eval_in_order fns r in
    Logger_Log logger (Context r) level msg (flatten_fields kvs)
  else ret tt.
End Middlewares.

Arguments filterFn {U}.
Arguments bcb {U}.
Arguments cb {U}.
Arguments reqArrays {U}.
Arguments respArrays {U}.
Arguments loggingBuilders {U}.
Arguments interceptorBuilders {U}.
Arguments DefaultReqInfoExtractors {U}.
Arguments DefaultRespInfoExtractors {U}.
Arguments mk_Heap {U}.
Arguments mk_interceptorBuilderImpl {U}.
Arguments PathReqInfoExtractor {U}.
Arguments MethodReqInfoExtractor {U}.
Arguments SizeReqInfoExtractor {U}.
Arguments DeferredReqInfoExtractor {U}.
Arguments StatusRespInfoExtractor {U}.
Arguments SizeRespInfoExtractor {U}.
Arguments nil_ReqInfoExtractorFn {U}.
Arguments nil_RespInfoExtractorFn {U}.
Arguments store_loggingBuilder {U}.
Arguments store_interceptorBuilder {U}.
Arguments set_reqArrays {U}.
Arguments set_respArrays {U}.
Arguments interceptorBuilderImpl_WithRequestFilter {U}.
Arguments interceptorBuilderImpl_WithBeforeCallback {U}.
Arguments interceptorBuilderImpl_WithCallback {U}.
Arguments interceptorBuilderImpl_ServeHTTP {U}.
Arguments interceptorBuilderImpl_Build {U}.
Arguments NewInterceptorBuilder {U}.
Arguments loggingBuilderImpl_clone {U}.
Arguments update_loggingBuilder {U}.
Arguments loggingBuilderImpl_ClearRequestInfoExtractors {U}.
Arguments loggingBuilderImpl_AddRequestInfoExtractors {U}.
Arguments loggingBuilderImpl_ClearResponseInfoExtractors {U}.
Arguments loggingBuilderImpl_AddResponseInfoExtractors {U}.
Arguments loggingBuilderImpl_WithRequestMessage {U}.
Arguments loggingBuilderImpl_WithResponseMessage {U}.
Arguments loggingBuilderImpl_DisableResponseLog {U}.
Arguments loggingBuilderImpl_DisableRequestLog {U}.
Arguments loggingBuilderImpl_WithLevel {U}.
Arguments loggingBuilderImpl_WithLogger {U}.
Arguments range_reqInfoFns {U}.
Arguments range_respInfoFns {U I _}.
Arguments loggingBuilderImpl_logRequest {U}.
Arguments loggingBuilderImpl_dispatch {U}.
Arguments loggingBuilderImpl_ServeHTTP {U}.
Arguments loggingBuilderImpl_Build {U}.
Arguments NewLoggingBuilder {U}.
Arguments init_slices {U}.
Arguments package_init {U}.
Arguments call_WithLogger {U}.
Arguments call_WithLevel {U}.
Arguments call_WithRequestMessage {U}.
Arguments call_WithResponseMessage {U}.
Arguments call_DisableResponseLog {U}.
Arguments call_DisableRequestLog {U}.
Arguments call_ClearRequestInfoExtractors {U}.
Arguments call_AddRequestInfoExtractors {U}.
Arguments call_ClearResponseInfoExtractors {U}.
Arguments call_AddResponseInfoExtractors {U}.
Arguments call_Build {U}.
Arguments run_loggingBuilder_call {U}.
Arguments run_loggingBuilder_calls {U}.
Arguments slice_ok {T}.
Arguments loggingBuilder_ok {U}.
Arguments globals_ok {U}.
Arguments same_handler {U}.
Arguments eval_in_order {U}.
Arguments flatten_fields : clear implicits.
Arguments request_log_step {U}.

(** ** Predicates on the heap used in the statements *)

Section HeapPredicates.
Context {U : Type}.

(** The builder at [lb] holds the settings [b], its slices are well formed
    and their elements are [fq] and [fp]. *)
Definition configured_as (lb : loc) (h : Heap U) (b : loggingBuilderImpl)
    (fq : list (ReqInfoExtractorFn U)) (fp : list (RespInfoExtractorFn U)) : Prop :=
  loggingBuilders h !! lb = Some b /\
  slice_ok (reqArrays h) (reqInfoFns b) /\
  slice_ok (respArrays h) (respInfoFns b) /\
  slice_elems (reqInfoFns b) (reqArrays h) = Some fq /\
  slice_elems (respInfoFns b) (respArrays h) = Some fp.

(** What [clone] computes on a builder with settings [b] and extractors
    [fq], [fp]: the pointer to the clone, the clone, and the new heap. *)
Definition cloned (h : Heap U) (b : loggingBuilderImpl)
    (fq : list (ReqInfoExtractorFn U)) (fp : list (RespInfoExtractorFn U))
  : loc * loggingBuilderImpl * Heap U :=
  let pc := fresh (dom (reqArrays h)) in
  let qc := fresh (dom (respArrays h)) in
  let c := fresh (dom (loggingBuilders h)) in
  let cv :=
    mk_loggingBuilderImpl (l b) (lvl b) (reqLog b) (respLog b) (reqMsg b) (respMsg b)
      (mk_slice (Some pc) (len (reqInfoFns b)) (len (reqInfoFns b)))
      (mk_slice (Some qc) (len (respInfoFns b)) (len (respInfoFns b))) in
  (c, cv,
   mk_Heap (<[pc := fq]> (reqArrays h)) (<[qc := fp]> (respArrays h))
     (<[c := cv]> (loggingBuilders h)) (interceptorBuilders h)
     (DefaultReqInfoExtractors h) (DefaultRespInfoExtractors h)).

(** The clone at [c] is out of reach of the builder at [lb]: its struct
    [cv] and its two arrays are in the heap, and the builder's slices are
    over other arrays. *)
Definition private_clone (c lb : loc) (cv : loggingBuilderImpl) (pc qc : loc)
    (ac : list (ReqInfoExtractorFn U)) (bc : list (RespInfoExtractorFn U))
    (h : Heap U) : Prop :=
  loggingBuilders h !! c = Some cv /\
  array (reqInfoFns cv) = Some pc /\
  array (respInfoFns cv) = Some qc /\
  reqArrays h !! pc = Some ac /\
  respArrays h !! qc = Some bc /\
  c ≠ lb /\
  forall b, loggingBuilders h !! lb = Some b ->
            array (reqInfoFns b) ≠ Some pc /\ array (respInfoFns b) ≠ Some qc.
End HeapPredicates.

(** ** Inputs of the examples *)

Module Examples.
Local Open Scope go_scope.

(** The caller's state in the examples: the names of the caller's
    functions that ran, in order. *)
Definition trace := list string.

Definition note (name : string) : M trace unit :=
  fun o => Some (tt, mk_Obs (logs o) (user o ++ [name])).

Definition growslice_double (old needed : nat) : nat := Nat.max needed (2 * old).

Definition GET_health : http_Request :=
  {| Method := "GET"; URL_Path := "/health"; ContentLength := 0; Context := 0%nat |}.

Definition ab : bytes := String.list_byte_of_string "ab".
Definition cde : bytes := String.list_byte_of_string "cde".

(** A handler that writes "ab" then "cde" and no header. *)
Definition write_ab_cde : http_Handler trace :=
  fun W RW w r h =>
    note "handler" ;;
    let '(_, w1) := ResponseWriter.Write ab w in
    let '(_, w2) := ResponseWriter.Write cde w1 in
    ret w2.

Definition start : Obs trace := mk_Obs [] [].

(** The interceptor builder of the examples, with callbacks that leave a
    note: its pointer, and the heap once it is configured. *)
Definition the_interceptor : loc :=
  (NewInterceptorBuilder (init_slices : Heap trace)).1.

Definition noting_heap : Heap trace :=
  let '(i, h) := NewInterceptorBuilder init_slices in
  default h
    (match interceptorBuilderImpl_WithBeforeCallback (fun _ => note "before") i h with
     | Some (_, h1) =>
         snd <$> interceptorBuilderImpl_WithCallback (fun _ _ _ => note "after") i h1
     | None => None
     end).

(** The same builder after [WithRequestFilter] with a filter that turns
    every request down. *)
Definition filtering_heap : Heap trace :=
  default noting_heap
    (snd <$> interceptorBuilderImpl_WithRequestFilter (fun _ => ret false)
               the_interceptor noting_heap).

Definition filtering_interceptor : interceptorBuilderImpl trace :=
  mk_interceptorBuilderImpl (fun _ => ret false) (fun _ => note "before")
    (fun _ _ _ => note "after").

(** A response extractor that leaves a note. *)
Definition noting_RespInfoExtractor : RespInfoExtractorFn trace :=
  fun I _ resp => note "response extractor" ;; ret ("noted"%string, any_int 0, resp).

(** The logging builder of the examples: its pointer, the heap after
    [NewLoggingBuilder], and the heap after further calls on it. *)
Definition the_builder : loc := (NewLoggingBuilder (init_slices : Heap trace)).1.

Definition new_heap : Heap trace := (NewLoggingBuilder init_slices).2.

Definition after (ks : list (loggingBuilder_call trace)) : Heap trace :=
  default new_heap
    (run_loggingBuilder_calls growslice_double ks the_builder new_heap).

(** Request extractors [method, path]. *)
Definition method_path_heap : Heap trace :=
  after [call_ClearRequestInfoExtractors;
         call_AddRequestInfoExtractors [MethodReqInfoExtractor; PathReqInfoExtractor]].

Definition method_path_settings : loggingBuilderImpl :=
  mk_loggingBuilderImpl slog_Default slog_LevelInfo true true
    DefHttpReqMessage DefHttpRespMessage
    (mk_slice (Some 3%positive) 2 2) (mk_slice (Some 1%positive) 2 2).

(** Response logging disabled, with a response extractor that would leave
    a note. *)
Definition quiet_heap : Heap trace :=
  after [call_AddResponseInfoExtractors [noting_RespInfoExtractor];
         call_DisableResponseLog].

Definition quiet_settings : loggingBuilderImpl :=
  mk_loggingBuilderImpl slog_Default slog_LevelInfo true false
    DefHttpReqMessage DefHttpRespMessage
    (mk_slice (Some 1%positive) 3 3) (mk_slice (Some 2%positive) 3 4).

(** No request extractor. *)
Definition bare_heap : Heap trace := after [call_ClearRequestInfoExtractors].

Definition bare_settings : loggingBuilderImpl :=
  mk_loggingBuilderImpl slog_Default slog_LevelInfo true true
    DefHttpReqMessage DefHttpRespMessage
    (mk_slice (Some 2%positive) 0 0) (mk_slice (Some 1%positive) 2 2).

Definition default_RespInfoExtractors : list (RespInfoExtractorFn trace) :=
  [StatusRespInfoExtractor; SizeRespInfoExtractor].

(** The log calls and the caller's notes a handler run ended with. *)
Definition outcome {W : Type} (res : option (W * Obs trace))
  : option (list slog_Log * trace) :=
  (fun wo => (logs wo.2, user wo.2)) <$> res.

Definition request_entry (msg : string) (args : list any) : slog_Log :=
  mk_slog_Log slog_Default 0%nat slog_LevelInfo msg args.
End Examples.

(** ** What an interceptor passes on *)

(** The calls that an interceptor passes on to its delegate: every [Write],
    and the [WriteHeader] calls made while no body byte was written.
    [wrote] is the interceptor's [wroteHeader] flag when the calls start. *)
Fixpoint forwarded_from (wrote : bool) (cs : list call) : list call :=
  match cs with
  | [] => []
  | call_Write b :: cs' => call_Write b :: forwarded_from true cs'
  | call_WriteHeader statusCode :: cs' =>
      if wrote then forwarded_from wrote cs'
      else call_WriteHeader statusCode :: forwarded_from wrote cs'
  end.

(** The status codes of the [WriteHeader] calls that come before the first
    [Write]. *)
Fixpoint early_codes (cs : list call) : list Z :=
  match cs with
  | call_WriteHeader statusCode :: cs' => statusCode :: early_codes cs'
  | _ => []
  end.

(** Two interceptors that differ at most in that one still has the zero
    status where the other has stored the default. *)
Definition same_but_default {W : Type} (i j : respInterceptor W) : Prop :=
  wroteHeader i = wroteHeader j /\ delegate i = delegate j /\
  written i = written j /\ req i = req j /\
  (status i = status j \/ (status i = 0 /\ status j = http_StatusOK)).

(** The outer of two stacked interceptors has recorded what the inner has. *)
Definition layers_agree {W : Type} (o : respInterceptor (respInterceptor W)) : Prop :=
  wroteHeader o = wroteHeader (delegate o) /\
  written o = written (delegate o) /\
  status o = status (delegate o).

(** A handler that makes the calls [cs] on its sink and does nothing else. *)
Definition calls_handler {U : Type} (cs : list call) : http_Handler U :=
  fun W RW w r h => ret (run_calls cs w).2.

(** ** The response log, step by step *)

Section ResponseLog.
Context {U : Type}.
Local Open Scope go_scope.

(** Each response extractor in list order, on the interceptor as the
    wrapped handler left it: the key/value pairs, and the interceptor. *)
Fixpoint eval_resp_in_order {I : Type} `{!InterceptedResponse.t I}
    (fns : list (RespInfoExtractorFn U)) (ir : I) : M U (list (string * any) * I) :=
  match fns with
  | [] => ret ([], ir)
  | fn :: fns' =>
      let* (kv, ir1) := fn I _ ir in
      let* (kvs, ir2) := eval_resp_in_order fns' ir1 in
      ret (kv :: kvs, ir2)
  end.

(** The wrapped handler on a new interceptor, then the extractors, then one
    log call with the pairs as its fields; the sink is the interceptor's
    delegate. *)
Definition response_log_step (logger : slog_Logger) (level : slog_Level) (msg : string)
    (fns : list (RespInfoExtractorFn U)) (next : http_Handler U) : http_Handler U :=
  fun W RW w r h =>
    let* ir1 := next (respInterceptor W) _ (new_respInterceptor w r) r h in
    let* (kvs, ir2) := eval_resp_in_order fns ir1 in
    Logger_Log logger (Context r) level msg (flatten_fields kvs) ;;
    ret (delegate ir2).

(** The settings of a builder, its slices apart. *)
Definition same_settings (b b' : loggingBuilderImpl) : Prop :=
  l b' = l b /\ lvl b' = lvl b /\ reqLog b' = reqLog b /\ respLog b' = respLog b /\
  reqMsg b' = reqMsg b /\ respMsg b' = respMsg b.

(** Slice [s] cannot be appended to in place over the array at [q]: it is
    over another array, or it has no spare capacity. *)
Definition apart_or_full (s : slice) (q : option loc) : Prop :=
  array s = None \/ array s ≠ q \/ (cap s <= len s)%nat.

(** The builder at [lb] cannot write into the arrays of the slices of [b2]. *)
Definition cannot_reach (lb : loc) (b2 : loggingBuilderImpl) (h : Heap U) : Prop :=
  forall b, loggingBuilders h !! lb = Some b ->
    apart_or_full (reqInfoFns b) (array (reqInfoFns b2)) /\
    apart_or_full (respInfoFns b) (array (respInfoFns b2)).

(** The package-level slices have no spare capacity, as the slice literals
    they are initialised with. *)
Definition globals_full (h : Heap U) : Prop :=
  (cap (DefaultReqInfoExtractors h) <= len (DefaultReqInfoExtractors h))%nat /\
  (cap (DefaultRespInfoExtractors h) <= len (DefaultRespInfoExtractors h))%nat.
End ResponseLog.

(** ** Connection takeover *)

(** [net.Conn] and [*bufio.ReadWriter]: [None] is nil. *)
Definition net_Conn := option nat.
Definition bufio_ReadWriter := option nat.

(** [http.Hijacker]. *)
Module Hijacker.
Class t (W : Type) := {
  Hijack : W -> (net_Conn * bufio_ReadWriter * error) * W
}.
End Hijacker.

(** The type assertion [w.(http.Hijacker)] on a sink of type [W]: the
    method set when [W] has it, [None] when the assertion fails. *)
Class as_Hijacker (W : Type) := assert_Hijacker : option (Hijacker.t W).

Section RespInterceptorHijack.
Context {D : Type} `{!as_Hijacker D}.

Definition respInterceptor_Hijack (i : respInterceptor D)
  : (net_Conn * bufio_ReadWriter * error) * respInterceptor D :=
  match assert_Hijacker with
  | None => ((None, None, Some "hijack not supported"%string), i)
  | Some h =>
      let '(res, d) := @Hijacker.Hijack D h (delegate i) in
      (res,
       mk_respInterceptor (wroteHeader i) d (written i) (status i) (req i)
         (sendStatus i))
  end.

(** An interceptor has the method [Hijack], whatever its delegate is. *)
#[global] Instance respInterceptor_Hijacker : Hijacker.t (respInterceptor D) := {
  Hijacker.Hijack := respInterceptor_Hijack
}.

#[global] Instance respInterceptor_as_Hijacker : as_Hijacker (respInterceptor D) :=
  Some respInterceptor_Hijacker.
End RespInterceptorHijack.

(** ** Package config *)

Module config.

Definition ErrListenAddressMissing : error := Some "server.listen_address is required"%string.
Definition ErrCorsBadMaxAge : error := Some "invalid value of CORS max_age"%string.

Definition DefaultMetricPath : string := "/metrics".

Record TLSConfig := mk_TLSConfig {
  CertFile : string;
  KeyFile : string
}.

Record CorsConfig := mk_CorsConfig {
  AllowedOrigins : list string;
  MaxAge : Z
}.

Record TelemetryConfig := mk_TelemetryConfig {
  Enabled : bool;
  Path : string
}.

(** [time.Duration]: nanoseconds. *)
Definition time_Duration := Z.

(** The pointer fields are [None] when nil; each config owns what its
    pointers point to. *)
Record ServerConfig := mk_ServerConfig {
  ListenAddress : string;
  APIPrefix : string;
  TLS : option TLSConfig;
  Cors : option CorsConfig;
  Telemetry : option TelemetryConfig;
  ReadTimeout : option time_Duration;
  ReadHeaderTimeout : option time_Duration;
  WriteTimeout : option time_Duration;
  IdleTimeout : option time_Duration
}.

(** [s.Telemetry = t]. *)
Definition set_Telemetry (t : option TelemetryConfig) (s : ServerConfig) : ServerConfig :=
  mk_ServerConfig (ListenAddress s) (APIPrefix s) (TLS s) (Cors s) t (ReadTimeout s)
    (ReadHeaderTimeout s) (WriteTimeout s) (IdleTimeout s).

(** [Check]: the error returned and the config as the call leaves it. *)
Definition Check (s : ServerConfig) : error * ServerConfig :=
  if match Cors s with
     | Some c => MaxAge c <? 0
     | None => false
     end
  then (ErrCorsBadMaxAge, s)
  else
    let s1 :=
      match Telemetry s with
      | Some t =>
          if (String.length (Path t) =? 0)%nat
          then set_Telemetry (Some (mk_TelemetryConfig (Enabled t) DefaultMetricPath)) s
          else s
      | None => s
      end in
    if String.eqb (ListenAddress s1) "" then (ErrListenAddressMissing, s1)
    else (None, s1).

Definition isTls (s : ServerConfig) : bool :=
  match TLS s with
  | None => false
  | Some t => (0 <? String.length (CertFile t))%nat && (0 <? String.length (KeyFile t))%nat
  end.

(** What [Check] accepts. *)
Definition valid (s : ServerConfig) : Prop :=
  ListenAddress s ≠ ""%string /\
  (forall c, Cors s = Some c -> 0 <= MaxAge c) /\
  (forall t, Telemetry s = Some t -> Path t ≠ ""%string).

(** The telemetry settings with an empty path replaced by the default. *)
Definition with_default_path (t : TelemetryConfig) : TelemetryConfig :=
  if (String.length (Path t) =? 0)%nat then mk_TelemetryConfig (Enabled t) DefaultMetricPath
  else t.

End config.

(** ** Package output *)

(** [io.Writer]. *)
Module Writer.
Class t (W : Type) := {
  Write : bytes -> W -> (Z * error) * W
}.
End Writer.

(** A response sink is a writer. *)
#[global] Instance ResponseWriter_Writer {W : Type} `{!ResponseWriter.t W} : Writer.t W := {
  Writer.Write := ResponseWriter.Write
}.

(** [w.Header()] is the sink's own map: what a caller sets in it is set in
    the sink.  [update_Header f w] is the sink after the map it holds was
    changed by [f]. *)
Class HeaderMap (W : Type) := update_Header : (http_Header -> http_Header) -> W -> W.

#[global] Instance recorder_HeaderMap : HeaderMap recorder :=
  fun f w => mk_recorder (f (rec_header w)) (rec_codes w) (rec_body w).

(** The header map of an interceptor is that of its delegate. *)
#[global] Instance respInterceptor_HeaderMap {D : Type} `{!HeaderMap D}
  : HeaderMap (respInterceptor D) :=
  fun f i =>
    mk_respInterceptor (wroteHeader i) (update_Header f (delegate i)) (written i)
      (status i) (req i) (sendStatus i).

Definition http_StatusInternalServerError : Z := 500.

Module output.

Section Output.
(** State owned by the caller's mappers and encoders. *)
Variable U : Type.
(** The values a caller sends that are not errors. *)
Variable P : Type.
(** The runtime's growth policy for [append]. *)
Variable growslice : nat -> nat -> nat.
(** [textproto.CanonicalMIMEHeaderKey]. *)
Variable CanonicalMIMEHeaderKey : string -> string.
(** [http.Error(w, error, code)]. *)
Variable http_Error :
  forall (W : Type), ResponseWriter.t W -> HeaderMap W -> string -> Z -> W -> W.

Local Abbreviation M := (M U).
Local Open Scope go_scope.

(** A value of type [interface{}] as [SendWithStatus] tells them apart: an
    error, with the text that [Error()] returns, or something else. *)
Inductive value :=
| value_error (err : string)
| value_other (p : P).

(** [http.Header.Set]. *)
Definition Header_Set (key val : string) (hd : http_Header) : http_Header :=
  <[CanonicalMIMEHeaderKey key := [val]]> hd.

Definition ErrorMapper : Type :=
  forall (W : Type), ResponseWriter.t W -> HeaderMap W -> W -> string -> M (bool * W).

Definition PayloadEncoder : Type :=
  forall (W : Type), Writer.t W -> W -> value -> M (error * W).

(** The zero value of a function type is nil; calling it panics. *)
Definition nil_ErrorMapper : ErrorMapper := fun _ _ _ _ _ => panic.

(** [json.NewEncoder(w)], [SetIndent("", "  ")], [Encode(v)]. *)
Variable json_Encode_indented : PayloadEncoder.

Definition defaultJsonEncoder : PayloadEncoder := json_Encode_indented.

Record builder := mk_builder {
  encFn : PayloadEncoder;
  ct : string;
  ems : slice
}.

(** The heap of the package: the builders, including those that [Build]
    makes for an [impl], and the backing arrays of the mapper slices.  An
    [Interface] value is the pointer to the builder its [impl] holds. *)
Record Heap := mk_Heap {
  builders : gmap loc builder;
  emArrays : gmap loc (list ErrorMapper)
}.

Definition builder_WithErrorMapper (mapper : ErrorMapper) (b : loc) (h : Heap)
  : option (loc * Heap) :=
  match builders h !! b with
  | None => None
  | Some bv =>
      match append nil_ErrorMapper growslice (ems bv) [mapper] (emArrays h) with
      | None => None
      | Some (s, arrays) =>
          Some (b, mk_Heap (<[b := mk_builder (encFn bv) (ct bv) s]> (builders h)) arrays)
      end
  end.

Definition builder_WithEncoder (contentType : string) (encFunc : PayloadEncoder)
    (b : loc) (h : Heap) : option (loc * Heap) :=
  match builders h !! b with
  | None => None
  | Some bv =>
      Some (b, mk_Heap (<[b := mk_builder encFunc contentType (ems bv)]> (builders h))
                 (emArrays h))
  end.

Definition builder_Build (b : loc) (h : Heap) : option (loc * Heap) :=
  match builders h !! b with
  | None => None
  | Some bv =>
      let i := fresh (dom (builders h)) in
      Some (i, mk_Heap (<[i := mk_builder (encFn bv) (ct bv) (ems bv)]> (builders h))
                 (emArrays h))
  end.

Definition NewBuilder (h : Heap) : loc * Heap :=
  let b := fresh (dom (builders h)) in
  (b, mk_Heap (<[b := mk_builder defaultJsonEncoder "application/json" nil_slice]>
                 (builders h))
        (emArrays h)).

(** [var defaultOutput = NewBuilder().Build()]. *)
Definition defaultOutput (h : Heap) : option (loc * Heap) :=
  let '(b, h1) := NewBuilder h in
  builder_Build b h1.

Definition impl_SendBytes (i : loc) {W : Type} `{!ResponseWriter.t W} `{!HeaderMap W}
    (w : W) (data : bytes) (h : Heap) : M W :=
  match builders h !! i with
  | None => panic
  | Some bv =>
      let w1 := update_Header (Header_Set "Content-Type" (ct bv)) w in
      ret (ResponseWriter.Write data w1).2
  end.

(** [for _, em := range i.ems { if em(w, err) { return } }]: whether a
    mapper returned true, and the sink. *)
Fixpoint range_ems {W : Type} `{!ResponseWriter.t W} `{!HeaderMap W}
    (mappers : list ErrorMapper) (w : W) (err : string) : M (bool * W) :=
  match mappers with
  | [] => ret (false, w)
  | em :: mappers' =>
      let* (handled, w1) := em W _ _ w err in
      if handled : bool then ret (true, w1) else range_ems mappers' w1 err
  end.

Definition impl_SendWithStatus (i : loc) {W : Type} `{!ResponseWriter.t W}
    `{!HeaderMap W} (w : W) (v : value) (status : Z) (h : Heap) : M W :=
  match builders h !! i with
  | None => panic
  | Some bv =>
      let w1 := update_Header (Header_Set "Content-Type" (ct bv)) w in
      let w2 := ResponseWriter.WriteHeader status w1 in
      match v with
      | value_error err =>
          match slice_elems (ems bv) (emArrays h) with
          | None => panic
          | Some mappers =>
              let* (handled, w3) := range_ems mappers w2 err in
              if handled : bool then ret w3
              else ret (http_Error W _ _ err status w3)
          end
      | value_other _ =>
          let* (e, w3) := encFn bv W _ w2 v in
          match e with
          | Some msg => ret (http_Error W _ _ msg http_StatusInternalServerError w3)
          | None => ret w3
          end
      end
  end.

(** The calls a caller can make on a builder it holds. *)
Inductive builder_call :=
| call_WithEncoder (contentType : string) (encFunc : PayloadEncoder)
| call_WithErrorMapper (mapper : ErrorMapper)
| call_Build.

Definition run_builder_call (k : builder_call) (b : loc) (h : Heap) : option Heap :=
  match k with
  | call_WithEncoder contentType encFunc => snd <$> builder_WithEncoder contentType encFunc b h
  | call_WithErrorMapper mapper => snd <$> builder_WithErrorMapper mapper b h
  | call_Build => snd <$> builder_Build b h
  end.

Fixpoint run_builder_calls (ks : list builder_call) (b : loc) (h : Heap) : option Heap :=
  match ks with
  | [] => Some h
  | k :: ks' =>
      match run_builder_call k b h with
      | Some h' => run_builder_calls ks' b h'
      | None => None
      end
  end.

(** The builder at [b] has the encoder and content type of [bv], its slice
    is well formed and its mappers are [mappers], in registration order. *)
Definition configured_as (b : loc) (h : Heap) (bv : builder) (mappers : list ErrorMapper)
  : Prop :=
  builders h !! b = Some bv /\
  slice_ok (emArrays h) (ems bv) /\
  slice_elems (ems bv) (emArrays h) = Some mappers.

(** The output at [i], with settings [iv] and mappers [mappers], is safe
    from the builder at [b]: the builder's slice is over another array, or
    over the same array and at least as long, so that the builder appends
    behind what the output sees. *)
Definition safe_from (i b : loc) (iv : builder) (mappers : list ErrorMapper) (h : Heap)
  : Prop :=
  configured_as i h iv mappers /\
  i ≠ b /\
  exists bv, builders h !! b = Some bv /\
    slice_ok (emArrays h) (ems bv) /\
    (array (ems iv) ≠ array (ems bv) \/ (len (ems iv) <= len (ems bv))%nat).

(** Each of [mappers], run in order from the sink [w] and the state [o],
    returns false; they leave the sink [w'] and the state [o']. *)
Inductive all_decline {W : Type} `{!ResponseWriter.t W} `{!HeaderMap W} (err : string)
  : list ErrorMapper -> W -> Obs U -> W -> Obs U -> Prop :=
| all_decline_nil w o : all_decline err [] w o w o
| all_decline_cons em mappers w o w1 o1 w' o' :
    em W _ _ w err o = Some ((false, w1), o1) ->
    all_decline err mappers w1 o1 w' o' ->
    all_decline err (em :: mappers) w o w' o'.
End Output.

Arguments value_error {P}.
Arguments value_other {P}.
Arguments nil_ErrorMapper {U}.
Arguments mk_builder {U P}.
Arguments encFn {U P}.
Arguments ct {U P}.
Arguments ems {U P}.
Arguments mk_Heap {U P}.
Arguments builders {U P}.
Arguments emArrays {U P}.
Arguments builder_WithErrorMapper {U P}.
Arguments builder_WithEncoder {U P}.
Arguments builder_Build {U P}.
Arguments NewBuilder {U P}.
Arguments defaultOutput {U P}.
Arguments impl_SendBytes {U P} CanonicalMIMEHeaderKey i {W _ _}.
Arguments range_ems {U W _ _}.
Arguments impl_SendWithStatus {U P} CanonicalMIMEHeaderKey http_Error i {W _ _}.
Arguments call_WithEncoder {U P}.
Arguments call_WithErrorMapper {U P}.
Arguments call_Build {U P}.
Arguments run_builder_call {U P}.
Arguments run_builder_calls {U P}.
Arguments configured_as {U P}.
Arguments safe_from {U P}.
Arguments all_decline {U W _ _}.

End output.


(** ** Further examples *)

Module Cases.
Local Open Scope go_scope.

(** A handler that answers 404 with the body "ab". *)
Definition not_found : http_Handler Examples.trace :=
  fun W RW w r h =>
    Examples.note "handler" ;;
    let w1 := ResponseWriter.WriteHeader 404 w in
    let '(_, w2) := ResponseWriter.Write Examples.ab w1 in
    ret w2.

Definition default_ReqInfoExtractors : list (ReqInfoExtractorFn Examples.trace) :=
  [MethodReqInfoExtractor; PathReqInfoExtractor; SizeReqInfoExtractor].

(** The settings of the examples' builder as [NewLoggingBuilder] leaves it. *)
Definition new_settings : loggingBuilderImpl :=
  mk_loggingBuilderImpl slog_Default slog_LevelInfo true true
    DefHttpReqMessage DefHttpRespMessage
    (mk_slice (Some 1%positive) 3 3) (mk_slice (Some 1%positive) 2 2).

(** Both logs disabled. *)
Definition silent_heap : Heap Examples.trace :=
  Examples.after [call_DisableRequestLog; call_DisableResponseLog].

Definition silent_settings : loggingBuilderImpl :=
  mk_loggingBuilderImpl slog_Default slog_LevelInfo false false
    DefHttpReqMessage DefHttpRespMessage
    (mk_slice (Some 1%positive) 3 3) (mk_slice (Some 1%positive) 2 2).

(** A server with metrics enabled and no metrics path, and one whose CORS
    settings are wrong. *)
Definition metrics_server : config.ServerConfig :=
  config.mk_ServerConfig ":8080" "/api" None
    (Some (config.mk_CorsConfig ["*"%string] 3600))
    (Some (config.mk_TelemetryConfig true "")) None None None None.

Definition bad_cors_server : config.ServerConfig :=
  config.mk_ServerConfig "" "/api" None
    (Some (config.mk_CorsConfig [] (-1)))
    (Some (config.mk_TelemetryConfig true "")) None None None None.

(** [textproto.CanonicalMIMEHeaderKey] on the keys of the examples, which
    are in canonical form. *)
Definition canonical (key : string) : string := key.

Definition newline : string := String (Ascii.ascii_of_nat 10) EmptyString.

(** [http.Error]: the content type is plain text, then the code and the
    message, followed by a newline, are written. *)
Definition plain_Error (W : Type) (RW : ResponseWriter.t W) (HM : HeaderMap W)
    (msg : string) (code : Z) (w : W) : W :=
  let w1 :=
    update_Header
      (fun hd =>
         <["X-Content-Type-Options"%string := ["nosniff"%string]]>
           (<["Content-Type"%string := ["text/plain; charset=utf-8"%string]]>
              (delete "Content-Length"%string hd))) w in
  let w2 := ResponseWriter.WriteHeader code w1 in
  (ResponseWriter.Write (String.list_byte_of_string (msg +:+ newline)) w2).2.

(** An encoder that writes the text it is given as it is. *)
Definition text_encoder : output.PayloadEncoder Examples.trace string :=
  fun W WR w v =>
    let text := match v with output.value_error e => e | output.value_other p => p end in
    let '((_, e), w1) := Writer.Write (String.list_byte_of_string text) w in
    ret (e, w1).

(** A mapper that turns every error down, and one that answers every error
    itself. *)
Definition declining : output.ErrorMapper Examples.trace :=
  fun W RW HM w err => Examples.note "declined" ;; ret (false, w).

Definition answering : output.ErrorMapper Examples.trace :=
  fun W RW HM w err =>
    Examples.note "answered" ;;
    ret (true, (ResponseWriter.Write (String.list_byte_of_string "mapped") w).2).

(** A new output builder, the heap after the mappers [ms] were registered
    with it, and the output built then. *)
Definition out_builder : loc :=
  (output.NewBuilder text_encoder (output.mk_Heap ∅ ∅)).1.

Definition registered (ms : list (output.ErrorMapper Examples.trace))
  : output.Heap Examples.trace string :=
  let '(b, h) := output.NewBuilder text_encoder (output.mk_Heap ∅ ∅) in
  default h
    (output.run_builder_calls Examples.growslice_double
       (output.call_WithErrorMapper <$> ms) b h).

Definition built (ms : list (output.ErrorMapper Examples.trace))
  : loc * output.Heap Examples.trace string :=
  default (out_builder, registered ms) (output.builder_Build out_builder (registered ms)).

Definition out_settings (mappers : slice) : output.builder Examples.trace string :=
  output.mk_builder text_encoder "application/json" mappers.

(** The sink once [SendWithStatus] has set the content type and written the
    code 500. *)
Definition after_header : recorder :=
  ResponseWriter.WriteHeader 500
    (update_Header (output.Header_Set canonical "Content-Type" "application/json")
       new_recorder).
End Cases.

(** * Properties *)

(** ** Go integers *)

Lemma wrap_int_in_int z : in_int (wrap_int z).
Proof.
  unfold in_int, wrap_int, MinInt, MaxInt.
  pose proof (Z.mod_pos_bound (z + 2 ^ 63) (2 ^ 64) ltac:(lia)). lia.
Qed.

Lemma wrap_int_id z : in_int z -> wrap_int z = z.
Proof.
  unfold in_int, wrap_int, MinInt, MaxInt. intros Hz.
  rewrite Z.mod_small by lia. lia.
Qed.

Lemma wrap_int_add_l a b : wrap_int (wrap_int a + b) = wrap_int (a + b).
Proof.
  unfold wrap_int. f_equal.
  replace ((a + 2 ^ 63) mod 2 ^ 64 - 2 ^ 63 + b + 2 ^ 63)
    with ((a + 2 ^ 63) mod 2 ^ 64 + b) by lia.
  rewrite Zplus_mod_idemp_l. f_equal. lia.
Qed.

Lemma in_int_0 : in_int 0.
Proof. split; vm_compute; discriminate. Qed.

(** ** The response interceptor *)

Section InterceptorFacts.
Context {W : Type} `{RW : !ResponseWriter.t W}.
Implicit Types (i : respInterceptor W) (cs : list call).

(** The count after a run of calls is the count before plus the byte
    counts the sink returned, in Go's arithmetic. *)
Lemma run_calls_written cs i :
  in_int (written i) ->
  written (run_calls cs i).2 = wrap_int (written i + sum_Z ((run_calls cs i).1.*1)).
Proof.
  revert i. induction cs as [|[b|c] cs IH]; intros i Hi; simpl.
  - rewrite Z.add_0_r, wrap_int_id; done.
  - unfold respInterceptor_Write.
    destruct (ResponseWriter.Write b (delegate i)) as [[size err] d] eqn:Hw.
    match goal with
    | |- context [run_calls cs ?j] =>
        specialize (IH j); destruct (run_calls cs j) as [rs i2] eqn:Hr
    end.
    simpl in *. rewrite IH by apply wrap_int_in_int.
    rewrite wrap_int_add_l. f_equal. unfold sum_Z. simpl.
    rewrite Z.add_assoc. reflexivity.
  - unfold respInterceptor_WriteHeader.
    destruct (negb (wroteHeader i)); simpl; rewrite IH by exact Hi; reflexivity.
Qed.


(** Body writes leave the recorded status alone. *)
Lemma run_writes_status (bs : list bytes) i :
  status (run_calls (call_Write <$> bs) i).2 = status i.
Proof.
  revert i. induction bs as [|b bs IH]; intros i; simpl; [done|].
  unfold respInterceptor_Write.
  destruct (ResponseWriter.Write b (delegate i)) as [[size err] d].
  match goal with
  | |- context [run_calls _ ?j] =>
      specialize (IH j); destruct (run_calls _ j) as [rs i2]
  end.
  exact IH.
Qed.

(** After a body write, [WriteHeader] does nothing. *)
Lemma WriteHeader_after_Write b statusCode i :
  respInterceptor_WriteHeader statusCode (respInterceptor_Write b i).2
  = (respInterceptor_Write b i).2.
Proof.
  unfold respInterceptor_Write.
  by destruct (ResponseWriter.Write b (delegate i)) as [[size err] d].
Qed.

(** Before any body write, each [WriteHeader] reaches the sink and replaces
    the recorded status: [WriteHeader] does not set [wroteHeader]. *)
Lemma WriteHeader_twice S T i :
  wroteHeader i = false ->
  let i2 := respInterceptor_WriteHeader T (respInterceptor_WriteHeader S i) in
  status i2 = T /\
  delegate i2 = ResponseWriter.WriteHeader T (ResponseWriter.WriteHeader S (delegate i)).
Proof.
  intros Hw. unfold respInterceptor_WriteHeader. rewrite Hw. simpl. done.
Qed.


(** C9. [Write] returns the byte count and the error of the real sink as
    they are, the sink is left as its own [Write] left it, and the count
    returned is added to [Written()] whether or not there was an error
    (in Go's arithmetic; exactly, when the total fits an [int]). *)
Theorem Write_forwards_result_and_counts (b : bytes) i :
  let res := respInterceptor_Write b i in
  let real := ResponseWriter.Write b (delegate i) in
  res.1 = real.1 /\
  delegate res.2 = real.2 /\
  respInterceptor_Written res.2 = wrap_int (respInterceptor_Written i + real.1.1) /\
  (in_int (respInterceptor_Written i + real.1.1) ->
   respInterceptor_Written res.2 = respInterceptor_Written i + real.1.1).
Proof.
  unfold respInterceptor_Write, respInterceptor_Written.
  destruct (ResponseWriter.Write b (delegate i)) as [[size err] d]; simpl.
  repeat split. apply wrap_int_id.
Qed.

(** C5. When a handler only writes body bytes to a new interceptor,
    [Status()] is 200 however many writes there were; and over a recording
    sink, after "ab" then "cde", [Status()] is 200 and [Written()] is 5. *)
Theorem Status_defaults_to_OK (bs : list bytes) (w : W) (r : http_Request) :
  (respInterceptor_Status
     (run_calls (call_Write <$> bs) (new_respInterceptor w r)).2).1 = 200 /\
  (let i := (run_calls [call_Write Examples.ab; call_Write Examples.cde]
               (new_respInterceptor new_recorder r)).2 in
   (respInterceptor_Status i).1 = 200 /\ respInterceptor_Written i = 5).
Proof.
  split; [|split; reflexivity].
  unfold respInterceptor_Status. by rewrite run_writes_status.
Qed.
End InterceptorFacts.

(** ** Slices *)

Section SliceFacts.
Context {T : Type} (zero : T) (growslice : nat -> nat -> nat).
Implicit Types (m : gmap loc (list T)) (s : slice) (p q : loc).

(** A new array is none of the allocated ones. *)
Lemma fresh_not_allocated m p : is_Some (m !! p) -> p ≠ fresh (dom m).
Proof.
  intros Hp ->. apply (is_fresh (dom m)). by apply elem_of_dom.
Qed.

(** A well-formed slice has its [len] elements. *)
Lemma slice_ok_elems m s :
  slice_ok m s ->
  exists xs, slice_elems s m = Some xs /\ length xs = len s.
Proof.
  unfold slice_ok, slice_elems. destruct (array s) as [p|].
  - intros (a & -> & Hlen). eexists; split; [reflexivity|].
    rewrite length_take. lia.
  - intros [-> _]. by exists [].
Qed.

(** [make] then [copy] of a whole slice: the new array holds the elements
    of the source, and nothing else changes. *)
Lemma make_copy m src xs :
  slice_ok m src ->
  slice_elems src m = Some xs ->
  let p := fresh (dom m) in
  copy (make zero (len src) m).1 src (make zero (len src) m).2
    = Some (len src, <[p := xs]> m).
Proof.
  intros Hok Hxs p. unfold make, copy. fold p. simpl.
  assert (slice_elems src (<[p := replicate (len src) zero]> m) = Some xs) as ->.
  { revert Hok Hxs. unfold slice_ok, slice_elems.
    destruct (array src) as [q|]; [|done].
    intros (a & Ha & _). rewrite Ha. intros [= <-].
    rewrite lookup_insert_ne; [by rewrite Ha|].
    symmetry. apply fresh_not_allocated. by rewrite Ha. }
  rewrite lookup_insert_eq, Nat.min_id.
  destruct (slice_ok_elems _ _ Hok) as (xs' & Hxs' & Hlen).
  rewrite Hxs in Hxs'. injection Hxs' as <-.
  rewrite insert_insert_eq. do 3 f_equal.
  rewrite firstn_all2 by lia.
  rewrite drop_ge by (rewrite length_replicate; lia).
  by rewrite app_nil_r.
Qed.

Lemma make_lookup_other n m q :
  is_Some (m !! q) -> (make zero n m).2 !! q = m !! q.
Proof.
  intros Hq. unfold make. simpl. rewrite lookup_insert_ne; [done|].
  symmetry. by apply fresh_not_allocated.
Qed.

Lemma make_array_fresh n m q :
  is_Some (m !! q) -> array (make zero n m).1 ≠ Some q.
Proof.
  intros Hq. unfold make. simpl. intros [= E].
  by apply (fresh_not_allocated m q).
Qed.

(** [append] leaves every allocated array other than the slice's own as it
    was, and the slice it returns is over the same array or a new one. *)
Lemma append_frame s xs m s' m' q :
  append zero growslice s xs m = Some (s', m') ->
  is_Some (m !! q) ->
  array s ≠ Some q ->
  m' !! q = m !! q /\ array s' ≠ Some q.
Proof.
  unfold append. intros Happ Hq Hne.
  destruct (len s + length xs <=? cap s)%nat.
  - destruct (array s) as [p|] eqn:Hp.
    + destruct (m !! p) as [a|] eqn:Ha; [|done].
      injection Happ as <- <-. simpl. split; [|done].
      rewrite lookup_insert_ne; [done|]. congruence.
    + destruct xs; [|done]. injection Happ as <- <-. by rewrite Hp.
  - destruct (slice_elems s m) as [old|]; [|done].
    injection Happ as <- <-. simpl. split.
    + rewrite lookup_insert_ne; [done|]. symmetry. by apply fresh_not_allocated.
    + intros [= E]. by apply (fresh_not_allocated m q).
Qed.

Lemma copy_frame dst src m n m' q :
  copy dst src m = Some (n, m') ->
  array dst ≠ Some q ->
  m' !! q = m !! q.
Proof.
  unfold copy. intros Hcp Hne.
  destruct (slice_elems src m) as [xs|]; [|done].
  destruct (array dst) as [p|]; [|by injection Hcp as <- <-].
  destruct (m !! p) as [a|]; [|done].
  injection Hcp as <- <-. rewrite lookup_insert_ne; [done|]. congruence.
Qed.
End SliceFacts.

(** ** The clone of a logging builder *)

Section CloneFacts.
Context {U : Type} (growslice : nat -> nat -> nat).
Implicit Types (h : Heap U) (lb c : loc) (b cv : loggingBuilderImpl).

Lemma clone_spec lb h b :
  loggingBuilders h !! lb = Some b ->
  slice_ok (reqArrays h) (reqInfoFns b) ->
  slice_ok (respArrays h) (respInfoFns b) ->
  exists fq fp,
    slice_elems (reqInfoFns b) (reqArrays h) = Some fq /\
    slice_elems (respInfoFns b) (respArrays h) = Some fp /\
    length fq = len (reqInfoFns b) /\
    length fp = len (respInfoFns b) /\
    loggingBuilderImpl_clone lb h
      = Some ((cloned h b fq fp).1.1, (cloned h b fq fp).2).
Proof.
  intros Hb Hq Hp.
  destruct (slice_ok_elems _ _ Hq) as (fq & Hfq & Hlq).
  destruct (slice_ok_elems _ _ Hp) as (fp & Hfp & Hlp).
  exists fq, fp. repeat split; try done.
  unfold loggingBuilderImpl_clone. rewrite Hb.
  pose proof (make_copy nil_ReqInfoExtractorFn _ _ _ Hq Hfq) as Cq.
  pose proof (make_copy nil_RespInfoExtractorFn _ _ _ Hp Hfp) as Cp.
  unfold make in Cq, Cp. simpl in Cq, Cp.
  unfold make. simpl. rewrite Cq, Cp.
  reflexivity.
Qed.
End CloneFacts.

(** ** Calls on the builder after [Build] *)

Section Frozen.
Context {U : Type} (growslice : nat -> nat -> nat).
Implicit Types (h : Heap U) (lb c pc qc : loc) (b cv : loggingBuilderImpl).

(** Assignments to the builder's fields other than its slices. *)
Lemma private_clone_update f c lb cv pc qc ac bc h lb' h' :
  (forall b, reqInfoFns (f b) = reqInfoFns b /\ respInfoFns (f b) = respInfoFns b) ->
  update_loggingBuilder f lb h = Some (lb', h') ->
  private_clone c lb cv pc qc ac bc h ->
  private_clone c lb cv pc qc ac bc h'.
Proof.
  intros Hf Hup (Hc & Hpc & Hqc & Hac & Hbc & Hne & Hsep).
  unfold update_loggingBuilder in Hup.
  destruct (loggingBuilders h !! lb) as [b|] eqn:Hb; [|done].
  injection Hup as <- <-. unfold private_clone, store_loggingBuilder; simpl.
  rewrite lookup_insert_ne by done. split_and!; try done.
  intros b'; rewrite lookup_insert_eq; intros [= <-].
  destruct (Hf b) as [-> ->]; by apply Hsep.
Qed.

(** No call on the builder reaches the clone. *)
Lemma private_clone_call k c lb cv pc qc ac bc h h' :
  run_loggingBuilder_call growslice k lb h = Some h' ->
  private_clone c lb cv pc qc ac bc h ->
  private_clone c lb cv pc qc ac bc h'.
Proof.
  intros Hrun Hpriv.
  destruct k; simpl in Hrun;
    try (match type of Hrun with
         | snd <$> ?e = _ => destruct e as [[lb' h'']|] eqn:He; [|done]
         end; injection Hrun as <-;
         eapply private_clone_update; [|exact He|exact Hpriv]; by intros []).
  - (* ClearRequestInfoExtractors *)
    destruct Hpriv as (Hc & Hpc & Hqc & Hac & Hbc & Hne & Hsep).
    unfold loggingBuilderImpl_ClearRequestInfoExtractors in Hrun.
    destruct (loggingBuilders h !! lb) as [b|] eqn:Hb; [|done].
    injection Hrun as <-. unfold private_clone; simpl.
    rewrite lookup_insert_ne by done.
    rewrite lookup_insert_ne
      by (symmetry; apply fresh_not_allocated; by rewrite Hac).
    split_and!; try done.
    intros b'; rewrite lookup_insert_eq; intros [= <-]; simpl. split.
    + intros [= E]. by apply (fresh_not_allocated (reqArrays h) pc); [rewrite Hac|].
    + by apply Hsep.
  - (* AddRequestInfoExtractors *)
    destruct Hpriv as (Hc & Hpc & Hqc & Hac & Hbc & Hne & Hsep).
    unfold loggingBuilderImpl_AddRequestInfoExtractors in Hrun.
    destruct (loggingBuilders h !! lb) as [b|] eqn:Hb; [|done].
    destruct (append _ _ _ _ _) as [[s reqA]|] eqn:Happ; [|done].
    injection Hrun as <-.
    destruct (append_frame _ _ _ _ _ _ _ pc Happ) as [Hsame Harr];
      [by rewrite Hac|by apply Hsep|].
    unfold private_clone; simpl. rewrite lookup_insert_ne by done.
    rewrite Hsame. split_and!; try done.
    intros b'; rewrite lookup_insert_eq; intros [= <-]; simpl. split; [done|].
    by apply Hsep.
  - (* ClearResponseInfoExtractors *)
    destruct Hpriv as (Hc & Hpc & Hqc & Hac & Hbc & Hne & Hsep).
    unfold loggingBuilderImpl_ClearResponseInfoExtractors in Hrun.
    destruct (loggingBuilders h !! lb) as [b|] eqn:Hb; [|done].
    injection Hrun as <-. unfold private_clone; simpl.
    rewrite lookup_insert_ne by done.
    rewrite lookup_insert_ne
      by (symmetry; apply fresh_not_allocated; by rewrite Hbc).
    split_and!; try done.
    intros b'; rewrite lookup_insert_eq; intros [= <-]; simpl. split.
    + by apply Hsep.
    + intros [= E]. by apply (fresh_not_allocated (respArrays h) qc); [rewrite Hbc|].
  - (* AddResponseInfoExtractors *)
    destruct Hpriv as (Hc & Hpc & Hqc & Hac & Hbc & Hne & Hsep).
    unfold loggingBuilderImpl_AddResponseInfoExtractors in Hrun.
    destruct (loggingBuilders h !! lb) as [b|] eqn:Hb; [|done].
    destruct (append _ _ _ _ _) as [[s respA]|] eqn:Happ; [|done].
    injection Hrun as <-.
    destruct (append_frame _ _ _ _ _ _ _ qc Happ) as [Hsame Harr];
      [by rewrite Hbc|by apply Hsep|].
    unfold private_clone; simpl. rewrite lookup_insert_ne by done.
    rewrite Hsame. split_and!; try done.
    intros b'; rewrite lookup_insert_eq; intros [= <-]; simpl. split; [|done].
    by apply Hsep.
  - (* Build *)
    destruct Hpriv as (Hc & Hpc & Hqc & Hac & Hbc & Hne & Hsep).
    unfold loggingBuilderImpl_Build in Hrun.
    destruct (loggingBuilderImpl_clone lb h) as [[c2 h2]|] eqn:Hcl; [|done].
    injection Hrun as <-. unfold loggingBuilderImpl_clone in Hcl.
    destruct (loggingBuilders h !! lb) as [b|] eqn:Hb; [|done].
    destruct (make nil_ReqInfoExtractorFn _ _) as [rq reqA] eqn:Mq.
    destruct (make nil_RespInfoExtractorFn _ _) as [rs respA] eqn:Mp.
    destruct (copy rq _ reqA) as [[nq reqA']|] eqn:Cq; [|done].
    destruct (copy rs _ respA) as [[np respA']|] eqn:Cp; [|done].
    injection Hcl as <- <-. unfold private_clone; simpl.
    assert (fresh (dom (loggingBuilders h)) ≠ c) as Hc2.
    { intros E. apply (is_fresh (dom (loggingBuilders h))).
      rewrite E. apply elem_of_dom. by rewrite Hc. }
    assert (fresh (dom (loggingBuilders h)) ≠ lb) as Hlb2.
    { intros E. apply (is_fresh (dom (loggingBuilders h))).
      rewrite E. apply elem_of_dom. by rewrite Hb. }
    rewrite !lookup_insert_ne by done.
    assert (reqA' !! pc = Some ac) as ->.
    { rewrite (copy_frame _ _ _ _ _ pc Cq).
      - replace reqA with (make nil_ReqInfoExtractorFn (len (reqInfoFns b)) (reqArrays h)).2
          by (by rewrite Mq).
        rewrite make_lookup_other; by rewrite Hac.
      - replace rq with (make nil_ReqInfoExtractorFn (len (reqInfoFns b)) (reqArrays h)).1
          by (by rewrite Mq).
        apply make_array_fresh. by rewrite Hac. }
    assert (respA' !! qc = Some bc) as ->.
    { rewrite (copy_frame _ _ _ _ _ qc Cp).
      - replace respA with (make nil_RespInfoExtractorFn (len (respInfoFns b)) (respArrays h)).2
          by (by rewrite Mp).
        rewrite make_lookup_other; by rewrite Hbc.
      - replace rs with (make nil_RespInfoExtractorFn (len (respInfoFns b)) (respArrays h)).1
          by (by rewrite Mp).
        apply make_array_fresh. by rewrite Hbc. }
    split_and!; try done. by rewrite Hb.
Qed.

Lemma private_clone_calls ks c lb cv pc qc ac bc h h' :
  run_loggingBuilder_calls growslice ks lb h = Some h' ->
  private_clone c lb cv pc qc ac bc h ->
  private_clone c lb cv pc qc ac bc h'.
Proof.
  revert h. induction ks as [|k ks IH]; intros h; simpl.
  - by intros [= <-].
  - destruct (run_loggingBuilder_call growslice k lb h) as [h1|] eqn:Hk; [|done].
    intros Hks Hpriv. apply (IH h1 Hks). by eapply private_clone_call.
Qed.

(** The handler of a private clone behaves the same in every heap in which
    the clone is intact. *)
Lemma private_clone_ServeHTTP c lb cv pc qc ac bc h h' (next : http_Handler U) :
  private_clone c lb cv pc qc ac bc h ->
  private_clone c lb cv pc qc ac bc h' ->
  same_handler next h h' ->
  same_handler (loggingBuilderImpl_ServeHTTP c next) h h'.
Proof.
  intros (Hc & Hpc & Hqc & Hac & Hbc & _) (Hc' & _ & _ & Hac' & Hbc' & _) Hnext.
  intros W RW w r o. unfold loggingBuilderImpl_ServeHTTP. rewrite Hc, Hc'.
  unfold loggingBuilderImpl_logRequest, loggingBuilderImpl_dispatch, slice_elems.
  rewrite Hpc, Hqc, Hac, Hac', Hbc, Hbc'. unfold bind.
  destruct (reqLog cv); simpl.
  - destruct (range_reqInfoFns _ r [] o) as [[args o1]|]; [|done]. simpl.
    destruct (respLog cv); [|apply Hnext]. by rewrite Hnext.
  - destruct (respLog cv); [|apply Hnext]. by rewrite Hnext.
Qed.

(** [Build] on a well-formed builder returns the handler of a private clone. *)
Lemma Build_private_clone lb h mw h1 :
  loggingBuilder_ok lb h ->
  loggingBuilderImpl_Build lb h = Some (mw, h1) ->
  exists c cv pc qc ac bc,
    mw = (fun next => loggingBuilderImpl_ServeHTTP c next) /\
    private_clone c lb cv pc qc ac bc h1.
Proof.
  intros (b & Hb & Hq & Hp) HB. unfold loggingBuilderImpl_Build in HB.
  destruct (clone_spec lb h b Hb Hq Hp) as (fq & fp & Hfq & Hfp & _ & _ & Hcl).
  rewrite Hcl in HB. injection HB as <- <-.
  eexists _, _, _, _, _, _. split; [reflexivity|].
  unfold private_clone, cloned; simpl.
  rewrite !lookup_insert_eq.
  assert (fresh (dom (loggingBuilders h)) ≠ lb) as Hlb2.
  { intros E. apply (is_fresh (dom (loggingBuilders h))).
    rewrite E. apply elem_of_dom. by rewrite Hb. }
  split_and!; try done.
  intros b'. rewrite lookup_insert_ne by done. rewrite Hb. intros [= <-].
  split; intros E.
  - unfold slice_ok in Hq. rewrite E in Hq. destruct Hq as (a & Ha & _).
    by apply (fresh_not_allocated (reqArrays h) (fresh (dom (reqArrays h)))); [rewrite Ha|].
  - unfold slice_ok in Hp. rewrite E in Hp. destruct Hp as (a & Ha & _).
    by apply (fresh_not_allocated (respArrays h) (fresh (dom (respArrays h)))); [rewrite Ha|].
Qed.

Lemma Build_unchanged_by_calls lb h0 mw h1 ks h2 (next : http_Handler U) :
  loggingBuilder_ok lb h0 ->
  loggingBuilderImpl_Build lb h0 = Some (mw, h1) ->
  run_loggingBuilder_calls growslice ks lb h1 = Some h2 ->
  same_handler next h1 h2 ->
  same_handler (mw next) h1 h2.
Proof.
  intros Hok HB Hks Hnext.
  destruct (Build_private_clone _ _ _ _ Hok HB) as (c & cv & pc & qc & ac & bc & -> & Hpriv).
  eapply private_clone_ServeHTTP; [exact Hpriv| |exact Hnext].
  by eapply private_clone_calls.
Qed.
End Frozen.

(** ** Calls on a well-formed builder return *)

Section SliceOk.
Context {T : Type} (zero : T) (growslice : nat -> nat -> nat).
Implicit Types (m : gmap loc (list T)) (s : slice) (p q : loc).

Lemma slice_ok_insert_fresh m s a :
  slice_ok m s -> slice_ok (<[fresh (dom m) := a]> m) s.
Proof.
  unfold slice_ok. destruct (array s) as [p|]; [|done].
  intros (a' & Ha & Hlen). exists a'. split; [|done].
  rewrite lookup_insert_ne; [done|].
  symmetry. apply fresh_not_allocated. by rewrite Ha.
Qed.

Lemma make_ok n m : slice_ok (make zero n m).2 (make zero n m).1.
Proof.
  unfold make, slice_ok. simpl. eexists. rewrite lookup_insert_eq.
  split; [reflexivity|]. by rewrite length_replicate.
Qed.

(** [append] on a well-formed slice succeeds and returns a well-formed
    slice that ends with the appended elements. *)
Lemma append_ok s xs m :
  slice_ok m s ->
  exists s' m' old,
    append zero growslice s xs m = Some (s', m') /\
    slice_ok m' s' /\
    slice_elems s m = Some old /\
    slice_elems s' m' = Some (old ++ xs).
Proof.
  intros Hok. destruct (slice_ok_elems _ _ Hok) as (old & Hold & Hlen).
  unfold append.
  destruct (len s + length xs <=? cap s)%nat eqn:Hcap.
  - revert Hok Hold. unfold slice_ok, slice_elems.
    destruct (array s) as [p|] eqn:Hp.
    + intros (a & Ha & Hla). rewrite Ha. intros [= <-].
      eexists _, _, _. split; [reflexivity|]. simpl.
      rewrite lookup_insert_eq. split_and!; try done.
      * eexists. split; [reflexivity|].
        rewrite !length_app, length_take. lia.
      * f_equal. rewrite app_assoc, take_app_length'; [done|].
        rewrite length_app, length_take. lia.
    + intros [Hl Hc] [= <-]. apply Nat.leb_le in Hcap.
      destruct xs as [|x xs]; [|simpl in Hcap; lia].
      exists s, m, []. rewrite ?Hp. split_and!; done.
  - exists (mk_slice (Some (fresh (dom m))) (len s + length xs)
              (growslice (cap s) (len s + length xs))).
    rewrite Hold. eexists _, _. split; [reflexivity|].
    unfold slice_ok, slice_elems; simpl. rewrite lookup_insert_eq.
    split_and!; try done.
    + eexists. split; [reflexivity|]. rewrite !length_app. lia.
    + f_equal. rewrite app_assoc, take_app_length'; [done|].
      rewrite length_app. lia.
Qed.
End SliceOk.

Section Totality.
Context {U : Type} (growslice : nat -> nat -> nat).
Implicit Types (h : Heap U) (lb c pc qc : loc) (b cv : loggingBuilderImpl).

Lemma update_loggingBuilder_ok f lb h :
  (forall b, reqInfoFns (f b) = reqInfoFns b /\ respInfoFns (f b) = respInfoFns b) ->
  loggingBuilder_ok lb h ->
  exists h', snd <$> update_loggingBuilder f lb h = Some h' /\ loggingBuilder_ok lb h'.
Proof.
  intros Hf (b & Hb & Hq & Hp). unfold update_loggingBuilder. rewrite Hb.
  eexists. split; [reflexivity|]. exists (f b). simpl.
  rewrite lookup_insert_eq. destruct (Hf b) as [-> ->]. done.
Qed.

(** Every call on a well-formed builder returns, and leaves it well-formed. *)
Lemma loggingBuilder_call_ok k lb h :
  loggingBuilder_ok lb h ->
  exists h', run_loggingBuilder_call growslice k lb h = Some h' /\
             loggingBuilder_ok lb h'.
Proof.
  intros Hok.
  destruct k; simpl; try (apply update_loggingBuilder_ok; [by intros []|done]).
  - destruct Hok as (b & Hb & Hq & Hp).
    unfold loggingBuilderImpl_ClearRequestInfoExtractors. rewrite Hb.
    eexists. split; [reflexivity|]. eexists. simpl. rewrite lookup_insert_eq.
    split; [reflexivity|]. simpl. split; [|done].
    apply (make_ok nil_ReqInfoExtractorFn 0).
  - destruct Hok as (b & Hb & Hq & Hp).
    unfold loggingBuilderImpl_AddRequestInfoExtractors. rewrite Hb.
    destruct (append_ok nil_ReqInfoExtractorFn growslice _ extFns _ Hq)
      as (s' & m' & old & -> & Hs' & _).
    eexists. split; [reflexivity|]. eexists. simpl. rewrite lookup_insert_eq.
    split; [reflexivity|]. done.
  - destruct Hok as (b & Hb & Hq & Hp).
    unfold loggingBuilderImpl_ClearResponseInfoExtractors. rewrite Hb.
    eexists. split; [reflexivity|]. eexists. simpl. rewrite lookup_insert_eq.
    split; [reflexivity|]. simpl. split; [done|].
    apply (make_ok nil_RespInfoExtractorFn 0).
  - destruct Hok as (b & Hb & Hq & Hp).
    unfold loggingBuilderImpl_AddResponseInfoExtractors. rewrite Hb.
    destruct (append_ok nil_RespInfoExtractorFn growslice _ extFns _ Hp)
      as (s' & m' & old & -> & Hs' & _).
    eexists. split; [reflexivity|]. eexists. simpl. rewrite lookup_insert_eq.
    split; [reflexivity|]. done.
  - destruct Hok as (b & Hb & Hq & Hp).
    destruct (clone_spec lb h b Hb Hq Hp) as (fq & fp & _ & _ & _ & _ & Hcl).
    unfold loggingBuilderImpl_Build. rewrite Hcl.
    eexists. split; [reflexivity|]. exists b. unfold cloned; simpl.
    rewrite lookup_insert_ne.
    + split_and!; [done| |]; by apply slice_ok_insert_fresh.
    + intros E. apply (is_fresh (dom (loggingBuilders h))).
      rewrite E. apply elem_of_dom. by rewrite Hb.
Qed.

Lemma loggingBuilder_calls_ok ks lb h :
  loggingBuilder_ok lb h ->
  exists h', run_loggingBuilder_calls growslice ks lb h = Some h' /\
             loggingBuilder_ok lb h'.
Proof.
  revert h. induction ks as [|k ks IH]; intros h Hok; simpl.
  - by exists h.
  - destruct (loggingBuilder_call_ok k lb h Hok) as (h1 & -> & Hok1).
    by apply IH.
Qed.
End Totality.

(** ** The logging middleware *)

Section LoggingFacts.
Context {U : Type} (growslice : nat -> nat -> nat).
Implicit Types (h : Heap U) (lb c pc qc : loc) (b cv : loggingBuilderImpl).
Local Open Scope go_scope.

(** The loop of the handler evaluates the extractors in list order and
    appends the flattened pairs to [args]. *)
Lemma range_reqInfoFns_eval (fns : list (ReqInfoExtractorFn U)) r args o :
  range_reqInfoFns fns r args o
  = (let* kvs := eval_in_order fns r in ret (args ++ flatten_fields kvs)) o.
Proof.
  revert args o. induction fns as [|fn fns IH]; intros args o; simpl.
  - unfold bind, ret. by rewrite app_nil_r.
  - unfold bind at 1 2 3. destruct (fn r o) as [[[k v] o1]|]; [|done].
    rewrite IH. unfold bind, ret.
    destruct (eval_in_order fns r o1) as [[kvs o2]|]; [|done].
    simpl. by rewrite <- !app_assoc.
Qed.

(** The first [if] of the handler does what the specification says of the
    request-log step. *)
Lemma logRequest_request_log_step cv (fns : list (ReqInfoExtractorFn U)) r h o :
  slice_elems (reqInfoFns cv) (reqArrays h) = Some fns ->
  loggingBuilderImpl_logRequest cv r h o
  = request_log_step (reqLog cv) (l cv) (lvl cv) (reqMsg cv) fns r o.
Proof.
  intros Hfns. unfold loggingBuilderImpl_logRequest, request_log_step.
  rewrite Hfns. destruct (reqLog cv); [|done].
  unfold bind. rewrite range_reqInfoFns_eval. unfold bind, ret.
  by destruct (eval_in_order fns r o) as [[kvs o1]|].
Qed.

(** What [Build] returns on a well-formed builder: the handler of a clone
    that holds the builder's settings and extractors.  It runs the
    request-log step of the builder as it was, then the second [if] on the
    clone. *)
Lemma Build_spec lb h0 b fq fp :
  configured_as lb h0 b fq fp ->
  let cv := (cloned h0 b fq fp).1.2 in
  let h1 := (cloned h0 b fq fp).2 in
  exists mw,
    loggingBuilderImpl_Build lb h0 = Some (mw, h1) /\
    forall (next : http_Handler U) W RW w r o,
      mw next W RW w r h1 o
      = (request_log_step (reqLog b) (l b) (lvl b) (reqMsg b) fq r ;;
         loggingBuilderImpl_dispatch cv next W RW w r h1) o.
Proof.
  intros (Hb & Hq & Hp & Hfq & Hfp) cv h1.
  destruct (clone_spec lb h0 b Hb Hq Hp) as (fq' & fp' & Hfq' & Hfp' & Hlq & Hlp & Hcl).
  rewrite Hfq in Hfq'. injection Hfq' as <-.
  rewrite Hfp in Hfp'. injection Hfp' as <-.
  unfold loggingBuilderImpl_Build. rewrite Hcl.
  eexists. split; [reflexivity|].
  intros next W RW w r o. unfold loggingBuilderImpl_ServeHTTP.
  subst cv h1. unfold cloned; simpl.
  rewrite lookup_insert_eq. unfold bind.
  erewrite logRequest_request_log_step; [reflexivity|].
  unfold slice_elems; simpl. rewrite lookup_insert_eq.
  by rewrite firstn_all2 by lia.
Qed.

(** C3. [Build] on a well-formed builder returns a middleware, every later
    sequence of calls on the builder (setters, clearing and adding
    extractors, further builds) returns, and in the heap it leaves the
    middleware built before behaves as it did when it was built, on every
    request and around every handler that does not itself depend on the
    builder. *)
Theorem Build_is_a_snapshot lb h0 :
  loggingBuilder_ok lb h0 ->
  exists mw h1,
    loggingBuilderImpl_Build lb h0 = Some (mw, h1) /\
    forall ks, exists h2,
      run_loggingBuilder_calls growslice ks lb h1 = Some h2 /\
      forall next : http_Handler U,
        same_handler next h1 h2 -> same_handler (mw next) h1 h2.
Proof.
  intros Hok.
  destruct (loggingBuilder_call_ok growslice call_Build lb h0 Hok) as (h1 & HB & Hok1).
  simpl in HB.
  destruct (loggingBuilderImpl_Build lb h0) as [[mw h1']|] eqn:HB'; [|done].
  injection HB as ->. exists mw, h1. split; [done|]. intros ks.
  destruct (loggingBuilder_calls_ok growslice ks lb h1 Hok1) as (h2 & Hks & _).
  exists h2. split; [done|]. intros next.
  by apply (Build_unchanged_by_calls growslice lb h0 mw h1 ks h2 next).
Qed.

(** C7. With request logging enabled, the built handler evaluates the
    request extractors in list order and then makes one log call, with the
    configured logger, level and request message, whose fields are the
    label/value pairs in that order; only then does it go on to the
    wrapped handler.  With the extractors [method, path], the fields are
    method, the request's method, path, the request's path. *)
Theorem request_log_fields_follow_extractor_order lb h0 b fq fp :
  configured_as lb h0 b fq fp ->
  reqLog b = true ->
  let cv := (cloned h0 b fq fp).1.2 in
  let h1 := (cloned h0 b fq fp).2 in
  exists mw,
    loggingBuilderImpl_Build lb h0 = Some (mw, h1) /\
    forall (next : http_Handler U) W RW w r o,
      mw next W RW w r h1 o
      = (let* kvs := eval_in_order fq r in
         Logger_Log (l b) (Context r) (lvl b) (reqMsg b) (flatten_fields kvs) ;;
         loggingBuilderImpl_dispatch cv next W RW w r h1) o /\
      (fq = [MethodReqInfoExtractor; PathReqInfoExtractor] ->
       mw next W RW w r h1 o
       = loggingBuilderImpl_dispatch cv next W RW w r h1
           (mk_Obs
              (logs o ++
               [mk_slog_Log (l b) (Context r) (lvl b) (reqMsg b)
                  [any_string "method"; any_string (Method r);
                   any_string "path"; any_string (URL_Path r)]])
              (user o))).
Proof.
  intros Hcfg Hreq cv h1.
  destruct (Build_spec lb h0 b fq fp Hcfg) as (mw & HB & Hmw).
  exists mw. split; [exact HB|]. intros next W RW w r o.
  rewrite Hmw. unfold request_log_step. rewrite Hreq.
  split.
  - unfold bind. by destruct (eval_in_order fq r o) as [[kvs o1]|].
  - by intros ->.
Qed.

(** C8. With response logging disabled, the built handler runs the
    request-log step (one log call when request logging is enabled, none
    otherwise) and then is the wrapped handler on the sink it was given:
    whatever the response extractors are, none is called, and no other log
    call is made. *)
Theorem disabled_response_log_calls_next_on_raw_sink lb h0 b fq fp :
  configured_as lb h0 b fq fp ->
  respLog b = false ->
  let h1 := (cloned h0 b fq fp).2 in
  exists mw,
    loggingBuilderImpl_Build lb h0 = Some (mw, h1) /\
    forall (next : http_Handler U) W RW w r o,
      mw next W RW w r h1 o
      = (request_log_step (reqLog b) (l b) (lvl b) (reqMsg b) fq r ;;
         next W RW w r h1) o.
Proof.
  intros Hcfg Hresp h1.
  destruct (Build_spec lb h0 b fq fp Hcfg) as (mw & HB & Hmw).
  exists mw. split; [exact HB|]. intros next W RW w r o.
  rewrite Hmw. unfold loggingBuilderImpl_dispatch, bind.
  change (respLog (cloned h0 b fq fp).1.2) with (respLog b).
  rewrite Hresp. reflexivity.
Qed.

(** C10. With request logging enabled and no request extractor, the built
    handler makes one request log call, with the configured logger, level
    and message and no fields, and goes on to the wrapped handler. *)
Theorem empty_extractor_list_still_logs lb h0 b fp :
  configured_as lb h0 b [] fp ->
  reqLog b = true ->
  let cv := (cloned h0 b [] fp).1.2 in
  let h1 := (cloned h0 b [] fp).2 in
  exists mw,
    loggingBuilderImpl_Build lb h0 = Some (mw, h1) /\
    forall (next : http_Handler U) W RW w r o,
      mw next W RW w r h1 o
      = loggingBuilderImpl_dispatch cv next W RW w r h1
          (mk_Obs (logs o ++ [mk_slog_Log (l b) (Context r) (lvl b) (reqMsg b) []])
             (user o)).
Proof.
  intros Hcfg Hreq cv h1.
  destruct (Build_spec lb h0 b [] fp Hcfg) as (mw & HB & Hmw).
  exists mw. split; [exact HB|]. intros next W RW w r o.
  rewrite Hmw. unfold request_log_step. by rewrite Hreq.
Qed.
End LoggingFacts.

(** ** The interceptor middleware *)

Section InterceptorBuilderFacts.
Context {U : Type}.
Implicit Types (h : Heap U) (i : loc) (b : interceptorBuilderImpl U).

(** A request that the filter turns down goes to the wrapped handler. *)
Lemma ServeHTTP_filtered_out i h b (next : http_Handler U) W RW (w : W) r o o1 :
  interceptorBuilders h !! i = Some b ->
  filterFn b r o = Some (false, o1) ->
  interceptorBuilderImpl_ServeHTTP i next W RW w r h o = next W RW w r h o1.
Proof.
  intros Hb Hf. unfold interceptorBuilderImpl_ServeHTTP.
  rewrite Hb. unfold bind. by rewrite Hf.
Qed.

(** C6. When the filter of the builder returns false for a request, the
    built handler is the wrapped handler on the sink it was given, from
    the state the filter left: neither callback is called and no
    interceptor is made. *)
Theorem filtered_out_request_passes_through i h b (next : http_Handler U)
    W RW (w : W) r o o1 :
  interceptorBuilders h !! i = Some b ->
  filterFn b r o = Some (false, o1) ->
  interceptorBuilderImpl_Build i next W RW w r h o = next W RW w r h o1.
Proof. apply ServeHTTP_filtered_out. Qed.

(** The handler that [Build] returned follows a later [WithRequestFilter]:
    it reads the filter from the builder when the request arrives. *)
Lemma Build_follows_WithRequestFilter i h b f (next : http_Handler U)
    W RW (w : W) r o o1 :
  interceptorBuilders h !! i = Some b ->
  f r o = Some (false, o1) ->
  exists h',
    interceptorBuilderImpl_WithRequestFilter f i h = Some (i, h') /\
    interceptorBuilderImpl_Build i next W RW w r h' o = next W RW w r h' o1.
Proof.
  intros Hb Hf. unfold interceptorBuilderImpl_WithRequestFilter. rewrite Hb.
  eexists. split; [reflexivity|].
  apply (ServeHTTP_filtered_out i _ (mk_interceptorBuilderImpl f (bcb b) (cb b)));
    [|exact Hf].
  unfold store_interceptorBuilder; simpl. apply lookup_insert_eq.
Qed.
End InterceptorBuilderFacts.

(** ** Builders made by the package are well formed *)

Section PackageFacts.
Context {U : Type}.

Lemma init_slices_ok : globals_ok (init_slices : Heap U).
Proof.
  split; (eexists; split; [apply lookup_insert_eq|simpl; lia]).
Qed.

Lemma NewLoggingBuilder_ok (h : Heap U) :
  globals_ok h ->
  loggingBuilder_ok (NewLoggingBuilder h).1 (NewLoggingBuilder h).2.
Proof.
  intros [Hq Hp]. eexists. unfold NewLoggingBuilder; simpl.
  rewrite lookup_insert_eq. split; [reflexivity|]. done.
Qed.
End PackageFacts.

Lemma recorder_accepts_all : accepts_all recorder.
Proof. intros b w. reflexivity. Qed.

(** ** The properties at concrete inputs *)


(** C9, at a write of "cde" over a connection that breaks after one more
    byte: the count 1 and the error come back, and 1 is added to the 2 bytes
    counted before. *)
Lemma Write_forwards_result_and_counts_witness :
  let i := mk_respInterceptor true (mk_broken_pipe 1 Examples.ab) 2 0
             Examples.GET_health false in
  let res := respInterceptor_Write Examples.cde i in
  in_int (respInterceptor_Written i + 1) /\
  res.1 = (1, Some "broken pipe"%string) /\
  respInterceptor_Written res.2 = 3.
Proof.
  intros i res.
  assert (in_int (respInterceptor_Written i + 1)) as Hfit
    by (split; vm_compute; discriminate).
  split; [exact Hfit|].
  destruct (Write_forwards_result_and_counts Examples.cde i) as (H1 & _ & _ & H4).
  split; [exact H1|exact (H4 Hfit)].
Defined.

(** C1, on the code: [WriteHeader(201)] then [WriteHeader(404)] on a new
    interceptor, with no body write between them.  The second call reaches
    the sink and [Status()] is 404. *)
Lemma second_WriteHeader_is_forwarded_and_recorded :
  let i := respInterceptor_WriteHeader 404
             (respInterceptor_WriteHeader 201
                (new_respInterceptor new_recorder Examples.GET_health)) in
  (respInterceptor_Status i).1 = 404 /\
  rec_codes (delegate i) = [201; 404].
Proof. split; reflexivity. Qed.

(** C3, at the builder that [NewLoggingBuilder] returns: a middleware is
    built, the request message label of the builder is changed, and the
    handler built before serves [GET /health].  Its log calls carry the
    labels the builder had when it was built. *)
Lemma Build_is_a_snapshot_witness :
  loggingBuilder_ok Examples.the_builder Examples.new_heap /\
  exists mw h1 h2,
    loggingBuilderImpl_Build Examples.the_builder Examples.new_heap = Some (mw, h1) /\
    run_loggingBuilder_calls Examples.growslice_double
      [call_WithRequestMessage "changed"] Examples.the_builder h1 = Some h2 /\
    (reqMsg <$> loggingBuilders h2 !! Examples.the_builder) = Some "changed"%string /\
    same_handler Examples.write_ab_cde h1 h2 /\
    Examples.outcome
      (mw Examples.write_ab_cde recorder _ new_recorder Examples.GET_health h2
         Examples.start)
    = Some ([Examples.request_entry "http request"
               [any_string "method"; any_string "GET";
                any_string "path"; any_string "/health";
                any_string "size"; any_int64 0];
             Examples.request_entry "http response"
               [any_string "status"; any_int 200;
                any_string "body_size"; any_int 5]],
            ["handler"%string]).
Proof.
  assert (loggingBuilder_ok Examples.the_builder Examples.new_heap) as Hok.
  { eexists. split; [reflexivity|].
    split; (eexists; split; [reflexivity|simpl; lia]). }
  split; [exact Hok|].
  destruct (Build_is_a_snapshot Examples.growslice_double Examples.the_builder
              Examples.new_heap Hok) as (mw & h1 & HB & Hks).
  destruct (Hks [call_WithRequestMessage "changed"]) as (h2 & Hrun & Hsame).
  assert (same_handler Examples.write_ab_cde h1 h2) as Hnext
    by (intros W RW w r o; reflexivity).
  exists mw, h1, h2. split; [exact HB|]. split; [exact Hrun|].
  rewrite (Hsame Examples.write_ab_cde Hnext recorder _ new_recorder
             Examples.GET_health Examples.start).
  assert (h2 = default h2
                 (run_loggingBuilder_calls Examples.growslice_double
                    [call_WithRequestMessage "changed"] Examples.the_builder h1))
    as Hh2 by (rewrite Hrun; reflexivity).
  assert (h1 = default h1
                 (snd <$> loggingBuilderImpl_Build Examples.the_builder
                            Examples.new_heap))
    as Hh1 by (rewrite HB; reflexivity).
  assert (mw = default mw
                 (fst <$> loggingBuilderImpl_Build Examples.the_builder
                            Examples.new_heap))
    as Hmw by (rewrite HB; reflexivity).
  split; [rewrite Hh2, Hh1; vm_compute; reflexivity|].
  split; [exact Hnext|].
  rewrite Hmw, Hh1. vm_compute. reflexivity.
Defined.

(** C7, at a builder with the request extractors [method, path] and the
    request [GET /health]: the request log call has the fields method, GET,
    path, /health, and comes before the handler's note and the response log
    call. *)
Lemma request_log_fields_follow_extractor_order_witness :
  configured_as Examples.the_builder Examples.method_path_heap
    Examples.method_path_settings
    [MethodReqInfoExtractor; PathReqInfoExtractor] Examples.default_RespInfoExtractors /\
  reqLog Examples.method_path_settings = true /\
  exists mw h1,
    loggingBuilderImpl_Build Examples.the_builder Examples.method_path_heap
      = Some (mw, h1) /\
    Examples.outcome
      (mw Examples.write_ab_cde recorder _ new_recorder Examples.GET_health h1
         Examples.start)
    = Some ([Examples.request_entry "http request"
               [any_string "method"; any_string "GET";
                any_string "path"; any_string "/health"];
             Examples.request_entry "http response"
               [any_string "status"; any_int 200;
                any_string "body_size"; any_int 5]],
            ["handler"%string]).
Proof.
  assert (configured_as Examples.the_builder Examples.method_path_heap
            Examples.method_path_settings
            [MethodReqInfoExtractor; PathReqInfoExtractor]
            Examples.default_RespInfoExtractors) as Hcfg.
  { split_and!; try reflexivity.
    all: eexists; split; [reflexivity|simpl; lia]. }
  split; [exact Hcfg|]. split; [reflexivity|].
  destruct (request_log_fields_follow_extractor_order Examples.the_builder
              Examples.method_path_heap Examples.method_path_settings _ _
              Hcfg eq_refl) as (mw & HB & Hmw).
  exists mw. eexists. split; [exact HB|].
  destruct (Hmw Examples.write_ab_cde recorder _ new_recorder Examples.GET_health
              Examples.start) as [_ Hfields].
  rewrite (Hfields eq_refl). vm_compute. reflexivity.
Defined.

(** C8, at a builder with response logging disabled and a response
    extractor that would leave a note: the handler's writes reach the sink
    it was given, the request log call is made, and there is neither a
    response log call nor a note of the extractor. *)
Lemma disabled_response_log_calls_next_on_raw_sink_witness :
  configured_as Examples.the_builder Examples.quiet_heap Examples.quiet_settings
    [MethodReqInfoExtractor; PathReqInfoExtractor; SizeReqInfoExtractor]
    (Examples.default_RespInfoExtractors ++ [Examples.noting_RespInfoExtractor]) /\
  respLog Examples.quiet_settings = false /\
  exists mw h1,
    loggingBuilderImpl_Build Examples.the_builder Examples.quiet_heap = Some (mw, h1) /\
    mw Examples.write_ab_cde recorder _ new_recorder Examples.GET_health h1
      Examples.start
    = Some (mk_recorder ∅ [] (Examples.ab ++ Examples.cde),
            mk_Obs
              [Examples.request_entry "http request"
                 [any_string "method"; any_string "GET";
                  any_string "path"; any_string "/health";
                  any_string "size"; any_int64 0]]
              ["handler"%string]).
Proof.
  assert (configured_as Examples.the_builder Examples.quiet_heap
            Examples.quiet_settings
            [MethodReqInfoExtractor; PathReqInfoExtractor; SizeReqInfoExtractor]
            (Examples.default_RespInfoExtractors ++ [Examples.noting_RespInfoExtractor]))
    as Hcfg.
  { split_and!; try reflexivity.
    all: eexists; split; [reflexivity|simpl; lia]. }
  split; [exact Hcfg|]. split; [reflexivity|].
  destruct (disabled_response_log_calls_next_on_raw_sink Examples.the_builder
              Examples.quiet_heap Examples.quiet_settings _ _
              Hcfg eq_refl) as (mw & HB & Hmw).
  exists mw. eexists. split; [exact HB|].
  rewrite Hmw. vm_compute. reflexivity.
Defined.

(** C10, at a builder whose request extractors were cleared: the request log
    call is made, with no fields. *)
Lemma empty_extractor_list_still_logs_witness :
  configured_as Examples.the_builder Examples.bare_heap Examples.bare_settings []
    Examples.default_RespInfoExtractors /\
  reqLog Examples.bare_settings = true /\
  exists mw h1,
    loggingBuilderImpl_Build Examples.the_builder Examples.bare_heap = Some (mw, h1) /\
    Examples.outcome
      (mw Examples.write_ab_cde recorder _ new_recorder Examples.GET_health h1
         Examples.start)
    = Some ([Examples.request_entry "http request" [];
             Examples.request_entry "http response"
               [any_string "status"; any_int 200;
                any_string "body_size"; any_int 5]],
            ["handler"%string]).
Proof.
  assert (configured_as Examples.the_builder Examples.bare_heap
            Examples.bare_settings [] Examples.default_RespInfoExtractors) as Hcfg.
  { split_and!; try reflexivity.
    all: eexists; split; [reflexivity|simpl; lia]. }
  split; [exact Hcfg|]. split; [reflexivity|].
  destruct (empty_extractor_list_still_logs Examples.the_builder
              Examples.bare_heap Examples.bare_settings _
              Hcfg eq_refl) as (mw & HB & Hmw).
  exists mw. eexists. split; [exact HB|].
  rewrite Hmw. vm_compute. reflexivity.
Defined.

(** C6, at an interceptor builder whose filter turns every request down and
    whose callbacks would leave a note: the only note is the handler's, and
    the handler's writes reach the sink it was given. *)
Lemma filtered_out_request_passes_through_witness :
  interceptorBuilders Examples.filtering_heap !! Examples.the_interceptor
    = Some Examples.filtering_interceptor /\
  filterFn Examples.filtering_interceptor Examples.GET_health Examples.start
    = Some (false, Examples.start) /\
  interceptorBuilderImpl_Build Examples.the_interceptor Examples.write_ab_cde
    recorder _ new_recorder Examples.GET_health Examples.filtering_heap Examples.start
  = Some (mk_recorder ∅ [] (Examples.ab ++ Examples.cde),
          mk_Obs [] ["handler"%string]).
Proof.
  assert (interceptorBuilders Examples.filtering_heap !! Examples.the_interceptor
          = Some Examples.filtering_interceptor) as Hb by reflexivity.
  split; [exact Hb|]. split; [reflexivity|].
  rewrite (filtered_out_request_passes_through Examples.the_interceptor
             Examples.filtering_heap Examples.filtering_interceptor
             Examples.write_ab_cde recorder _ new_recorder Examples.GET_health
             Examples.start Examples.start Hb eq_refl).
  reflexivity.
Defined.

(** C2, on the code: a middleware is built from a builder whose callbacks
    leave a note, then [WithRequestFilter] is called on the builder with a
    filter that turns every request down.  In the heap before that call the
    built handler runs both callbacks; in the heap after it, the same
    handler runs neither. *)
Lemma built_handler_follows_later_WithRequestFilter :
  let mw := interceptorBuilderImpl_Build Examples.the_interceptor in
  interceptorBuilderImpl_WithRequestFilter (fun _ => ret false)
    Examples.the_interceptor Examples.noting_heap
  = Some (Examples.the_interceptor, Examples.filtering_heap) /\
  Examples.outcome
    (mw Examples.write_ab_cde recorder _ new_recorder Examples.GET_health
       Examples.noting_heap Examples.start)
  = Some ([], ["before"; "handler"; "after"]%string) /\
  Examples.outcome
    (mw Examples.write_ab_cde recorder _ new_recorder Examples.GET_health
       Examples.filtering_heap Examples.start)
  = Some ([], ["handler"%string]).
Proof. split_and!; reflexivity. Qed.

(** * Further properties *)

(** ** The interceptor: what reaches the sink, and what is recorded *)

Section MoreInterceptorFacts.
Context {W : Type} `{RW : !ResponseWriter.t W}.
Implicit Types (i : respInterceptor W) (cs : list call).

(** What an interceptor hands to its delegate, and what comes back. *)
Lemma run_calls_forwarded cs i :
  (run_calls cs i).1 = (run_calls (forwarded_from (wroteHeader i) cs) (delegate i)).1 /\
  delegate (run_calls cs i).2
  = (run_calls (forwarded_from (wroteHeader i) cs) (delegate i)).2.
Proof.
  revert i. induction cs as [|[b|c] cs IH]; intros i; simpl.
  - done.
  - unfold respInterceptor_Write.
    destruct (ResponseWriter.Write b (delegate i)) as [[size err] d] eqn:Hw.
    match goal with
    | |- context [run_calls cs ?j] => destruct (IH j) as [IH1 IH2]
    end.
    simpl in IH1, IH2.
    destruct (run_calls cs _) as [rs i2].
    destruct (run_calls (forwarded_from true cs) d) as [rs' d2].
    simpl in *. by subst.
  - unfold respInterceptor_WriteHeader.
    destruct (wroteHeader i) eqn:Hwh; simpl.
    + specialize (IH i). by rewrite Hwh in IH.
    + match goal with
      | |- context [run_calls cs ?j] => specialize (IH j)
      end.
      simpl in IH. exact IH.
Qed.

(** X1. An interceptor passes every [Write] on to its delegate, and the
    [WriteHeader] calls made before the first [Write]; a [WriteHeader] after
    a [Write] does not reach the delegate.  The results of the [Write] calls
    are those of the delegate. *)
Theorem interceptor_passes_on cs i :
  (run_calls cs i).1 = (run_calls (forwarded_from (wroteHeader i) cs) (delegate i)).1 /\
  delegate (run_calls cs i).2
  = (run_calls (forwarded_from (wroteHeader i) cs) (delegate i)).2.
Proof. apply run_calls_forwarded. Qed.

(** Once the flag is set it stays set, and the status stays as it is. *)
Lemma run_calls_wrote cs i :
  wroteHeader i = true ->
  wroteHeader (run_calls cs i).2 = true /\ status (run_calls cs i).2 = status i.
Proof.
  revert i. induction cs as [|[b|c] cs IH]; intros i Hi; simpl.
  - done.
  - unfold respInterceptor_Write.
    destruct (ResponseWriter.Write b (delegate i)) as [[size err] d].
    match goal with
    | |- context [run_calls cs ?j] => specialize (IH j eq_refl)
    end.
    by destruct (run_calls cs _).
  - unfold respInterceptor_WriteHeader. rewrite Hi. simpl. by apply IH.
Qed.

(** Before any body write, the status is that of the last header write. *)
Lemma run_calls_status cs i :
  wroteHeader i = false ->
  status (run_calls cs i).2 = default (status i) (last (early_codes cs)).
Proof.
  revert i. induction cs as [|[b|c] cs IH]; intros i Hi; simpl.
  - done.
  - unfold respInterceptor_Write.
    destruct (ResponseWriter.Write b (delegate i)) as [[size err] d].
    match goal with
    | |- context [run_calls cs ?j] => destruct (run_calls_wrote cs j eq_refl) as [_ Hs]
    end.
    by destruct (run_calls cs _).
  - unfold respInterceptor_WriteHeader. rewrite Hi. simpl.
    rewrite IH by done. simpl.
    destruct (early_codes cs) as [|c' cs'] eqn:E; [done|].
    rewrite last_cons_cons.
    destruct (last (c' :: cs')) eqn:El; [done|].
    by apply last_None in El.
Qed.

(** X2. On a new interceptor, [Status()] is the code of the last
    [WriteHeader] made before the first [Write] (not of the first), and 200
    when there is none or that code is 0. *)
Theorem Status_is_last_early_code cs (w : W) (r : http_Request) :
  (respInterceptor_Status (run_calls cs (new_respInterceptor w r)).2).1
  = (let s := default 0 (last (early_codes cs)) in if s =? 0 then 200 else s).
Proof.
  unfold respInterceptor_Status. rewrite run_calls_status by done. simpl.
  by destruct (default 0 (last (early_codes cs)) =? 0).
Qed.
End MoreInterceptorFacts.

Section MoreInterceptorFacts2.
Context {W : Type} `{RW : !ResponseWriter.t W}.
Implicit Types (i j : respInterceptor W) (cs : list call).

(** With the flag set only the body writes are passed on. *)
Lemma forwarded_from_true cs :
  forwarded_from true cs = call_Write <$> written_slices cs.
Proof. induction cs as [|[b|c] cs IH]; simpl; [done| |done]. by rewrite IH. Qed.

(** X3. After a [Write], whatever calls follow, the recorded status does
    not change any more and only the body writes reach the delegate. *)
Theorem headers_after_body_are_dropped b cs i :
  let i1 := (respInterceptor_Write b i).2 in
  status (run_calls cs i1).2 = status i /\
  delegate (run_calls cs i1).2
  = (run_calls (call_Write <$> written_slices cs) (delegate i1)).2.
Proof.
  intros i1.
  assert (wroteHeader i1 = true /\ status i1 = status i) as [Hw Hs].
  { subst i1. unfold respInterceptor_Write.
    by destruct (ResponseWriter.Write b (delegate i)) as [[size err] d]. }
  split; [rewrite <- Hs; by apply run_calls_wrote|].
  rewrite (proj2 (run_calls_forwarded cs i1)), Hw. by rewrite forwarded_from_true.
Qed.

(** Runs from two interceptors that differ only by the stored default. *)
Lemma same_but_default_run cs i j :
  same_but_default i j ->
  (run_calls cs i).1 = (run_calls cs j).1 /\
  same_but_default (run_calls cs i).2 (run_calls cs j).2.
Proof.
  revert i j. induction cs as [|[b|c] cs IH]; intros i j Hij; simpl.
  - done.
  - destruct Hij as (Hw & Hd & Hn & Hr & Hs).
    unfold respInterceptor_Write. rewrite <- Hd, <- Hn.
    destruct (ResponseWriter.Write b (delegate i)) as [[size err] d].
    set (i1 := mk_respInterceptor true d (wrap_int (written i + size)) (status i)
                 (req i) (sendStatus i)).
    set (j1 := mk_respInterceptor true d (wrap_int (written i + size)) (status j)
                 (req j) (sendStatus j)).
    destruct (IH i1 j1) as [IH1 IH2]; [by unfold same_but_default; split_and!|].
    destruct (run_calls cs i1) as [rs i2], (run_calls cs j1) as [rs' j2].
    simpl in *. by subst.
  - destruct Hij as (Hw & Hd & Hn & Hr & Hs).
    unfold respInterceptor_WriteHeader. rewrite <- Hw.
    destruct (wroteHeader i) eqn:Hwi; simpl.
    + apply IH. unfold same_but_default. split_and!; [congruence|done..].
    + apply IH. unfold same_but_default.
      split_and!; simpl; try done; [by rewrite Hd|by left].
Qed.

(** X4. Reading [Status()] stores the default in the interceptor, and that
    changes nothing that can be seen later: after any calls, the results,
    the delegate, [Written()] and [Status()] are what they would have been
    had [Status()] not been read before. *)
Theorem Status_does_not_disturb cs i :
  let i0 := (respInterceptor_Status i).2 in
  (run_calls cs i0).1 = (run_calls cs i).1 /\
  delegate (run_calls cs i0).2 = delegate (run_calls cs i).2 /\
  respInterceptor_Written (run_calls cs i0).2 = respInterceptor_Written (run_calls cs i).2 /\
  (respInterceptor_Status (run_calls cs i0).2).1
  = (respInterceptor_Status (run_calls cs i).2).1.
Proof.
  intros i0.
  assert (same_but_default i i0) as Hii.
  { subst i0. unfold respInterceptor_Status, same_but_default.
    destruct (status i =? 0) eqn:E; simpl.
    - apply Z.eqb_eq in E. split_and!; try reflexivity. right. by split.
    - split_and!; try reflexivity. by left. }
  destruct (same_but_default_run cs i i0 Hii) as [H1 (Hw & Hd & Hn & Hr & Hs)].
  split_and!; try done.
  unfold respInterceptor_Status.
  destruct Hs as [Hs|[Hs Hs']].
  - rewrite Hs. by destruct (status (run_calls cs i0).2 =? 0).
  - rewrite Hs, Hs'. reflexivity.
Qed.
End MoreInterceptorFacts2.

Lemma run_calls_app {W : Type} `{RW : !ResponseWriter.t W} (cs1 cs2 : list call) (w : W) :
  run_calls (cs1 ++ cs2) w
  = ((run_calls cs1 w).1 ++ (run_calls cs2 (run_calls cs1 w).2).1,
     (run_calls cs2 (run_calls cs1 w).2).2).
Proof.
  revert w. induction cs1 as [|[b|c] cs1 IH]; intros w; simpl.
  - by destruct (run_calls cs2 w).
  - destruct (ResponseWriter.Write b w) as [res w1]. rewrite IH.
    by destruct (run_calls cs1 w1).
  - apply IH.
Qed.

Lemma sum_Z_app (xs ys : list Z) : sum_Z (xs ++ ys) = sum_Z xs + sum_Z ys.
Proof.
  unfold sum_Z. induction xs as [|x xs IH]; simpl; [done|]. rewrite IH. lia.
Qed.

Lemma sum_Z_nonneg (xs : list Z) : Forall (fun x => 0 <= x) xs -> 0 <= sum_Z xs.
Proof.
  unfold sum_Z. induction 1 as [|x xs Hx _ IH]; simpl; lia.
Qed.

Section Monotone.
Context {W : Type} `{RW : !ResponseWriter.t W}.

(** X21. [Written()] never decreases while a handler runs, when the sink
    reports no negative byte count and the total fits Go's [int]: after
    any calls it is at least what it was after a part of them. *)
Theorem Written_never_decreases (cs1 cs2 : list call) (w : W) (r : http_Request) :
  let res := run_calls (cs1 ++ cs2) (new_respInterceptor w r) in
  Forall (fun x => 0 <= x) (res.1.*1) ->
  in_int (sum_Z (res.1.*1)) ->
  respInterceptor_Written (run_calls cs1 (new_respInterceptor w r)).2
  <= respInterceptor_Written res.2.
Proof.
  intros res Hpos Hfit. unfold respInterceptor_Written.
  subst res. rewrite run_calls_app in Hpos, Hfit |- *. simpl in *.
  rewrite fmap_app in Hpos, Hfit. rewrite sum_Z_app in Hfit.
  apply Forall_app in Hpos as [Hpos1 Hpos2].
  apply sum_Z_nonneg in Hpos1, Hpos2.
  rewrite (run_calls_written cs2) by (rewrite run_calls_written by apply in_int_0;
                                       apply wrap_int_in_int).
  rewrite !(run_calls_written cs1) by apply in_int_0. simpl.
  rewrite wrap_int_add_l, !Z.add_0_l.
  rewrite (wrap_int_id (sum_Z _ + sum_Z _)) by exact Hfit.
  rewrite wrap_int_id; [lia|].
  destruct Hfit as [Hlo Hhi]. unfold in_int, MinInt, MaxInt in *. lia.
Qed.
End Monotone.

Section Stacked.
Context {W : Type} `{RW : !ResponseWriter.t W}.

(** Calls keep two stacked interceptors in agreement. *)
Lemma layers_agree_run cs (o : respInterceptor (respInterceptor W)) :
  layers_agree o -> layers_agree (run_calls cs o).2.
Proof.
  revert o. induction cs as [|[b|c] cs IH]; intros o (Hw & Hn & Hs); simpl.
  - done.
  - unfold respInterceptor_Write at 1. simpl.
    unfold respInterceptor_Write at 1.
    destruct (ResponseWriter.Write b (delegate (delegate o))) as [[size err] d].
    match goal with
    | |- context [run_calls cs ?a] => specialize (IH a)
    end.
    destruct (run_calls cs _) as [rs o2]. apply IH.
    unfold layers_agree. split_and!; simpl; try done. by rewrite Hn.
  - unfold respInterceptor_WriteHeader at 1. simpl.
    destruct (wroteHeader o) eqn:Hwo; simpl;
      [apply IH; unfold layers_agree; split_and!; [congruence|done..]|].
    apply IH. unfold layers_agree, respInterceptor_WriteHeader. rewrite <- Hw. simpl.
    split_and!; simpl; try done.
Qed.

(** X5. Of two interceptors stacked on a sink, as nested middlewares make
    them, the outer one reports the same [Written()] and [Status()] as the
    inner one after any calls. *)
Theorem stacked_interceptors_agree cs (w : W) (r r' : http_Request) :
  let o := (run_calls cs (new_respInterceptor (new_respInterceptor w r) r')).2 in
  respInterceptor_Written o = respInterceptor_Written (delegate o) /\
  (respInterceptor_Status o).1 = (respInterceptor_Status (delegate o)).1.
Proof.
  intros o.
  destruct (layers_agree_run cs (new_respInterceptor (new_respInterceptor w r) r'))
    as (Hw & Hn & Hs); [by unfold layers_agree|].
  fold o in Hw, Hn, Hs. split; [exact Hn|].
  unfold respInterceptor_Status. rewrite Hs.
  by destruct (status (delegate o) =? 0).
Qed.
End Stacked.

(** ** The logging middleware: the response log *)

Section MoreLoggingFacts.
Context {U : Type} (growslice : nat -> nat -> nat).
Implicit Types (h : Heap U) (lb c : loc) (b cv : loggingBuilderImpl).
Local Open Scope go_scope.

(** The loop over the response extractors evaluates them in list order on
    the interceptor and appends the flattened pairs to [args]. *)
Lemma range_respInfoFns_eval {I : Type} `{!InterceptedResponse.t I}
    (fns : list (RespInfoExtractorFn U)) (ir : I) args o :
  range_respInfoFns fns ir args o
  = (let* (kvs, ir') := eval_resp_in_order fns ir in
     ret (args ++ flatten_fields kvs, ir')) o.
Proof.
  revert ir args o. induction fns as [|fn fns IH]; intros ir args o; simpl.
  - unfold bind, ret. by rewrite app_nil_r.
  - unfold bind at 1 2 3. destruct (fn I _ ir o) as [[[[k v] ir1] o1]|]; [|done].
    rewrite IH. unfold bind, ret.
    destruct (eval_resp_in_order fns ir1 o1) as [[[kvs ir2] o2]|]; [|done].
    simpl. by rewrite <- !app_assoc.
Qed.

(** The second [if] of the handler of a clone, with response logging
    enabled, is the response-log step of the builder as it was. *)
Lemma dispatch_cloned lb h0 b fq fp (next : http_Handler U) W RW (w : W) r o :
  configured_as lb h0 b fq fp ->
  respLog b = true ->
  loggingBuilderImpl_dispatch (cloned h0 b fq fp).1.2 next W RW w r
    (cloned h0 b fq fp).2 o
  = response_log_step (l b) (lvl b) (respMsg b) fp next W RW w r
      (cloned h0 b fq fp).2 o.
Proof.
  intros (Hb & Hq & Hp & Hfq & Hfp) Hresp.
  destruct (slice_ok_elems _ _ Hp) as (fp' & Hfp' & Hlp).
  rewrite Hfp in Hfp'. injection Hfp' as <-.
  unfold loggingBuilderImpl_dispatch, response_log_step.
  change (respLog (cloned h0 b fq fp).1.2) with (respLog b). rewrite Hresp.
  unfold bind.
  destruct (next _ _ (new_respInterceptor w r) r _ o) as [[ir1 o1]|]; [|done].
  assert (slice_elems (respInfoFns (cloned h0 b fq fp).1.2)
            (respArrays (cloned h0 b fq fp).2) = Some fp) as ->.
  { unfold slice_elems, cloned; simpl. rewrite lookup_insert_eq.
    by rewrite firstn_all2 by lia. }
  rewrite range_respInfoFns_eval. unfold bind, ret.
  by destruct (eval_resp_in_order fp ir1 o1) as [[[kvs ir2] o2]|].
Qed.

(** X6. With response logging enabled, the built handler, after the
    request-log step, runs the wrapped handler on a new interceptor, then
    evaluates the response extractors in list order on the interceptor the
    handler left, makes one log call with the configured logger, level and
    response message whose fields are the label/value pairs in that order,
    and leaves the sink as the interceptor's delegate. *)
Theorem response_log_follows_the_handler lb h0 b fq fp :
  configured_as lb h0 b fq fp ->
  respLog b = true ->
  let h1 := (cloned h0 b fq fp).2 in
  exists mw,
    loggingBuilderImpl_Build lb h0 = Some (mw, h1) /\
    forall (next : http_Handler U) W RW w r o,
      mw next W RW w r h1 o
      = (request_log_step (reqLog b) (l b) (lvl b) (reqMsg b) fq r ;;
         response_log_step (l b) (lvl b) (respMsg b) fp next W RW w r h1) o.
Proof.
  intros Hcfg Hresp h1.
  destruct (Build_spec lb h0 b fq fp Hcfg) as (mw & HB & Hmw).
  exists mw. split; [exact HB|]. intros next W RW w r o.
  rewrite Hmw. unfold bind.
  destruct (request_log_step _ _ _ _ _ _ o) as [[[] o1]|]; [|done].
  by apply (dispatch_cloned lb).
Qed.

(** X7. With both logging steps disabled the built middleware is the
    identity: the built handler is the wrapped handler. *)
Theorem both_logs_disabled_is_identity lb h0 b fq fp :
  configured_as lb h0 b fq fp ->
  reqLog b = false ->
  respLog b = false ->
  let h1 := (cloned h0 b fq fp).2 in
  exists mw,
    loggingBuilderImpl_Build lb h0 = Some (mw, h1) /\
    forall (next : http_Handler U) W RW w r o,
      mw next W RW w r h1 o = next W RW w r h1 o.
Proof.
  intros Hcfg Hreq Hresp h1.
  destruct (Build_spec lb h0 b fq fp Hcfg) as (mw & HB & Hmw).
  exists mw. split; [exact HB|]. intros next W RW w r o.
  rewrite Hmw. unfold request_log_step, loggingBuilderImpl_dispatch, bind.
  change (respLog (cloned h0 b fq fp).1.2) with (respLog b).
  by rewrite Hreq, Hresp.
Qed.
End MoreLoggingFacts.

(** ** The logging builder: defaults, adding and clearing extractors *)

Section BuilderApiFacts.
Context {U : Type} (growslice : nat -> nat -> nat).
Implicit Types (h : Heap U) (lb c : loc) (b cv : loggingBuilderImpl).
Local Open Scope go_scope.

(** A new builder has the default settings and shares the package-level
    slices. *)
Lemma NewLoggingBuilder_configured h fq fp :
  globals_ok h ->
  slice_elems (DefaultReqInfoExtractors h) (reqArrays h) = Some fq ->
  slice_elems (DefaultRespInfoExtractors h) (respArrays h) = Some fp ->
  configured_as (NewLoggingBuilder h).1 (NewLoggingBuilder h).2
    (mk_loggingBuilderImpl slog_Default slog_LevelInfo true true
       DefHttpReqMessage DefHttpRespMessage
       (DefaultReqInfoExtractors h) (DefaultRespInfoExtractors h)) fq fp.
Proof.
  intros [Hq Hp] Hfq Hfp. unfold configured_as, NewLoggingBuilder; simpl.
  rewrite lookup_insert_eq. done.
Qed.

(** X8. [DefaultLoggingMiddleware], around a handler that makes the calls
    [cs] on its sink: the sink is left as the interceptor's delegate, and
    two log calls are made with the default logger at level info, "http
    request" with the fields method, path, size of the request, then "http
    response" with the fields status and body_size that the interceptor
    reports. *)
Theorem DefaultLoggingMiddleware_logs_request_and_response :
  exists (mw : Middleware U) h,
    package_init = Some (mw, h) /\
    forall cs W RW (w : W) r o,
      let ir := (run_calls cs (new_respInterceptor w r)).2 in
      mw (calls_handler cs) W RW w r h o
      = Some (delegate ir,
              mk_Obs
                (logs o ++
                 [mk_slog_Log slog_Default (Context r) slog_LevelInfo "http request"
                    [any_string "method"; any_string (Method r);
                     any_string "path"; any_string (URL_Path r);
                     any_string "size"; any_int64 (ContentLength r)];
                  mk_slog_Log slog_Default (Context r) slog_LevelInfo "http response"
                    [any_string "status"; any_int (respInterceptor_Status ir).1;
                     any_string "body_size"; any_int (respInterceptor_Written ir)]])
                (user o)).
Proof.
  pose proof (NewLoggingBuilder_configured (init_slices : Heap U)
                [MethodReqInfoExtractor; PathReqInfoExtractor; SizeReqInfoExtractor]
                [StatusRespInfoExtractor; SizeRespInfoExtractor]
                init_slices_ok eq_refl eq_refl) as Hcfg.
  destruct (Build_spec _ _ _ _ _ Hcfg) as (mw & HB & Hmw).
  exists mw. eexists. split; [exact HB|].
  intros cs W RW w r o ir. rewrite Hmw. unfold bind.
  change (request_log_step _ _ _ _ _ r o) with
    (Some (tt, mk_Obs
                 (logs o ++
                  [mk_slog_Log slog_Default (Context r) slog_LevelInfo "http request"
                     [any_string "method"; any_string (Method r);
                      any_string "path"; any_string (URL_Path r);
                      any_string "size"; any_int64 (ContentLength r)]])
                 (user o))).
  cbv beta iota.
  rewrite (dispatch_cloned _ _ _ _ _ _ _ _ _ _ _ Hcfg eq_refl).
  unfold response_log_step, calls_handler, bind, ret. fold ir.
  simpl. unfold StatusRespInfoExtractor, SizeRespInfoExtractor, bind, ret. simpl.
  unfold respInterceptor_Status, respInterceptor_Written, Logger_Log.
  destruct (status ir =? 0); simpl; by rewrite <- app_assoc.
Qed.

(** X9. [AddRequestInfoExtractors] and [AddResponseInfoExtractors] append
    the given extractors, in order, after those the builder has, and change
    nothing else of its configuration. *)
Theorem Add_appends_extractors lb h b fq fp xs ys :
  configured_as lb h b fq fp ->
  (exists h' b',
     loggingBuilderImpl_AddRequestInfoExtractors growslice xs lb h = Some (lb, h') /\
     configured_as lb h' b' (fq ++ xs) fp /\ same_settings b b') /\
  (exists h' b',
     loggingBuilderImpl_AddResponseInfoExtractors growslice ys lb h = Some (lb, h') /\
     configured_as lb h' b' fq (fp ++ ys) /\ same_settings b b').
Proof.
  intros (Hb & Hq & Hp & Hfq & Hfp). split.
  - unfold loggingBuilderImpl_AddRequestInfoExtractors. rewrite Hb.
    destruct (append_ok nil_ReqInfoExtractorFn growslice _ xs _ Hq)
      as (s' & m' & old & -> & Hs' & Hold & Hnew).
    rewrite Hfq in Hold. injection Hold as <-.
    eexists _, (mk_loggingBuilderImpl (l b) (lvl b) (reqLog b) (respLog b) (reqMsg b)
                  (respMsg b) s' (respInfoFns b)).
    split; [reflexivity|]. split; [|by unfold same_settings].
    unfold configured_as; simpl. rewrite lookup_insert_eq. done.
  - unfold loggingBuilderImpl_AddResponseInfoExtractors. rewrite Hb.
    destruct (append_ok nil_RespInfoExtractorFn growslice _ ys _ Hp)
      as (s' & m' & old & -> & Hs' & Hold & Hnew).
    rewrite Hfp in Hold. injection Hold as <-.
    eexists _, (mk_loggingBuilderImpl (l b) (lvl b) (reqLog b) (respLog b) (reqMsg b)
                  (respMsg b) (reqInfoFns b) s').
    split; [reflexivity|]. split; [|by unfold same_settings].
    unfold configured_as; simpl. rewrite lookup_insert_eq. done.
Qed.

(** X10. [ClearRequestInfoExtractors] and [ClearResponseInfoExtractors]
    leave the builder with no extractor of that kind, and change nothing
    else of its configuration. *)
Theorem Clear_removes_extractors lb h b fq fp :
  configured_as lb h b fq fp ->
  (exists h' b',
     loggingBuilderImpl_ClearRequestInfoExtractors lb h = Some (lb, h') /\
     configured_as lb h' b' [] fp /\ same_settings b b') /\
  (exists h' b',
     loggingBuilderImpl_ClearResponseInfoExtractors lb h = Some (lb, h') /\
     configured_as lb h' b' fq [] /\ same_settings b b').
Proof.
  intros (Hb & Hq & Hp & Hfq & Hfp). split.
  - unfold loggingBuilderImpl_ClearRequestInfoExtractors. rewrite Hb.
    eexists _, (mk_loggingBuilderImpl (l b) (lvl b) (reqLog b) (respLog b) (reqMsg b)
                  (respMsg b) (make nil_ReqInfoExtractorFn 0 (reqArrays h)).1
                  (respInfoFns b)).
    split; [reflexivity|]. split; [|by unfold same_settings].
    unfold configured_as; simpl. rewrite lookup_insert_eq.
    split_and!; try done.
    + apply (make_ok nil_ReqInfoExtractorFn 0).
    + unfold slice_elems; simpl. by rewrite lookup_insert_eq.
  - unfold loggingBuilderImpl_ClearResponseInfoExtractors. rewrite Hb.
    eexists _, (mk_loggingBuilderImpl (l b) (lvl b) (reqLog b) (respLog b) (reqMsg b)
                  (respMsg b) (reqInfoFns b)
                  (make nil_RespInfoExtractorFn 0 (respArrays h)).1).
    split; [reflexivity|]. split; [|by unfold same_settings].
    unfold configured_as; simpl. rewrite lookup_insert_eq.
    split_and!; try done.
    + apply (make_ok nil_RespInfoExtractorFn 0).
    + unfold slice_elems; simpl. by rewrite lookup_insert_eq.
Qed.
End BuilderApiFacts.

(** ** Builders that share the package's default slices *)

Section AppendKeeps.
Context {T : Type} (zero : T) (growslice : nat -> nat -> nat).
Implicit Types (m : gmap loc (list T)) (s : slice) (p q : loc).

(** [append] on a slice that is over another array, or has no spare
    capacity, leaves the array at [q] as it was; and the slice it returns
    is again such a slice. *)
Lemma append_keeps s xs m s' m' q :
  append zero growslice s xs m = Some (s', m') ->
  slice_ok m s ->
  is_Some (m !! q) ->
  apart_or_full s (Some q) ->
  m' !! q = m !! q /\ apart_or_full s' (Some q).
Proof.
  unfold append. intros Happ Hok Hq Hapart.
  destruct (len s + length xs <=? cap s)%nat eqn:Hcap.
  - apply Nat.leb_le in Hcap. destruct (array s) as [p|] eqn:Hp.
    + destruct (m !! p) as [a|] eqn:Ha; [|done].
      injection Happ as <- <-. unfold apart_or_full; simpl.
      destruct (decide (p = q)) as [->|Hne].
      * destruct Hapart as [?|[?|Hfull]]; [congruence|congruence|].
        assert (length xs = 0%nat) as Hn by lia.
        destruct xs; [|done]. simpl.
        rewrite Nat.add_0_r, take_drop, insert_id by done.
        split; [done|]. right; right. simpl. lia.
      * rewrite lookup_insert_ne by done. split; [done|].
        right; left. congruence.
    + destruct xs; [|done]. injection Happ as <- <-.
      split; [done|]. left. done.
  - destruct (slice_elems s m) as [old|]; [|done].
    injection Happ as <- <-. unfold apart_or_full; simpl. split.
    + rewrite lookup_insert_ne; [done|]. symmetry. by apply fresh_not_allocated.
    + right; left. intros [= E]. by apply (fresh_not_allocated m q).
Qed.
End AppendKeeps.

Section Isolation.
Context {U : Type} (growslice : nat -> nat -> nat).
Implicit Types (h : Heap U) (lb c p q : loc) (b cv : loggingBuilderImpl).

Lemma update_keeps_reqArray f lb h h' q :
  (forall b, reqInfoFns (f b) = reqInfoFns b /\ respInfoFns (f b) = respInfoFns b) ->
  snd <$> update_loggingBuilder f lb h = Some h' ->
  (forall b, loggingBuilders h !! lb = Some b -> apart_or_full (reqInfoFns b) (Some q)) ->
  reqArrays h' !! q = reqArrays h !! q /\
  (forall b, loggingBuilders h' !! lb = Some b -> apart_or_full (reqInfoFns b) (Some q)).
Proof.
  intros Hf Hup Hsep. unfold update_loggingBuilder in Hup.
  destruct (loggingBuilders h !! lb) as [b|] eqn:Hb; [|done].
  injection Hup as <-. simpl. split; [done|].
  intros b'. rewrite lookup_insert_eq. intros [= <-].
  destruct (Hf b) as [-> _]. by apply Hsep.
Qed.

Lemma update_keeps_respArray f lb h h' q :
  (forall b, reqInfoFns (f b) = reqInfoFns b /\ respInfoFns (f b) = respInfoFns b) ->
  snd <$> update_loggingBuilder f lb h = Some h' ->
  (forall b, loggingBuilders h !! lb = Some b -> apart_or_full (respInfoFns b) (Some q)) ->
  respArrays h' !! q = respArrays h !! q /\
  (forall b, loggingBuilders h' !! lb = Some b -> apart_or_full (respInfoFns b) (Some q)).
Proof.
  intros Hf Hup Hsep. unfold update_loggingBuilder in Hup.
  destruct (loggingBuilders h !! lb) as [b|] eqn:Hb; [|done].
  injection Hup as <-. simpl. split; [done|].
  intros b'. rewrite lookup_insert_eq. intros [= <-].
  destruct (Hf b) as [_ ->]. by apply Hsep.
Qed.

(** A call on the builder at [lb] leaves a request array alone that the
    builder cannot append to in place. *)
Lemma call_keeps_reqArray k lb h h' q :
  run_loggingBuilder_call growslice k lb h = Some h' ->
  loggingBuilder_ok lb h ->
  is_Some (reqArrays h !! q) ->
  (forall b, loggingBuilders h !! lb = Some b -> apart_or_full (reqInfoFns b) (Some q)) ->
  reqArrays h' !! q = reqArrays h !! q /\
  (forall b, loggingBuilders h' !! lb = Some b -> apart_or_full (reqInfoFns b) (Some q)).
Proof.
  intros Hrun (b0 & Hb & Hq & Hp) Hall Hsep.
  destruct k; simpl in Hrun;
    try (eapply update_keeps_reqArray; [|exact Hrun|exact Hsep]; by intros []).
  - unfold loggingBuilderImpl_ClearRequestInfoExtractors in Hrun. rewrite Hb in Hrun.
    injection Hrun as <-. simpl.
    rewrite lookup_insert_ne by (symmetry; by apply fresh_not_allocated).
    split; [done|]. intros b'. rewrite lookup_insert_eq. intros [= <-]. simpl.
    right; left. intros [= E]. by apply (fresh_not_allocated (reqArrays h) q).
  - unfold loggingBuilderImpl_AddRequestInfoExtractors in Hrun. rewrite Hb in Hrun.
    destruct (append _ _ _ _ _) as [[s reqA]|] eqn:Happ; [|done].
    injection Hrun as <-. simpl.
    destruct (append_keeps _ _ _ _ _ _ _ q Happ Hq Hall (Hsep _ Hb)) as [Hsame Hs].
    split; [done|]. intros b'. rewrite lookup_insert_eq. by intros [= <-].
  - unfold loggingBuilderImpl_ClearResponseInfoExtractors in Hrun. rewrite Hb in Hrun.
    injection Hrun as <-. simpl. split; [done|].
    intros b'. rewrite lookup_insert_eq. intros [= <-]. simpl. by apply Hsep.
  - unfold loggingBuilderImpl_AddResponseInfoExtractors in Hrun. rewrite Hb in Hrun.
    destruct (append _ _ _ _ _) as [[s respA]|] eqn:Happ; [|done].
    injection Hrun as <-. simpl. split; [done|].
    intros b'. rewrite lookup_insert_eq. intros [= <-]. simpl. by apply Hsep.
  - destruct (clone_spec lb h b0 Hb Hq Hp) as (fq & fp & _ & _ & _ & _ & Hcl).
    unfold loggingBuilderImpl_Build in Hrun. rewrite Hcl in Hrun.
    injection Hrun as <-. unfold cloned; simpl.
    rewrite lookup_insert_ne by (symmetry; by apply fresh_not_allocated).
    split; [done|]. intros b'. rewrite lookup_insert_ne; [apply Hsep|].
    intros E. apply (is_fresh (dom (loggingBuilders h))).
    rewrite E. apply elem_of_dom. by rewrite Hb.
Qed.

(** The same for a response array. *)
Lemma call_keeps_respArray k lb h h' q :
  run_loggingBuilder_call growslice k lb h = Some h' ->
  loggingBuilder_ok lb h ->
  is_Some (respArrays h !! q) ->
  (forall b, loggingBuilders h !! lb = Some b -> apart_or_full (respInfoFns b) (Some q)) ->
  respArrays h' !! q = respArrays h !! q /\
  (forall b, loggingBuilders h' !! lb = Some b -> apart_or_full (respInfoFns b) (Some q)).
Proof.
  intros Hrun (b0 & Hb & Hq & Hp) Hall Hsep.
  destruct k; simpl in Hrun;
    try (eapply update_keeps_respArray; [|exact Hrun|exact Hsep]; by intros []).
  - unfold loggingBuilderImpl_ClearRequestInfoExtractors in Hrun. rewrite Hb in Hrun.
    injection Hrun as <-. simpl. split; [done|].
    intros b'. rewrite lookup_insert_eq. intros [= <-]. simpl. by apply Hsep.
  - unfold loggingBuilderImpl_AddRequestInfoExtractors in Hrun. rewrite Hb in Hrun.
    destruct (append _ _ _ _ _) as [[s reqA]|] eqn:Happ; [|done].
    injection Hrun as <-. simpl. split; [done|].
    intros b'. rewrite lookup_insert_eq. intros [= <-]. simpl. by apply Hsep.
  - unfold loggingBuilderImpl_ClearResponseInfoExtractors in Hrun. rewrite Hb in Hrun.
    injection Hrun as <-. simpl.
    rewrite lookup_insert_ne by (symmetry; by apply fresh_not_allocated).
    split; [done|]. intros b'. rewrite lookup_insert_eq. intros [= <-]. simpl.
    right; left. intros [= E]. by apply (fresh_not_allocated (respArrays h) q).
  - unfold loggingBuilderImpl_AddResponseInfoExtractors in Hrun. rewrite Hb in Hrun.
    destruct (append _ _ _ _ _) as [[s respA]|] eqn:Happ; [|done].
    injection Hrun as <-. simpl.
    destruct (append_keeps _ _ _ _ _ _ _ q Happ Hp Hall (Hsep _ Hb)) as [Hsame Hs].
    split; [done|]. intros b'. rewrite lookup_insert_eq. by intros [= <-].
  - destruct (clone_spec lb h b0 Hb Hq Hp) as (fq & fp & _ & _ & _ & _ & Hcl).
    unfold loggingBuilderImpl_Build in Hrun. rewrite Hcl in Hrun.
    injection Hrun as <-. unfold cloned; simpl.
    rewrite lookup_insert_ne by (symmetry; by apply fresh_not_allocated).
    split; [done|]. intros b'. rewrite lookup_insert_ne; [apply Hsep|].
    intros E. apply (is_fresh (dom (loggingBuilders h))).
    rewrite E. apply elem_of_dom. by rewrite Hb.
Qed.

(** A call on the builder at [lb] changes no other builder and does not
    assign the package-level slices. *)
Lemma call_keeps_others k lb h h' p :
  run_loggingBuilder_call growslice k lb h = Some h' ->
  p ≠ lb ->
  is_Some (loggingBuilders h !! p) ->
  loggingBuilders h' !! p = loggingBuilders h !! p /\
  DefaultReqInfoExtractors h' = DefaultReqInfoExtractors h /\
  DefaultRespInfoExtractors h' = DefaultRespInfoExtractors h.
Proof.
  intros Hrun Hne Hp.
  assert (fresh (dom (loggingBuilders h)) ≠ p) as Hfresh.
  { intros E. apply (is_fresh (dom (loggingBuilders h))).
    rewrite E. by apply elem_of_dom. }
  destruct k; simpl in Hrun;
    try (unfold loggingBuilderImpl_WithLogger, loggingBuilderImpl_WithLevel,
           loggingBuilderImpl_WithRequestMessage, loggingBuilderImpl_WithResponseMessage,
           loggingBuilderImpl_DisableResponseLog, loggingBuilderImpl_DisableRequestLog,
           update_loggingBuilder in Hrun;
         destruct (loggingBuilders h !! lb) as [b|] eqn:Hb; [|done];
         injection Hrun as <-; simpl; by rewrite lookup_insert_ne).
  - unfold loggingBuilderImpl_ClearRequestInfoExtractors in Hrun.
    destruct (loggingBuilders h !! lb) as [b|] eqn:Hb; [|done].
    injection Hrun as <-; simpl; by rewrite lookup_insert_ne.
  - unfold loggingBuilderImpl_AddRequestInfoExtractors in Hrun.
    destruct (loggingBuilders h !! lb) as [b|] eqn:Hb; [|done].
    destruct (append _ _ _ _ _) as [[s reqA]|]; [|done].
    injection Hrun as <-; simpl; by rewrite lookup_insert_ne.
  - unfold loggingBuilderImpl_ClearResponseInfoExtractors in Hrun.
    destruct (loggingBuilders h !! lb) as [b|] eqn:Hb; [|done].
    injection Hrun as <-; simpl; by rewrite lookup_insert_ne.
  - unfold loggingBuilderImpl_AddResponseInfoExtractors in Hrun.
    destruct (loggingBuilders h !! lb) as [b|] eqn:Hb; [|done].
    destruct (append _ _ _ _ _) as [[s respA]|]; [|done].
    injection Hrun as <-; simpl; by rewrite lookup_insert_ne.
  - unfold loggingBuilderImpl_Build, loggingBuilderImpl_clone in Hrun.
    destruct (loggingBuilders h !! lb) as [b|] eqn:Hb; [|done].
    destruct (make nil_ReqInfoExtractorFn _ _) as [rq reqA].
    destruct (make nil_RespInfoExtractorFn _ _) as [rs respA].
    destruct (copy rq _ reqA) as [[nq reqA']|]; [|done].
    destruct (copy rs _ respA) as [[np respA']|]; [|done].
    injection Hrun as <-; simpl; by rewrite lookup_insert_ne.
Qed.
End Isolation.

Section Independence.
Context {U : Type} (growslice : nat -> nat -> nat).
Implicit Types (h : Heap U) (lb c p q : loc) (b cv : loggingBuilderImpl).

(** A slice reads the same in two stores that agree on its array. *)
Lemma slice_view_same {T : Type} (m m' : gmap loc (list T)) (s : slice) :
  (forall q, array s = Some q -> m' !! q = m !! q) ->
  (slice_ok m s -> slice_ok m' s) /\ slice_elems s m' = slice_elems s m.
Proof.
  intros Hsame. unfold slice_ok, slice_elems.
  destruct (array s) as [q|]; [|done]. by rewrite (Hsame q eq_refl).
Qed.

Lemma apart_or_full_None (s : slice) : apart_or_full s None.
Proof.
  unfold apart_or_full. destruct (array s); [right; left; done|by left].
Qed.

(** One call on the builder at [lb1] leaves another builder that it cannot
    reach as it is configured. *)
Lemma call_keeps_other_builder k lb1 lb2 h h' b2 fq fp :
  run_loggingBuilder_call growslice k lb1 h = Some h' ->
  lb2 ≠ lb1 ->
  loggingBuilder_ok lb1 h ->
  configured_as lb2 h b2 fq fp ->
  cannot_reach lb1 b2 h ->
  configured_as lb2 h' b2 fq fp /\ cannot_reach lb1 b2 h' /\
  DefaultReqInfoExtractors h' = DefaultReqInfoExtractors h /\
  DefaultRespInfoExtractors h' = DefaultRespInfoExtractors h.
Proof.
  intros Hrun Hne Hok1 (Hb2 & Hq & Hp & Hfq & Hfp) Hreach.
  destruct (call_keeps_others growslice k lb1 h h' lb2 Hrun Hne)
    as (Hb2' & HG1 & HG2); [by rewrite Hb2|].
  assert (forall q, array (reqInfoFns b2) = Some q ->
            reqArrays h' !! q = reqArrays h !! q /\
            (forall b, loggingBuilders h' !! lb1 = Some b ->
                       apart_or_full (reqInfoFns b) (Some q))) as Hreq.
  { intros q Hq2.
    apply (call_keeps_reqArray growslice k lb1 h h' q Hrun Hok1).
    - unfold slice_ok in Hq. rewrite Hq2 in Hq. destruct Hq as (a & -> & _). done.
    - intros b Hb. rewrite <- Hq2. by apply Hreach. }
  assert (forall q, array (respInfoFns b2) = Some q ->
            respArrays h' !! q = respArrays h !! q /\
            (forall b, loggingBuilders h' !! lb1 = Some b ->
                       apart_or_full (respInfoFns b) (Some q))) as Hresp.
  { intros q Hq2.
    apply (call_keeps_respArray growslice k lb1 h h' q Hrun Hok1).
    - unfold slice_ok in Hp. rewrite Hq2 in Hp. destruct Hp as (a & -> & _). done.
    - intros b Hb. rewrite <- Hq2. by apply Hreach. }
  destruct (slice_view_same (reqArrays h) (reqArrays h') (reqInfoFns b2))
    as [Hq' Hfq']; [intros q E; by apply Hreq|].
  destruct (slice_view_same (respArrays h) (respArrays h') (respInfoFns b2))
    as [Hp' Hfp']; [intros q E; by apply Hresp|].
  split_and!; try done.
  - unfold configured_as. rewrite Hb2', Hfq', Hfp'. split_and!; auto.
  - intros b Hb. split.
    + destruct (array (reqInfoFns b2)) as [q|] eqn:E;
        [by apply (Hreq q)|apply apart_or_full_None].
    + destruct (array (respInfoFns b2)) as [q|] eqn:E;
        [by apply (Hresp q)|apply apart_or_full_None].
Qed.

(** Any calls on the builder at [lb1] leave another builder that it cannot
    reach as it is configured. *)
Lemma calls_keep_other_builder ks lb1 lb2 h b2 fq fp :
  lb2 ≠ lb1 ->
  loggingBuilder_ok lb1 h ->
  configured_as lb2 h b2 fq fp ->
  cannot_reach lb1 b2 h ->
  exists h',
    run_loggingBuilder_calls growslice ks lb1 h = Some h' /\
    configured_as lb2 h' b2 fq fp /\
    DefaultReqInfoExtractors h' = DefaultReqInfoExtractors h /\
    DefaultRespInfoExtractors h' = DefaultRespInfoExtractors h.
Proof.
  intros Hne. revert h. induction ks as [|k ks IH]; intros h Hok Hcfg Hreach; simpl.
  - by exists h.
  - destruct (loggingBuilder_call_ok growslice k lb1 h Hok) as (h1 & Hk & Hok1).
    rewrite Hk.
    destruct (call_keeps_other_builder k lb1 lb2 h h1 b2 fq fp Hk Hne Hok Hcfg Hreach)
      as (Hcfg1 & Hreach1 & HG1 & HG2).
    destruct (IH h1 Hok1 Hcfg1 Hreach1) as (h' & Hks & Hcfg' & HG1' & HG2').
    exists h'. split_and!; try done; congruence.
Qed.

(** X11. Two builders made by [NewLoggingBuilder] share the package's
    default slices, and yet whatever calls are made on the first, the
    second keeps its settings and the default extractors, and so do the
    package-level slices: the defaults have no spare capacity, so that an
    [append] to them never writes in place. *)
Theorem new_builders_are_independent h ks fq fp :
  globals_ok h ->
  globals_full h ->
  slice_elems (DefaultReqInfoExtractors h) (reqArrays h) = Some fq ->
  slice_elems (DefaultRespInfoExtractors h) (respArrays h) = Some fp ->
  let nb1 := NewLoggingBuilder h in
  let nb2 := NewLoggingBuilder nb1.2 in
  let defaults :=
    mk_loggingBuilderImpl slog_Default slog_LevelInfo true true
      DefHttpReqMessage DefHttpRespMessage
      (DefaultReqInfoExtractors h) (DefaultRespInfoExtractors h) in
  nb2.1 ≠ nb1.1 /\
  configured_as nb2.1 nb2.2 defaults fq fp /\
  exists h',
    run_loggingBuilder_calls growslice ks nb1.1 nb2.2 = Some h' /\
    configured_as nb2.1 h' defaults fq fp /\
    slice_elems (DefaultReqInfoExtractors h') (reqArrays h') = Some fq /\
    slice_elems (DefaultRespInfoExtractors h') (respArrays h') = Some fp.
Proof.
  intros Hok [Hfull1 Hfull2] Hfq Hfp nb1 nb2 defaults.
  assert (nb2.1 ≠ nb1.1) as Hne.
  { intros E.
    pose proof (is_fresh (dom (loggingBuilders nb1.2))) as Hf.
    apply Hf. change (fresh (dom (loggingBuilders nb1.2))) with nb2.1.
    rewrite E. apply elem_of_dom. subst nb1. unfold NewLoggingBuilder; simpl.
    by rewrite lookup_insert_eq. }
  assert (globals_ok nb1.2) as Hok1 by exact Hok.
  pose proof (NewLoggingBuilder_configured nb1.2 fq fp Hok1 Hfq Hfp) as Hcfg2.
  change (configured_as nb2.1 nb2.2 defaults fq fp) in Hcfg2.
  split; [exact Hne|]. split; [exact Hcfg2|].
  assert (loggingBuilders nb2.2 !! nb1.1 = Some defaults) as Hb1.
  { subst nb2. unfold NewLoggingBuilder at 1; simpl.
    rewrite lookup_insert_ne by exact Hne.
    subst nb1. unfold NewLoggingBuilder; simpl. by rewrite lookup_insert_eq. }
  destruct (calls_keep_other_builder ks nb1.1 nb2.1 nb2.2 defaults fq fp Hne)
    as (h' & Hks & Hcfg' & HG1 & HG2).
  - exists defaults. split; [exact Hb1|]. exact Hok.
  - exact Hcfg2.
  - intros b. rewrite Hb1. intros [= <-]. unfold apart_or_full; simpl.
    split; right; right; done.
  - exists h'. split; [exact Hks|]. split; [exact Hcfg'|].
    destruct Hcfg' as (_ & _ & _ & Hfq' & Hfp'). simpl in Hfq', Hfp'.
    rewrite HG1, HG2. done.
Qed.
End Independence.

(** ** Connection takeover through interceptors *)

Section HijackFacts.
Context {D : Type} `{HD : !as_Hijacker D}.

(** X12. [Hijack] on an interceptor, and on an interceptor stacked on an
    interceptor, gives what the real sink's [Hijack] gives when the sink
    has the method, and the error "hijack not supported" with nil
    connection and buffer when it has not; the outer type assertion
    succeeds on the inner interceptor either way.  What the interceptors
    recorded is unchanged. *)
Theorem Hijack_is_decided_by_the_real_sink
    (i : respInterceptor D) (o : respInterceptor (respInterceptor D)) :
  let expected (d : D) :=
    match HD with
    | None => (None, None, Some "hijack not supported"%string)
    | Some h => (@Hijacker.Hijack D h d).1
    end in
  (respInterceptor_Hijack i).1 = expected (delegate i) /\
  (respInterceptor_Hijack o).1 = expected (delegate (delegate o)) /\
  respInterceptor_Written (respInterceptor_Hijack o).2 = respInterceptor_Written o /\
  status (respInterceptor_Hijack o).2 = status o /\
  status (delegate (respInterceptor_Hijack o).2) = status (delegate o) /\
  written (delegate (respInterceptor_Hijack o).2) = written (delegate o).
Proof.
  intros expected. subst expected. unfold respInterceptor_Hijack at 1.
  unfold respInterceptor_Hijack at 1 2 3 4 5. simpl.
  unfold respInterceptor_Hijack, assert_Hijacker.
  destruct HD as [h|]; simpl.
  - destruct (Hijacker.Hijack (delegate i)) as [res d].
    by destruct (Hijacker.Hijack (delegate (delegate o))) as [res' d'].
  - done.
Qed.
End HijackFacts.

(** ** The interceptor middleware with its defaults *)

Section InterceptorDefaults.
Context {U : Type}.

(** X13. The middleware built from a builder as [NewInterceptorBuilder]
    returns it only intercepts: the filter lets every request through and
    the callbacks do nothing, so that the built handler is the wrapped
    handler run on a new interceptor, the sink being left as the
    interceptor's delegate.  Around a handler that makes the calls [cs],
    the sink receives the calls an interceptor passes on. *)
Theorem unconfigured_interceptor_only_intercepts (h : Heap U)
    (next : http_Handler U) cs W RW (w : W) r o :
  let nb := NewInterceptorBuilder h in
  interceptorBuilderImpl_Build nb.1 next W RW w r nb.2 o
  = (fun io => (delegate io.1, io.2))
      <$> next (respInterceptor W) _ (new_respInterceptor w r) r nb.2 o /\
  interceptorBuilderImpl_Build nb.1 (calls_handler cs) W RW w r nb.2 o
  = Some ((run_calls (forwarded_from false cs) w).2, o).
Proof.
  intros nb. subst nb.
  unfold interceptorBuilderImpl_Build, interceptorBuilderImpl_ServeHTTP,
    NewInterceptorBuilder; simpl.
  rewrite lookup_insert_eq. unfold bind, ret; simpl. split.
  - by destruct (next _ _ _ r _ o) as [[ir o1]|].
  - unfold calls_handler, ret. simpl.
    by rewrite (proj2 (run_calls_forwarded cs (new_respInterceptor w r))).
Qed.
End InterceptorDefaults.

(** ** Package config: [Check] and [isTls] *)

Section ConfigFacts.
Import config.
Implicit Types (s : ServerConfig).

Lemma length_0_empty (x : string) : (String.length x =? 0)%nat = true <-> x = ""%string.
Proof. destruct x; simpl; split; intros; congruence. Qed.

Lemma with_default_path_nonempty t : Path (with_default_path t) ≠ ""%string.
Proof.
  unfold with_default_path.
  destruct (String.length (Path t) =? 0)%nat eqn:E; simpl; [done|].
  intros Hp. apply length_0_empty in Hp. congruence.
Qed.

(** The error of [Check]. *)
Lemma Check_error s :
  (Check s).1 =
  if match Cors s with Some c => MaxAge c <? 0 | None => false end
  then ErrCorsBadMaxAge
  else if String.eqb (ListenAddress s) "" then ErrListenAddressMissing else None.
Proof.
  unfold Check.
  destruct (match Cors s with Some c => MaxAge c <? 0 | None => false end); [done|].
  destruct s as [la ap tls cors tel rt rht wt it]. cbn -[String.eqb String.length].
  destruct tel as [t|]; cbn -[String.eqb String.length];
    [destruct (String.length (Path t) =? 0)%nat; cbn -[String.eqb String.length]|];
    by destruct (String.eqb la "").
Qed.

(** What [Check] leaves of a config whose CORS settings it accepts. *)
Lemma Check_config s :
  match Cors s with Some c => MaxAge c <? 0 | None => false end = false ->
  (Check s).2 = set_Telemetry (with_default_path <$> Telemetry s) s.
Proof.
  intros Hc. unfold Check. rewrite Hc.
  destruct s as [la ap tls cors tel rt rht wt it]. cbn -[String.eqb String.length].
  destruct tel as [t|]; cbn -[String.eqb String.length].
  - unfold with_default_path.
    destruct (String.length (Path t) =? 0)%nat; cbn -[String.eqb String.length];
      by destruct (String.eqb la "").
  - by destruct (String.eqb la "").
Qed.

Lemma cors_accepted s :
  (forall c, Cors s = Some c -> 0 <= MaxAge c) <->
  match Cors s with Some c => MaxAge c <? 0 | None => false end = false.
Proof.
  destruct (Cors s) as [c|]; [|done]. split.
  - intros H. specialize (H c eq_refl). lia.
  - intros H c' [= <-]. lia.
Qed.

(** X14. [Check] returns nil exactly when the listen address is not empty
    and the CORS max age, if CORS is configured, is not negative; and the
    config it then leaves is valid: its telemetry path, if telemetry is
    configured, is not empty. *)
Theorem Check_accepts_valid_configs s :
  ((Check s).1 = None <->
   (ListenAddress s ≠ ""%string /\ (forall c, Cors s = Some c -> 0 <= MaxAge c))) /\
  ((Check s).1 = None -> valid (Check s).2).
Proof.
  assert ((Check s).1 = None <->
          (ListenAddress s ≠ ""%string /\
           forall c, Cors s = Some c -> 0 <= MaxAge c)) as Hiff.
  { rewrite Check_error, cors_accepted.
    destruct (match Cors s with Some c => MaxAge c <? 0 | None => false end);
      [split; [done|by intros [_ ?]]|].
    destruct (String.eqb (ListenAddress s) "") eqn:E.
    - apply String.eqb_eq in E. split; [done|]. by intros [? _].
    - apply String.eqb_neq in E. done. }
  split; [exact Hiff|].
  intros H. apply Hiff in H as [Hla Hc].
  rewrite (Check_config s (proj1 (cors_accepted s) Hc)).
  unfold valid; simpl. split_and!; [done|done|].
  intros t. destruct (Telemetry s) as [t0|]; [|done]. simpl.
  intros [= <-]. apply with_default_path_nonempty.
Qed.

(** X15. The error of [Check]: a negative CORS max age is reported first,
    even when the listen address is missing too, and the config is then
    left as it was; a missing listen address is reported otherwise, and the
    empty telemetry path has then been replaced by the default all the
    same.  In either case nothing else of the config is changed, and
    [isTls] is as before. *)
Theorem Check_errors_and_effects s :
  (forall c, Cors s = Some c -> MaxAge c < 0 ->
     Check s = (ErrCorsBadMaxAge, s)) /\
  ((forall c, Cors s = Some c -> 0 <= MaxAge c) ->
     (Check s).2 = set_Telemetry (with_default_path <$> Telemetry s) s /\
     (ListenAddress s = ""%string -> (Check s).1 = ErrListenAddressMissing)) /\
  isTls (Check s).2 = isTls s.
Proof.
  split_and!.
  - intros c Ec Hc. unfold Check. rewrite Ec.
    assert ((MaxAge c <? 0) = true) as -> by lia. done.
  - intros Hc. apply cors_accepted in Hc.
    split; [by apply Check_config|].
    intros Hla. rewrite Check_error, Hc, Hla. done.
  - destruct (match Cors s with Some c => MaxAge c <? 0 | None => false end) eqn:Hc.
    + unfold Check. by rewrite Hc.
    + by rewrite (Check_config s Hc).
Qed.

(** X16. [Check] is idempotent: a second call returns the same error and
    leaves the config as the first call left it. *)
Theorem Check_is_idempotent s :
  Check (Check s).2 = Check s.
Proof.
  destruct (match Cors s with Some c => MaxAge c <? 0 | None => false end) eqn:Hc.
  - unfold Check at 2. rewrite Hc. simpl. unfold Check. by rewrite Hc.
  - assert (forall s', Check s' = ((Check s').1, (Check s').2)) as Hpair
      by (intros s'; by destruct (Check s')).
    rewrite (Hpair (Check s).2), (Hpair s). f_equal.
    + rewrite !Check_error, (Check_config s Hc). simpl. by rewrite Hc.
    + rewrite (Check_config s Hc).
      rewrite Check_config by (simpl; exact Hc). simpl.
      destruct (Telemetry s) as [t|]; [|done]. simpl.
      assert (with_default_path (with_default_path t) = with_default_path t) as ->.
      { unfold with_default_path at 1.
        destruct (String.length (Path (with_default_path t)) =? 0)%nat eqn:E; [|done].
        apply length_0_empty in E. by apply with_default_path_nonempty in E. }
      reflexivity.
Qed.
End ConfigFacts.

(** ** Package output *)

Section AppendKeepsView.
Context {T : Type} (zero : T) (growslice : nat -> nat -> nat).
Implicit Types (m : gmap loc (list T)) (s : slice).

(** [append] to [s] leaves what another slice [s0] shows, when [s0] is over
    another array or is no longer than [s]; and [s0] is in the same position
    to the slice that [append] returns. *)
Lemma append_keeps_view s xs m s' m' s0 :
  append zero growslice s xs m = Some (s', m') ->
  slice_ok m s ->
  slice_ok m s0 ->
  array s0 ≠ array s \/ (len s0 <= len s)%nat ->
  slice_ok m' s0 /\ slice_elems s0 m' = slice_elems s0 m /\
  (array s0 ≠ array s' \/ (len s0 <= len s')%nat).
Proof.
  unfold append. intros Happ Hok Hok0 Hrel.
  destruct (len s + length xs <=? cap s)%nat eqn:Hcap.
  - destruct (array s) as [p|] eqn:Hp.
    + destruct (m !! p) as [a|] eqn:Ha; [|done].
      injection Happ as <- <-. simpl.
      unfold slice_ok in Hok. rewrite Hp, Ha in Hok.
      destruct Hok as (a' & [= <-] & Hla).
      unfold slice_ok, slice_elems in *.
      destruct (array s0) as [q|] eqn:Hq0;
        [|destruct Hok0; split_and!; try done; left; simpl; congruence].
      destruct (decide (q = p)) as [->|Hne].
      * destruct Hrel as [?|Hlen]; [done|].
        rewrite lookup_insert_eq, Ha. split_and!.
        -- eexists. split; [reflexivity|]. rewrite !length_app, length_take. lia.
        -- f_equal. rewrite take_app_le by (rewrite length_take; lia).
           rewrite take_take. f_equal. lia.
        -- right. lia.
      * rewrite lookup_insert_ne by done. split_and!; [done|done|].
        left. congruence.
    + destruct xs; [|done]. injection Happ as <- <-. rewrite Hp. done.
  - destruct (slice_elems s m) as [old|]; [|done].
    injection Happ as <- <-. simpl.
    unfold slice_ok, slice_elems in *.
    destruct (array s0) as [q|] eqn:Hq0;
      [|destruct Hok0; split_and!; try done; left; simpl; congruence].
    destruct Hok0 as (a0 & Ha0 & Hl0).
    assert (q ≠ fresh (dom m)) as Hne
      by (apply fresh_not_allocated; by rewrite Ha0).
    rewrite lookup_insert_ne by done. split_and!; [by exists a0|done|].
    left. congruence.
Qed.
End AppendKeepsView.

Section OutputFacts.
Context {U P : Type} (growslice : nat -> nat -> nat).
Context (CanonicalMIMEHeaderKey : string -> string).
Context (http_Error :
  forall (W : Type), ResponseWriter.t W -> HeaderMap W -> string -> Z -> W -> W).
Implicit Types (h : output.Heap U P) (b i : loc) (bv iv : output.builder U P)
  (mappers pre post : list (output.ErrorMapper U)).
Local Open Scope go_scope.

Local Abbreviation SendWithStatus :=
  (output.impl_SendWithStatus CanonicalMIMEHeaderKey http_Error).
Local Abbreviation SendBytes := (output.impl_SendBytes CanonicalMIMEHeaderKey).

(** The loop over the mappers passes those that decline. *)
Lemma range_ems_decline {W : Type} `{!ResponseWriter.t W} `{!HeaderMap W}
    err pre rest (w w1 : W) o o1 :
  output.all_decline err pre w o w1 o1 ->
  output.range_ems (pre ++ rest) w err o = output.range_ems rest w1 err o1.
Proof.
  induction 1 as [|em mappers w o w1 o1 w' o' Hem _ IH]; simpl; [done|].
  unfold bind at 1. by rewrite Hem.
Qed.

(** What [SendWithStatus] does with an error, in terms of the settings and
    the mappers of the output. *)
Lemma SendWithStatus_error i h iv mappers {W : Type} `{!ResponseWriter.t W}
    `{!HeaderMap W} (w : W) err status o :
  output.configured_as i h iv mappers ->
  SendWithStatus i w (output.value_error err) status h o
  = (let* (handled, w3) :=
       output.range_ems mappers
         (ResponseWriter.WriteHeader status
            (update_Header
               (output.Header_Set CanonicalMIMEHeaderKey "Content-Type" (output.ct iv)) w))
         err in
     if handled : bool then ret w3 else ret (http_Error W _ _ err status w3)) o.
Proof.
  intros (Hi & _ & Hm). unfold output.impl_SendWithStatus. by rewrite Hi, Hm.
Qed.

(** X17. When [SendWithStatus] is given an error, the mappers are asked in
    registration order, and the first one that returns true ends the call:
    the mappers after it are not called and [http.Error] is not called.
    What the declining mappers before it did to the sink stays done. *)
Theorem first_accepting_mapper_ends_the_call i h iv pre em post
    {W : Type} `{!ResponseWriter.t W} `{!HeaderMap W} (w w3 w4 : W) err status o o1 o2 :
  output.configured_as i h iv (pre ++ em :: post) ->
  output.all_decline err pre
    (ResponseWriter.WriteHeader status
       (update_Header
          (output.Header_Set CanonicalMIMEHeaderKey "Content-Type" (output.ct iv)) w))
    o w3 o1 ->
  em W _ _ w3 err o1 = Some ((true, w4), o2) ->
  SendWithStatus i w (output.value_error err) status h o = Some (w4, o2).
Proof.
  intros Hcfg Hpre Hem. rewrite (SendWithStatus_error _ _ _ _ _ _ _ _ Hcfg).
  unfold bind. rewrite (range_ems_decline _ _ _ _ _ _ _ Hpre). simpl.
  unfold bind. by rewrite Hem.
Qed.

(** X18. When [SendWithStatus] is given an error and every mapper returns
    false (or there is none), [http.Error] is called with the text of the
    error and the status given, on the sink as the mappers left it, after
    the content type and the status were written. *)
Theorem unmapped_error_goes_to_http_Error i h iv mappers
    {W : Type} `{!ResponseWriter.t W} `{!HeaderMap W} (w w3 : W) err status o o1 :
  output.configured_as i h iv mappers ->
  output.all_decline err mappers
    (ResponseWriter.WriteHeader status
       (update_Header
          (output.Header_Set CanonicalMIMEHeaderKey "Content-Type" (output.ct iv)) w))
    o w3 o1 ->
  SendWithStatus i w (output.value_error err) status h o
  = Some (http_Error W _ _ err status w3, o1).
Proof.
  intros Hcfg Hall. rewrite (SendWithStatus_error _ _ _ _ _ _ _ _ Hcfg).
  unfold bind.
  rewrite <- (app_nil_r mappers), (range_ems_decline _ _ [] _ _ _ _ Hall). done.
Qed.

(** A call on the builder leaves an output that is safe from it as it is. *)
Lemma safe_from_call k i b iv mappers h :
  output.safe_from i b iv mappers h ->
  exists h', output.run_builder_call growslice k b h = Some h' /\
             output.safe_from i b iv mappers h'.
Proof.
  intros ((Hi & Hoki & Hmi) & Hne & bv & Hb & Hokb & Hrel).
  destruct k as [contentType encFunc|mapper|]; simpl.
  - unfold output.builder_WithEncoder. rewrite Hb.
    eexists. split; [reflexivity|]. unfold output.safe_from, output.configured_as; simpl.
    rewrite lookup_insert_ne by done. split_and!; try done.
    eexists. rewrite lookup_insert_eq. split; [reflexivity|]. done.
  - unfold output.builder_WithErrorMapper. rewrite Hb.
    destruct (append_ok output.nil_ErrorMapper growslice _ [mapper] _ Hokb)
      as (s' & m' & old & Happ & Hs' & _).
    rewrite Happ.
    destruct (append_keeps_view _ _ _ _ _ _ _ (output.ems iv) Happ Hokb Hoki Hrel)
      as (Hoki' & Hmi' & Hrel').
    eexists. split; [reflexivity|]. unfold output.safe_from, output.configured_as; simpl.
    rewrite lookup_insert_ne by done. rewrite Hmi'. split_and!; try done.
    eexists. rewrite lookup_insert_eq. split; [reflexivity|]. done.
  - unfold output.builder_Build. rewrite Hb.
    eexists. split; [reflexivity|]. unfold output.safe_from, output.configured_as; simpl.
    assert (forall p, is_Some (output.builders h !! p) ->
                      fresh (dom (output.builders h)) ≠ p) as Hfresh.
    { intros p Hp E. apply (is_fresh (dom (output.builders h))).
      rewrite E. by apply elem_of_dom. }
    rewrite lookup_insert_ne by (apply Hfresh; by rewrite Hi).
    split_and!; try done.
    exists bv. rewrite lookup_insert_ne by (apply Hfresh; by rewrite Hb). done.
Qed.

Lemma safe_from_calls ks i b iv mappers h :
  output.safe_from i b iv mappers h ->
  exists h', output.run_builder_calls growslice ks b h = Some h' /\
             output.safe_from i b iv mappers h'.
Proof.
  revert h. induction ks as [|k ks IH]; intros h Hsafe; simpl.
  - by exists h.
  - destruct (safe_from_call k i b iv mappers h Hsafe) as (h1 & -> & Hsafe1).
    by apply IH.
Qed.

(** [SendBytes] and [SendWithStatus] depend on the heap only through the
    settings and the mappers of the output. *)
Lemma Send_configured i h h' iv mappers {W : Type} `{!ResponseWriter.t W}
    `{!HeaderMap W} (w : W) :
  output.configured_as i h iv mappers ->
  output.configured_as i h' iv mappers ->
  (forall v status o, SendWithStatus i w v status h' o = SendWithStatus i w v status h o) /\
  (forall data o, SendBytes i w data h' o = SendBytes i w data h o).
Proof.
  intros (Hi & _ & Hm) (Hi' & _ & Hm').
  unfold output.impl_SendWithStatus, output.impl_SendBytes.
  rewrite Hi, Hi', Hm, Hm'. done.
Qed.

(** X19. [Build] copies the encoder, the content type and the slice header
    of the mappers, not the mappers' array; and yet whatever calls are made
    on the builder afterwards ([WithEncoder], [WithErrorMapper], [Build]),
    the output built before keeps its settings and its mappers, and
    [SendWithStatus] and [SendBytes] on it behave as before: [append] writes
    behind the elements the output sees, or into a new array. *)
Theorem output_Build_is_a_snapshot b h bv mappers ks :
  output.configured_as b h bv mappers ->
  exists i h1 h2,
    output.builder_Build b h = Some (i, h1) /\
    output.configured_as i h1 bv mappers /\
    output.run_builder_calls growslice ks b h1 = Some h2 /\
    output.configured_as i h2 bv mappers /\
    forall (W : Type) (RW : ResponseWriter.t W) (HM : HeaderMap W) (w : W),
      (forall v status o,
         SendWithStatus i w v status h2 o = SendWithStatus i w v status h1 o) /\
      (forall data o, SendBytes i w data h2 o = SendBytes i w data h1 o).
Proof.
  intros (Hb & Hok & Hm). unfold output.builder_Build. rewrite Hb.
  set (i := fresh (dom (output.builders h))).
  set (h1 := output.mk_Heap _ _).
  assert (i ≠ b) as Hne.
  { intros E. apply (is_fresh (dom (output.builders h))).
    fold i. rewrite E. apply elem_of_dom. by rewrite Hb. }
  assert (output.builders h1 !! i = Some bv) as Hi.
  { subst h1; simpl. rewrite lookup_insert_eq. by destruct bv. }
  assert (output.configured_as i h1 bv mappers) as Hcfg1 by done.
  assert (output.safe_from i b bv mappers h1) as Hsafe.
  { split; [done|]. split; [done|]. exists bv. subst h1; simpl.
    rewrite lookup_insert_ne by done. split_and!; try done. by right. }
  destruct (safe_from_calls ks i b bv mappers h1 Hsafe) as (h2 & Hks & (Hcfg2 & _)).
  exists i, h1, h2. split_and!; try done.
  intros W RW HM w. by apply (Send_configured i h1 h2 bv mappers).
Qed.

(** X20. Mappers are kept in registration order: a builder from
    [NewBuilder] on which [WithErrorMapper] is called with [m1], ...,
    [mn] builds an output whose mappers are [m1], ..., [mn] in that
    order, with the content type "application/json" and the JSON encoder. *)
Theorem mappers_are_kept_in_registration_order json_Encode_indented h ms :
  let nb := output.NewBuilder json_Encode_indented h in
  exists h1 i h2 iv,
    output.run_builder_calls growslice (output.call_WithErrorMapper <$> ms) nb.1 nb.2
      = Some h1 /\
    output.builder_Build nb.1 h1 = Some (i, h2) /\
    output.configured_as i h2 iv ms /\
    output.ct iv = "application/json"%string /\
    output.encFn iv = output.defaultJsonEncoder U P json_Encode_indented.
Proof.
  intros nb.
  assert (forall ms' b h0 bv0 old,
            output.configured_as b h0 bv0 old ->
            exists h1 bv1,
              output.run_builder_calls growslice (output.call_WithErrorMapper <$> ms') b h0
                = Some h1 /\
              output.configured_as b h1 bv1 (old ++ ms') /\
              output.ct bv1 = output.ct bv0 /\ output.encFn bv1 = output.encFn bv0) as Hreg.
  { induction ms' as [|m ms' IH]; intros b h0 bv0 old Hcfg; simpl.
    - exists h0, bv0. by rewrite app_nil_r.
    - destruct Hcfg as (Hb & Hok & Hm).
      unfold output.builder_WithErrorMapper. rewrite Hb.
      destruct (append_ok output.nil_ErrorMapper growslice _ [m] _ Hok)
        as (s' & m' & old' & -> & Hs' & Hold & Hnew). simpl.
      rewrite Hm in Hold. injection Hold as <-.
      destruct (IH b (output.mk_Heap
                        (<[b := output.mk_builder (output.encFn bv0) (output.ct bv0) s']>
                           (output.builders h0)) m')
                  (output.mk_builder (output.encFn bv0) (output.ct bv0) s')
                  (old ++ [m])) as (h1 & bv1 & Hks & Hcfg1 & Hct & Henc).
      { unfold output.configured_as; simpl. by rewrite lookup_insert_eq. }
      exists h1, bv1. rewrite <- app_assoc in Hcfg1. done. }
  destruct (Hreg ms nb.1 nb.2
              (output.mk_builder (output.defaultJsonEncoder U P json_Encode_indented)
                 "application/json" nil_slice) [])
    as (h1 & bv1 & Hks & (Hb1 & Hok1 & Hm1) & Hct & Henc).
  { subst nb. unfold output.configured_as, output.NewBuilder; simpl.
    by rewrite lookup_insert_eq. }
  exists h1. unfold output.builder_Build. rewrite Hb1.
  eexists _, _, (output.mk_builder (output.encFn bv1) (output.ct bv1) (output.ems bv1)).
  split; [exact Hks|]. split; [reflexivity|].
  unfold output.configured_as; simpl. rewrite lookup_insert_eq. done.
Qed.
End OutputFacts.

(** ** The added properties at the examples *)

(** X21, at "ab", then a header write and "cde", over a recording sink: 2
    bytes are counted after the first call and 5 at the end. *)
Lemma Written_never_decreases_witness :
  let cs1 := [call_Write Examples.ab] in
  let cs2 := [call_WriteHeader 404; call_Write Examples.cde] in
  let res := run_calls (cs1 ++ cs2) (new_respInterceptor new_recorder Examples.GET_health) in
  Forall (fun x => 0 <= x) (res.1.*1) /\
  in_int (sum_Z (res.1.*1)) /\
  respInterceptor_Written
    (run_calls cs1 (new_respInterceptor new_recorder Examples.GET_health)).2 = 2 /\
  respInterceptor_Written res.2 = 5 /\
  respInterceptor_Written
    (run_calls cs1 (new_respInterceptor new_recorder Examples.GET_health)).2
  <= respInterceptor_Written res.2.
Proof.
  intros cs1 cs2 res.
  assert (Forall (fun x => 0 <= x) (res.1.*1)) as Hpos
    by (repeat constructor; vm_compute; discriminate).
  assert (in_int (sum_Z (res.1.*1))) as Hfit by (split; vm_compute; discriminate).
  split; [exact Hpos|]. split; [exact Hfit|].
  split; [reflexivity|]. split; [reflexivity|].
  exact (Written_never_decreases cs1 cs2 new_recorder Examples.GET_health Hpos Hfit).
Defined.

(** X6, at a new builder and a handler that answers 404 with "ab": the
    response log call carries 404 and 2 and comes after the handler's
    note. *)
Lemma response_log_follows_the_handler_witness :
  configured_as Examples.the_builder Examples.new_heap Cases.new_settings
    Cases.default_ReqInfoExtractors Examples.default_RespInfoExtractors /\
  respLog Cases.new_settings = true /\
  exists mw h1,
    loggingBuilderImpl_Build Examples.the_builder Examples.new_heap = Some (mw, h1) /\
    Examples.outcome
      (mw Cases.not_found recorder _ new_recorder Examples.GET_health h1 Examples.start)
    = Some ([Examples.request_entry "http request"
               [any_string "method"; any_string "GET";
                any_string "path"; any_string "/health";
                any_string "size"; any_int64 0];
             Examples.request_entry "http response"
               [any_string "status"; any_int 404;
                any_string "body_size"; any_int 2]],
            ["handler"%string]).
Proof.
  assert (configured_as Examples.the_builder Examples.new_heap Cases.new_settings
            Cases.default_ReqInfoExtractors Examples.default_RespInfoExtractors) as Hcfg.
  { split_and!; try reflexivity.
    all: eexists; split; [reflexivity|simpl; lia]. }
  split; [exact Hcfg|]. split; [reflexivity|].
  destruct (response_log_follows_the_handler Examples.the_builder Examples.new_heap
              Cases.new_settings _ _ Hcfg eq_refl) as (mw & HB & Hmw).
  exists mw. eexists. split; [exact HB|].
  rewrite Hmw. vm_compute. reflexivity.
Defined.

(** X7, at a builder with both logs disabled: the built handler leaves what
    the wrapped handler leaves, and no log call. *)
Lemma both_logs_disabled_is_identity_witness :
  configured_as Examples.the_builder Cases.silent_heap Cases.silent_settings
    Cases.default_ReqInfoExtractors Examples.default_RespInfoExtractors /\
  reqLog Cases.silent_settings = false /\
  respLog Cases.silent_settings = false /\
  exists mw h1,
    loggingBuilderImpl_Build Examples.the_builder Cases.silent_heap = Some (mw, h1) /\
    mw Cases.not_found recorder _ new_recorder Examples.GET_health h1 Examples.start
    = Some (mk_recorder ∅ [404] Examples.ab, mk_Obs [] ["handler"%string]).
Proof.
  assert (configured_as Examples.the_builder Cases.silent_heap Cases.silent_settings
            Cases.default_ReqInfoExtractors Examples.default_RespInfoExtractors) as Hcfg.
  { split_and!; try reflexivity.
    all: eexists; split; [reflexivity|simpl; lia]. }
  split; [exact Hcfg|]. split; [reflexivity|]. split; [reflexivity|].
  destruct (both_logs_disabled_is_identity Examples.the_builder Cases.silent_heap
              Cases.silent_settings _ _ Hcfg eq_refl eq_refl) as (mw & HB & Hmw).
  exists mw. eexists. split; [exact HB|].
  rewrite Hmw. vm_compute. reflexivity.
Defined.

(** X9, at a new builder: one request extractor and one response extractor
    are added behind the default ones. *)
Lemma Add_appends_extractors_witness :
  configured_as Examples.the_builder Examples.new_heap Cases.new_settings
    Cases.default_ReqInfoExtractors Examples.default_RespInfoExtractors /\
  (exists h' b',
     loggingBuilderImpl_AddRequestInfoExtractors Examples.growslice_double
       [MethodReqInfoExtractor] Examples.the_builder Examples.new_heap
     = Some (Examples.the_builder, h') /\
     configured_as Examples.the_builder h' b'
       (Cases.default_ReqInfoExtractors ++ [MethodReqInfoExtractor])
       Examples.default_RespInfoExtractors /\
     same_settings Cases.new_settings b') /\
  (exists h' b',
     loggingBuilderImpl_AddResponseInfoExtractors Examples.growslice_double
       [Examples.noting_RespInfoExtractor] Examples.the_builder Examples.new_heap
     = Some (Examples.the_builder, h') /\
     configured_as Examples.the_builder h' b' Cases.default_ReqInfoExtractors
       (Examples.default_RespInfoExtractors ++ [Examples.noting_RespInfoExtractor]) /\
     same_settings Cases.new_settings b').
Proof.
  assert (configured_as Examples.the_builder Examples.new_heap Cases.new_settings
            Cases.default_ReqInfoExtractors Examples.default_RespInfoExtractors) as Hcfg.
  { split_and!; try reflexivity.
    all: eexists; split; [reflexivity|simpl; lia]. }
  split; [exact Hcfg|].
  exact (Add_appends_extractors Examples.growslice_double Examples.the_builder
           Examples.new_heap Cases.new_settings _ _ [MethodReqInfoExtractor]
           [Examples.noting_RespInfoExtractor] Hcfg).
Defined.

(** X10, at a new builder: either list is emptied and the other one is
    kept. *)
Lemma Clear_removes_extractors_witness :
  configured_as Examples.the_builder Examples.new_heap Cases.new_settings
    Cases.default_ReqInfoExtractors Examples.default_RespInfoExtractors /\
  (exists h' b',
     loggingBuilderImpl_ClearRequestInfoExtractors Examples.the_builder Examples.new_heap
     = Some (Examples.the_builder, h') /\
     configured_as Examples.the_builder h' b' [] Examples.default_RespInfoExtractors /\
     same_settings Cases.new_settings b') /\
  (exists h' b',
     loggingBuilderImpl_ClearResponseInfoExtractors Examples.the_builder Examples.new_heap
     = Some (Examples.the_builder, h') /\
     configured_as Examples.the_builder h' b' Cases.default_ReqInfoExtractors [] /\
     same_settings Cases.new_settings b').
Proof.
  assert (configured_as Examples.the_builder Examples.new_heap Cases.new_settings
            Cases.default_ReqInfoExtractors Examples.default_RespInfoExtractors) as Hcfg.
  { split_and!; try reflexivity.
    all: eexists; split; [reflexivity|simpl; lia]. }
  split; [exact Hcfg|].
  exact (Clear_removes_extractors Examples.the_builder Examples.new_heap
           Cases.new_settings _ _ Hcfg).
Defined.

(** X11, at the package's initial heap: a second builder keeps the default
    settings and extractors while the first one is reconfigured. *)
Lemma new_builders_are_independent_witness :
  let h : Heap Examples.trace := init_slices in
  let ks := [call_ClearRequestInfoExtractors;
             call_AddResponseInfoExtractors [Examples.noting_RespInfoExtractor];
             call_WithRequestMessage "changed";
             call_DisableResponseLog] in
  let nb1 := NewLoggingBuilder h in
  let nb2 := NewLoggingBuilder nb1.2 in
  globals_ok h /\
  globals_full h /\
  slice_elems (DefaultReqInfoExtractors h) (reqArrays h)
    = Some Cases.default_ReqInfoExtractors /\
  slice_elems (DefaultRespInfoExtractors h) (respArrays h)
    = Some Examples.default_RespInfoExtractors /\
  nb2.1 ≠ nb1.1 /\
  exists h',
    run_loggingBuilder_calls Examples.growslice_double ks nb1.1 nb2.2 = Some h' /\
    configured_as nb2.1 h' Cases.new_settings
      Cases.default_ReqInfoExtractors Examples.default_RespInfoExtractors.
Proof.
  intros h ks nb1 nb2.
  assert (globals_ok h) as Hok by apply init_slices_ok.
  assert (globals_full h) as Hfull by (split; simpl; lia).
  split; [exact Hok|]. split; [exact Hfull|].
  split; [reflexivity|]. split; [reflexivity|].
  destruct (new_builders_are_independent Examples.growslice_double h ks
              Cases.default_ReqInfoExtractors Examples.default_RespInfoExtractors
              Hok Hfull eq_refl eq_refl) as (Hne & _ & h' & Hrun & Hcfg & _).
  split; [exact Hne|]. exists h'. split; [exact Hrun|exact Hcfg].
Defined.

(** X14, at a server with a listen address, a CORS max age of an hour and
    metrics enabled without a path: [Check] accepts it and leaves it
    valid, with the default metrics path. *)
Lemma Check_accepts_valid_configs_witness :
  (config.Check Cases.metrics_server).1 = None /\
  config.valid (config.Check Cases.metrics_server).2 /\
  (config.Path <$> config.Telemetry (config.Check Cases.metrics_server).2)
    = Some "/metrics"%string.
Proof.
  assert ((config.Check Cases.metrics_server).1 = None) as Hnil by reflexivity.
  split; [exact Hnil|].
  split; [|reflexivity].
  exact (proj2 (Check_accepts_valid_configs Cases.metrics_server) Hnil).
Defined.

(** X15, at a server with a negative CORS max age, no listen address and no
    metrics path: [Check] returns the CORS error and leaves the path
    empty. *)
Lemma Check_errors_and_effects_witness :
  config.Cors Cases.bad_cors_server = Some (config.mk_CorsConfig [] (-1)) /\
  config.MaxAge (config.mk_CorsConfig [] (-1)) < 0 /\
  config.Check Cases.bad_cors_server = (config.ErrCorsBadMaxAge, Cases.bad_cors_server).
Proof.
  assert (config.MaxAge (config.mk_CorsConfig [] (-1)) < 0) as Hneg by (simpl; lia).
  split; [reflexivity|]. split; [exact Hneg|].
  exact (proj1 (Check_errors_and_effects Cases.bad_cors_server) _ eq_refl Hneg).
Defined.

(** X17, at an output with the mappers declining, answering, declining: the
    first one declines, the second one answers, the third one is not
    called and neither is [http.Error]. *)
Lemma first_accepting_mapper_ends_the_call_witness :
  let ms := [Cases.declining; Cases.answering; Cases.declining] in
  let i := (Cases.built ms).1 in
  let h := (Cases.built ms).2 in
  let w4 := mk_recorder {[ "Content-Type"%string := ["application/json"%string] ]} [500]
              (String.list_byte_of_string "mapped") in
  output.configured_as i h (Cases.out_settings (mk_slice (Some 3%positive) 3 4))
    ([Cases.declining] ++ Cases.answering :: [Cases.declining]) /\
  output.all_decline "boom" [Cases.declining] Cases.after_header Examples.start
    Cases.after_header (mk_Obs [] ["declined"%string]) /\
  Cases.answering recorder _ _ Cases.after_header "boom"%string
    (mk_Obs [] ["declined"%string])
    = Some ((true, w4), mk_Obs [] ["declined"%string; "answered"%string]) /\
  output.impl_SendWithStatus Cases.canonical Cases.plain_Error i new_recorder
    (output.value_error "boom") 500 h Examples.start
  = Some (w4, mk_Obs [] ["declined"%string; "answered"%string]).
Proof.
  intros ms i h w4.
  assert (output.configured_as i h (Cases.out_settings (mk_slice (Some 3%positive) 3 4))
            ([Cases.declining] ++ Cases.answering :: [Cases.declining])) as Hcfg.
  { split_and!; try reflexivity.
    eexists; split; [reflexivity|simpl; lia]. }
  assert (output.all_decline "boom" [Cases.declining] Cases.after_header Examples.start
            Cases.after_header (mk_Obs [] ["declined"%string])) as Hpre.
  { eapply output.all_decline_cons; [reflexivity|apply output.all_decline_nil]. }
  split; [exact Hcfg|]. split; [exact Hpre|]. split; [reflexivity|].
  exact (first_accepting_mapper_ends_the_call Cases.canonical Cases.plain_Error i h
           (Cases.out_settings (mk_slice (Some 3%positive) 3 4)) [Cases.declining] Cases.answering [Cases.declining]
           new_recorder Cases.after_header w4 "boom" 500 Examples.start _ _
           Hcfg Hpre eq_refl).
Defined.

(** X18, at an output with two declining mappers: both are called, then
    [http.Error] writes the message with the status of the call. *)
Lemma unmapped_error_goes_to_http_Error_witness :
  let ms := [Cases.declining; Cases.declining] in
  let i := (Cases.built ms).1 in
  let h := (Cases.built ms).2 in
  let o1 := mk_Obs [] ["declined"%string; "declined"%string] in
  output.configured_as i h (Cases.out_settings (mk_slice (Some 2%positive) 2 2)) ms /\
  output.all_decline "boom" ms Cases.after_header Examples.start Cases.after_header o1 /\
  output.impl_SendWithStatus Cases.canonical Cases.plain_Error i new_recorder
    (output.value_error "boom") 500 h Examples.start
  = Some (Cases.plain_Error recorder _ _ "boom" 500 Cases.after_header, o1) /\
  rec_codes (Cases.plain_Error recorder _ _ "boom" 500 Cases.after_header) = [500; 500].
Proof.
  intros ms i h o1.
  assert (output.configured_as i h (Cases.out_settings (mk_slice (Some 2%positive) 2 2)) ms) as Hcfg.
  { split_and!; try reflexivity.
    eexists; split; [reflexivity|simpl; lia]. }
  assert (output.all_decline "boom" ms Cases.after_header Examples.start
            Cases.after_header o1) as Hall.
  { eapply output.all_decline_cons; [reflexivity|].
    eapply output.all_decline_cons; [reflexivity|apply output.all_decline_nil]. }
  split; [exact Hcfg|]. split; [exact Hall|]. split; [|reflexivity].
  exact (unmapped_error_goes_to_http_Error Cases.canonical Cases.plain_Error i h
           (Cases.out_settings (mk_slice (Some 2%positive) 2 2)) ms new_recorder Cases.after_header "boom" 500
           Examples.start o1 Hcfg Hall).
Defined.

(** X19, at a builder with one declining mapper: an output is built, then
    an answering mapper is registered and the encoder is replaced; the
    output still has the declining mapper only. *)
Lemma output_Build_is_a_snapshot_witness :
  let h := Cases.registered [Cases.declining] in
  let ks := [output.call_WithErrorMapper Cases.answering;
             output.call_WithEncoder "text/plain" Cases.text_encoder] in
  output.configured_as Cases.out_builder h (Cases.out_settings (mk_slice (Some 1%positive) 1 1)) [Cases.declining] /\
  exists i h1 h2,
    output.builder_Build Cases.out_builder h = Some (i, h1) /\
    output.run_builder_calls Examples.growslice_double ks Cases.out_builder h1
      = Some h2 /\
    output.configured_as i h2 (Cases.out_settings (mk_slice (Some 1%positive) 1 1)) [Cases.declining].
Proof.
  intros h ks.
  assert (output.configured_as Cases.out_builder h (Cases.out_settings (mk_slice (Some 1%positive) 1 1))
            [Cases.declining]) as Hcfg.
  { split_and!; try reflexivity.
    eexists; split; [reflexivity|simpl; lia]. }
  split; [exact Hcfg|].
  destruct (output_Build_is_a_snapshot Examples.growslice_double Cases.canonical
              Cases.plain_Error Cases.out_builder h (Cases.out_settings (mk_slice (Some 1%positive) 1 1))
              [Cases.declining] ks Hcfg)
    as (i & h1 & h2 & HB & _ & Hks & Hcfg2 & _).
  exists i, h1, h2. split; [exact HB|]. split; [exact Hks|exact Hcfg2].
Defined.
